(** * dualscreen_lvgl: the surface-splitting flush engine and its resources

    A shallow embedding of [examples/dualscreen_lvgl/dualscreen_lvgl.c]:
    the flush callback that splits a dirty area over two 960x720
    framebuffers, the simulated 2D DMA (a work-queue item that copies rows),
    and the acquisition and release of the framebuffers and draw buffers.

    Conventions.
    - [int32_t] and [uint32_t] values are integers in [Z]; every arithmetic
      operation of the source is followed by the wrap-around of its C type
      ([wrap_i32], [wrap_u32]).
    - Pointers are addresses in [Z]; pointer arithmetic is addition in [Z]
      (a flat address space, no wrap-around of addresses).
    - The program runs in a state monad over [sys]; the operating system,
      LVGL and the work queue are the environment: what they answer is read
      from a [world], one answer per call. *)

From Stdlib Require Import ZArith Lia List String.
From stdpp Require Import base tactics option countable gmultiset vector.

Local Open Scope Z_scope.

(** ** Pre-processor definitions *)

Definition SCREEN_WIDTH : Z := 960.
Definition SCREEN_HEIGHT : Z := 720.
Definition VIRTUAL_WIDTH : Z := SCREEN_WIDTH * 2.
Definition VIRTUAL_HEIGHT : Z := SCREEN_HEIGHT.
Definition COLOR_DEPTH : Z := 32.
Definition BYTES_PER_PIXEL : Z := COLOR_DEPTH / 8.

Definition NULL : Z := 0.
(** [MAP_FAILED] is [(void * )-1]. *)
Definition MAP_FAILED : Z := -1.
(** [OK], the success status of NuttX calls. *)
Definition OK : Z := 0.

(** ** Machine integers *)

Module Int.

Definition wrap_u32 (z : Z) : Z := z mod 2 ^ 32.
Definition wrap_i32 (z : Z) : Z := (z + 2 ^ 31) mod 2 ^ 32 - 2 ^ 31.

(** [int32_t] arithmetic. *)
Definition add (a b : Z) : Z := wrap_i32 (a + b).
Definition sub (a b : Z) : Z := wrap_i32 (a - b).
Definition mul (a b : Z) : Z := wrap_i32 (a * b).

(** [uint32_t] arithmetic; an [int32_t] operand is converted first. *)
Definition umul (a b : Z) : Z := wrap_u32 (wrap_u32 a * wrap_u32 b).

Definition is_u32 (z : Z) : Prop := 0 <= z < 2 ^ 32.
Definition is_i32 (z : Z) : Prop := - 2 ^ 31 <= z < 2 ^ 31.

End Int.

(** ** Private types *)

(** [dma_2d_config_t]: the parameters of one simulated 2D DMA transfer. *)
Record dma_2d_config_t := {
  src : Z;          (* const void *src *)
  dst : Z;          (* void *dst *)
  width : Z;        (* uint32_t, pixels *)
  height : Z;       (* uint32_t, rows *)
  src_stride : Z;   (* uint32_t, bytes *)
  dst_stride : Z;   (* uint32_t, bytes *)
  bpp : Z           (* uint32_t, bytes per pixel *)
}.

(** [dma_request_t]; the embedded [struct work_s] belongs to the work queue
    and is represented by the request's position in [hpwork]. *)
Record dma_request_t := {
  cfg : dma_2d_config_t;
  disp : Z;         (* lv_display_t * *)
  notify : bool
}.

(** [dualscreen_ctx_t]. *)
Record dualscreen_ctx_t := {
  fd_left : Z;
  fd_right : Z;
  mem_left : Z;
  mem_right : Z;
  stride_left : Z;
  stride_right : Z;
  fblen_left : Z;
  fblen_right : Z;
  draw_buf : Z;
  draw_buf2 : Z;
  dma_req : vec dma_request_t 2
}.

(** [lv_area_t]: an inclusive rectangle, [int32_t] coordinates. *)
Record lv_area_t := { x1 : Z; y1 : Z; x2 : Z; y2 : Z }.

(** [struct fb_planeinfo_s], the two members the program reads. *)
Record fb_planeinfo_s := { pi_stride : Z; pi_fblen : Z }.

(** Pointers to the scalar members of the context, as in [&ctx->fd_left],
    by the C type of the member: [int], [void *], [uint32_t], [size_t]. *)
Inductive int_member := Mfd_left | Mfd_right.
Inductive ptr_member := Mmem_left | Mmem_right | Mdraw_buf | Mdraw_buf2.
Inductive u32_member := Mstride_left | Mstride_right.
Inductive size_member := Mfblen_left | Mfblen_right.

Inductive member :=
  | Mint (m : int_member)
  | Mptr (m : ptr_member)
  | Mu32 (m : u32_member)
  | Msize (m : size_member).

Definition load (m : member) (c : dualscreen_ctx_t) : Z :=
  match m with
  | Mint Mfd_left => fd_left c | Mint Mfd_right => fd_right c
  | Mptr Mmem_left => mem_left c | Mptr Mmem_right => mem_right c
  | Mptr Mdraw_buf => draw_buf c | Mptr Mdraw_buf2 => draw_buf2 c
  | Mu32 Mstride_left => stride_left c | Mu32 Mstride_right => stride_right c
  | Msize Mfblen_left => fblen_left c | Msize Mfblen_right => fblen_right c
  end.

Definition store (m : member) (v : Z) (c : dualscreen_ctx_t) : dualscreen_ctx_t :=
  let 'Build_dualscreen_ctx_t fl fr ml mr sl sr bl br d1 d2 rq := c in
  match m with
  | Mint Mfd_left => Build_dualscreen_ctx_t v fr ml mr sl sr bl br d1 d2 rq
  | Mint Mfd_right => Build_dualscreen_ctx_t fl v ml mr sl sr bl br d1 d2 rq
  | Mptr Mmem_left => Build_dualscreen_ctx_t fl fr v mr sl sr bl br d1 d2 rq
  | Mptr Mmem_right => Build_dualscreen_ctx_t fl fr ml v sl sr bl br d1 d2 rq
  | Mu32 Mstride_left => Build_dualscreen_ctx_t fl fr ml mr v sr bl br d1 d2 rq
  | Mu32 Mstride_right => Build_dualscreen_ctx_t fl fr ml mr sl v bl br d1 d2 rq
  | Msize Mfblen_left => Build_dualscreen_ctx_t fl fr ml mr sl sr v br d1 d2 rq
  | Msize Mfblen_right => Build_dualscreen_ctx_t fl fr ml mr sl sr bl v d1 d2 rq
  | Mptr Mdraw_buf => Build_dualscreen_ctx_t fl fr ml mr sl sr bl br v d2 rq
  | Mptr Mdraw_buf2 => Build_dualscreen_ctx_t fl fr ml mr sl sr bl br d1 v rq
  end.

Definition store_req (i : fin 2) (r : dma_request_t) (c : dualscreen_ctx_t)
  : dualscreen_ctx_t :=
  let 'Build_dualscreen_ctx_t fl fr ml mr sl sr bl br d1 d2 rq := c in
  Build_dualscreen_ctx_t fl fr ml mr sl sr bl br d1 d2 (vinsert i r rq).

(** ** The environment *)

(** What the process holds of the operating system. *)
Inductive resource :=
  | RFd (fd : Z)                 (* an open file descriptor *)
  | RMap (addr : Z) (len : Z)    (* a memory mapping *)
  | RHeap (addr : Z).            (* a malloc'ed block *)

#[global] Instance resource_eq_dec : EqDecision resource.
Proof. solve_decision. Defined.

#[global] Instance resource_countable : Countable resource.
Proof.
  apply (inj_countable'
    (fun r => match r with
              | RFd fd => inl fd
              | RMap a l => inr (inl (a, l))
              | RHeap a => inr (inr a)
              end)
    (fun t => match t with
              | inl fd => RFd fd
              | inr (inl (a, l)) => RMap a l
              | inr (inr a) => RHeap a
              end)).
  intros []; reflexivity.
Defined.

(** What the program does to the outside, in order. *)
Inductive event :=
  | EvWorkQueue (i : fin 2) (r : dma_request_t) (ret : Z)
      (* work_queue(HPWORK, &dma_req[i].work, dma_worker, &dma_req[i], 0)
         was called with the request holding [r] and returned [ret] *)
  | EvMemcpy (d s n : Z)                  (* memcpy(d, s, n) *)
  | EvFlushReady (d : Z).                 (* lv_display_flush_ready(d) *)

(** The answers of the environment: the value returned by its n-th call
    ([open], [ioctl], [mmap], [malloc], [lv_display_create], [work_queue]),
    and the plane information [FBIOGET_PLANEINFO] fills in. *)
Record world := {
  w_ret : nat -> Z;
  w_pinfo : nat -> fb_planeinfo_s
}.

(** The state of the process. *)
Record sys := {
  g_ctx : dualscreen_ctx_t;         (* static dualscreen_ctx_t g_ctx *)
  ram : Z -> Byte.byte;             (* memory contents, by address *)
  hpwork : list (fin 2);            (* HPWORK: queued requests, oldest first *)
  live : gmultiset resource;        (* resources held *)
  calls : nat;                      (* answers consumed from the world *)
  trace : list event
}.

Definition upd_ctx (f : dualscreen_ctx_t -> dualscreen_ctx_t) (s : sys) : sys :=
  {| g_ctx := f (g_ctx s); ram := ram s; hpwork := hpwork s;
     live := live s; calls := calls s; trace := trace s |}.
Definition upd_ram (f : (Z -> Byte.byte) -> Z -> Byte.byte) (s : sys) : sys :=
  {| g_ctx := g_ctx s; ram := f (ram s); hpwork := hpwork s;
     live := live s; calls := calls s; trace := trace s |}.
Definition upd_hpwork (f : list (fin 2) -> list (fin 2)) (s : sys) : sys :=
  {| g_ctx := g_ctx s; ram := ram s; hpwork := f (hpwork s);
     live := live s; calls := calls s; trace := trace s |}.
Definition upd_live (f : gmultiset resource -> gmultiset resource) (s : sys) : sys :=
  {| g_ctx := g_ctx s; ram := ram s; hpwork := hpwork s;
     live := f (live s); calls := calls s; trace := trace s |}.
Definition tick (s : sys) : sys :=
  {| g_ctx := g_ctx s; ram := ram s; hpwork := hpwork s;
     live := live s; calls := S (calls s); trace := trace s |}.
Definition emit (e : event) (s : sys) : sys :=
  {| g_ctx := g_ctx s; ram := ram s; hpwork := hpwork s;
     live := live s; calls := calls s; trace := trace s ++ [e] |}.

(** ** The state monad *)

Definition M (A : Type) : Type := sys -> A * sys.

Definition ret {A} (a : A) : M A := fun s => (a, s).
Definition bind {A B} (m : M A) (k : A -> M B) : M B :=
  fun s => let (a, s') := m s in k a s'.
Definition modify (f : sys -> sys) : M unit := fun s => (tt, f s).
Definition gets {A} (f : sys -> A) : M A := fun s => (f s, s).
Definition exec {A} (m : M A) (s : sys) : sys := snd (m s).
Definition eval {A} (m : M A) (s : sys) : A := fst (m s).

Declare Scope prog_scope.
Delimit Scope prog_scope with prog.
Notation "'let*' x ':=' m 'in' k" := (bind m (fun x => k))
  (at level 10, x name, m at level 100, k at level 200) : prog_scope.
Notation "m ';;' k" := (bind m (fun _ => k))
  (at level 100, k at level 200, right associativity) : prog_scope.
Local Open Scope prog_scope.

(** ** External calls

    The C library, the operating system, LVGL and the NuttX work queue are
    not part of the program. Each call that returns something the program
    looks at takes its return value from the world and counts as one call;
    a successful acquisition adds the resource to [live], a release removes
    one copy of it. *)

Section Program.

Variable W : world.

Definition answer : M Z :=
  fun s => (w_ret W (calls s), tick s).

(** [open(path, O_RDWR)]: a descriptor, or a negative value. *)
Definition sys_open (path : string) : M Z :=
  let* fd := answer in
  if fd <? 0 then ret fd
  else (modify (upd_live (fun l => {[+ RFd fd +]} ⊎ l));; ret fd).

Definition sys_close (fd : Z) : M unit :=
  modify (upd_live (fun l => l ∖ {[+ RFd fd +]})).

(** [ioctl(fd, FBIOGET_VIDEOINFO, &vinfo)]; [vinfo] is never read. *)
Definition ioctl_videoinfo (fd : Z) : M Z := answer.

(** [ioctl(fd, FBIOGET_PLANEINFO, &pinfo)]. *)
Definition ioctl_planeinfo (fd : Z) : M (Z * fb_planeinfo_s) :=
  let* p := gets (fun s => w_pinfo W (calls s)) in
  let* r := answer in
  ret (r, p).

(** [mmap(NULL, len, PROT_READ | PROT_WRITE, MAP_SHARED | MAP_FILE, fd, 0)]:
    an address, or [MAP_FAILED]. *)
Definition sys_mmap (len fd : Z) : M Z :=
  let* a := answer in
  if a =? MAP_FAILED then ret a
  else (modify (upd_live (fun l => {[+ RMap a len +]} ⊎ l));; ret a).

Definition sys_munmap (addr len : Z) : M unit :=
  modify (upd_live (fun l => l ∖ {[+ RMap addr len +]})).

(** [malloc(size)]: an address, or [NULL]. *)
Definition malloc (size : Z) : M Z :=
  let* a := answer in
  if a =? NULL then ret a
  else (modify (upd_live (fun l => {[+ RHeap a +]} ⊎ l));; ret a).

Definition free (p : Z) : M unit :=
  modify (upd_live (fun l => l ∖ {[+ RHeap p +]})).

(** [lv_display_create(hor_res, ver_res)]: a display, or [NULL]. *)
Definition lv_display_create (hor ver : Z) : M Z := answer.

(** [lv_display_flush_ready(disp)]. *)
Definition lv_display_flush_ready (d : Z) : M unit :=
  modify (emit (EvFlushReady d)).

(** [memcpy(d, s, n)]: the [n] bytes at [s] now also stand at [d]. *)
Definition memcpy_ram (d s n : Z) (m : Z -> Byte.byte) : Z -> Byte.byte :=
  fun a => if (d <=? a) && (a <? d + n) then m (s + (a - d)) else m a.

Definition memcpy (d s n : Z) : M unit :=
  modify (emit (EvMemcpy d s n));;
  modify (upd_ram (memcpy_ram d s n)).

(** [work_queue(HPWORK, &dma_req[i].work, dma_worker, &dma_req[i], 0)]:
    on [OK] the request is queued behind those already pending; otherwise
    it is not queued. The value is returned to the caller. *)
Definition work_queue (i : fin 2) : M Z :=
  let* r := gets (fun s => dma_req (g_ctx s) !!! i) in
  let* rc := answer in
  modify (emit (EvWorkQueue i r rc));;
  if rc =? OK then (modify (upd_hpwork (fun q => q ++ [i]));; ret rc)
  else ret rc.

(** ** init_framebuffer

    The four outputs are pointers to members of the context; every [*fd]
    and [*mem] of the source is a load from the member. The [printf]
    diagnostics are left out. *)

Definition init_framebuffer (path : string) (fd : int_member)
  (mem : ptr_member) (stride : u32_member) (fblen : size_member) : M Z :=
  let* r := sys_open path in
  modify (upd_ctx (store (Mint fd) r));;
  let* fdv := gets (fun s => load (Mint fd) (g_ctx s)) in
  if fdv <? 0 then ret (-1)
  else
    let* fdv := gets (fun s => load (Mint fd) (g_ctx s)) in
    let* r := ioctl_videoinfo fdv in
    if r <? 0 then
      (let* fdv := gets (fun s => load (Mint fd) (g_ctx s)) in
       sys_close fdv;; ret (-1))
    else
      let* fdv := gets (fun s => load (Mint fd) (g_ctx s)) in
      let* rp := ioctl_planeinfo fdv in
      let pinfo := snd rp in
      if fst rp <? 0 then
        (let* fdv := gets (fun s => load (Mint fd) (g_ctx s)) in
         sys_close fdv;; ret (-1))
      else
        let* fdv := gets (fun s => load (Mint fd) (g_ctx s)) in
        let* a := sys_mmap (pi_fblen pinfo) fdv in
        modify (upd_ctx (store (Mptr mem) a));;
        let* memv := gets (fun s => load (Mptr mem) (g_ctx s)) in
        if memv =? MAP_FAILED then
          (let* fdv := gets (fun s => load (Mint fd) (g_ctx s)) in
           sys_close fdv;; ret (-1))
        else
          modify (upd_ctx (store (Mu32 stride) (pi_stride pinfo)));;
          modify (upd_ctx (store (Msize fblen) (pi_fblen pinfo)));;
          ret 0.

(** ** dma_worker *)

(** The loop [while (h--) { memcpy(d, s, line_bytes); s += src_stride;
    d += dst_stride; }], by the number of iterations left. *)
Fixpoint dma_rows (h : nat) (c : dma_2d_config_t) (line_bytes s d : Z)
  : M unit :=
  match h with
  | O => ret tt
  | S h' =>
      memcpy d s line_bytes;;
      dma_rows h' c line_bytes (s + src_stride c) (d + dst_stride c)
  end.

Definition dma_worker (i : fin 2) : M unit :=
  let* req := gets (fun s => dma_req (g_ctx s) !!! i) in
  let s := src (cfg req) in
  let d := dst (cfg req) in
  let line_bytes := Int.umul (width (cfg req)) (bpp (cfg req)) in
  let h := height (cfg req) in
  dma_rows (Z.to_nat h) (cfg req) line_bytes s d;;
  if notify req && negb (disp req =? NULL)
  then lv_display_flush_ready (disp req)
  else ret tt.

(** ** sim_dma_transfer_2d

    [lv_display_get_driver_data(disp)] is the address of [g_ctx], the
    driver data [create_dualscreen_display] registers. *)

Definition sim_dma_transfer_2d (c : dma_2d_config_t) (dp : Z)
  (ntf : bool) (req_idx : fin 2) : M unit :=
  modify (upd_ctx (store_req req_idx
    {| cfg := c; disp := dp; notify := ntf |}));;
  let* _ := work_queue req_idx in
  ret tt.

(** ** dualscreen_flush_cb

    [left_cfg] and [right_cfg] are the bodies of the two branches up to
    the call of [sim_dma_transfer_2d]: the [dma_cfg] each one fills in. *)

Definition left_cfg (ctx : dualscreen_ctx_t) (area : lv_area_t)
  (color_p : Z) : dma_2d_config_t :=
  let x1 := x1 area in
  let y1 := y1 area in
  let x2 := x2 area in
  let y2 := y2 area in
  let h := Int.add (Int.sub y2 y1) 1 in
  let src_stride := Int.wrap_u32 (VIRTUAL_WIDTH * BYTES_PER_PIXEL) in
  let left_x1 := x1 in
  let left_x2 := if x2 <? SCREEN_WIDTH then x2 else SCREEN_WIDTH - 1 in
  let left_w := Int.add (Int.sub left_x2 left_x1) 1 in
  {| src := color_p +
       Int.mul (Int.add (Int.mul y1 VIRTUAL_WIDTH) x1) BYTES_PER_PIXEL;
     dst := mem_left ctx +
       Int.umul y1 (stride_left ctx) +
       Int.mul left_x1 BYTES_PER_PIXEL;
     width := Int.wrap_u32 left_w;
     height := Int.wrap_u32 h;
     src_stride := src_stride;
     dst_stride := stride_left ctx;
     bpp := Int.wrap_u32 BYTES_PER_PIXEL |}.

Definition right_cfg (ctx : dualscreen_ctx_t) (area : lv_area_t)
  (color_p : Z) : dma_2d_config_t :=
  let x1 := x1 area in
  let y1 := y1 area in
  let x2 := x2 area in
  let y2 := y2 area in
  let h := Int.add (Int.sub y2 y1) 1 in
  let src_stride := Int.wrap_u32 (VIRTUAL_WIDTH * BYTES_PER_PIXEL) in
  let right_x1 :=
    if SCREEN_WIDTH <=? x1 then Int.sub x1 SCREEN_WIDTH else 0 in
  let right_x2 := Int.sub x2 SCREEN_WIDTH in
  let right_w := Int.add (Int.sub right_x2 right_x1) 1 in
  let src_x1 := if SCREEN_WIDTH <=? x1 then x1 else SCREEN_WIDTH in
  {| src := color_p +
       Int.mul (Int.add (Int.mul y1 VIRTUAL_WIDTH) src_x1) BYTES_PER_PIXEL;
     dst := mem_right ctx +
       Int.umul y1 (stride_right ctx) +
       Int.mul right_x1 BYTES_PER_PIXEL;
     width := Int.wrap_u32 right_w;
     height := Int.wrap_u32 h;
     src_stride := src_stride;
     dst_stride := stride_right ctx;
     bpp := Int.wrap_u32 BYTES_PER_PIXEL |}.

(** The statement "handle the left screen (x: 0-959)". *)
Definition flush_left (dp : Z) (area : lv_area_t) (color_p : Z) : M unit :=
  let update_right := SCREEN_WIDTH <=? x2 area in
  if x1 area <? SCREEN_WIDTH then
    let* ctx := gets g_ctx in
    sim_dma_transfer_2d (left_cfg ctx area color_p) dp
      (negb update_right) 0%fin
  else ret tt.

(** The statement "handle the right screen (x: 960-1919)". *)
Definition flush_right (dp : Z) (area : lv_area_t) (color_p : Z) : M unit :=
  let update_right := SCREEN_WIDTH <=? x2 area in
  if update_right then
    let* ctx := gets g_ctx in
    sim_dma_transfer_2d (right_cfg ctx area color_p) dp true 1%fin
  else ret tt.

Definition dualscreen_flush_cb (dp : Z) (area : lv_area_t) (color_p : Z)
  : M unit :=
  flush_left dp area color_p;;
  flush_right dp area color_p.

(** ** create_dualscreen_display

    The calls that hand the context, the callback and the buffers to LVGL
    ([lv_display_set_driver_data], [lv_display_set_flush_cb],
    [lv_display_set_buffers]) change nothing of [sys]. *)

Definition create_dualscreen_display : M Z :=
  let* r := init_framebuffer "/dev/fb0"
              Mfd_left Mmem_left Mstride_left Mfblen_left in
  if r <? 0 then ret NULL
  else
    let* r := init_framebuffer "/dev/fb1"
                Mfd_right Mmem_right Mstride_right Mfblen_right in
    if r <? 0 then
      (let* ctx := gets g_ctx in
       sys_munmap (mem_left ctx) (fblen_left ctx);;
       sys_close (fd_left ctx);;
       ret NULL)
    else
      let buf_size :=
        Int.mul (Int.mul VIRTUAL_WIDTH VIRTUAL_HEIGHT) BYTES_PER_PIXEL in
      let* p := malloc buf_size in
      modify (upd_ctx (store (Mptr Mdraw_buf) p));;
      let* ctx := gets g_ctx in
      if draw_buf ctx =? NULL then
        (sys_munmap (mem_left ctx) (fblen_left ctx);;
         sys_munmap (mem_right ctx) (fblen_right ctx);;
         sys_close (fd_left ctx);;
         sys_close (fd_right ctx);;
         ret NULL)
      else
        let* p := malloc buf_size in
        modify (upd_ctx (store (Mptr Mdraw_buf2) p));;
        let* ctx := gets g_ctx in
        if draw_buf2 ctx =? NULL then
          (free (draw_buf ctx);;
           sys_munmap (mem_left ctx) (fblen_left ctx);;
           sys_munmap (mem_right ctx) (fblen_right ctx);;
           sys_close (fd_left ctx);;
           sys_close (fd_right ctx);;
           ret NULL)
        else
          let* dp := lv_display_create VIRTUAL_WIDTH VIRTUAL_HEIGHT in
          if dp =? NULL then
            (free (draw_buf ctx);;
             free (draw_buf2 ctx);;
             sys_munmap (mem_left ctx) (fblen_left ctx);;
             sys_munmap (mem_right ctx) (fblen_right ctx);;
             sys_close (fd_left ctx);;
             sys_close (fd_right ctx);;
             ret NULL)
          else ret dp.

(** ** The execution facility

    HPWORK runs a queued request by calling [dma_worker] on it. A
    schedule is the order in which the pending requests are taken. *)

Fixpoint unqueue (i : fin 2) (q : list (fin 2)) : list (fin 2) :=
  match q with
  | [] => []
  | j :: q' => if decide (i = j) then q' else j :: unqueue i q'
  end.

Definition run_work (i : fin 2) : M unit :=
  modify (upd_hpwork (unqueue i));;
  dma_worker i.

Fixpoint run_schedule (order : list (fin 2)) : M unit :=
  match order with
  | [] => ret tt
  | i :: rest => run_work i;; run_schedule rest
  end.

(** One worker thread taking the requests oldest first. *)
Definition run_fifo : M unit :=
  let* q := gets hpwork in
  run_schedule q.

(** One flush with that worker: it runs what is queued either as soon as
    the left transfer has been submitted ([early], the worker preempts the
    callback) or not before the callback has returned, and then once more
    after the callback. *)
Definition flush_under_fifo (early : bool) (dp : Z) (area : lv_area_t)
  (color_p : Z) : M unit :=
  flush_left dp area color_p;;
  (if early then run_fifo else ret tt);;
  flush_right dp area color_p;;
  run_fifo.

End Program.

Arguments dma_rows h c line_bytes s d : simpl nomatch.

(** ** Sample inputs *)

Definition zero_cfg : dma_2d_config_t :=
  {| src := 0; dst := 0; width := 0; height := 0;
     src_stride := 0; dst_stride := 0; bpp := 0 |}.

Definition zero_req : dma_request_t :=
  {| cfg := zero_cfg; disp := NULL; notify := false |}.

(** [g_ctx] as the loader leaves it: static storage, all zero. *)
Definition ctx_zero : dualscreen_ctx_t :=
  {| fd_left := 0; fd_right := 0; mem_left := 0; mem_right := 0;
     stride_left := 0; stride_right := 0; fblen_left := 0; fblen_right := 0;
     draw_buf := 0; draw_buf2 := 0; dma_req := [# zero_req; zero_req] |}.

(** A context with both framebuffers mapped, 3840 bytes per row. *)
Definition ctx_mapped : dualscreen_ctx_t :=
  {| fd_left := 3; fd_right := 4;
     mem_left := 268435456; mem_right := 272629760;
     stride_left := 3840; stride_right := 3840;
     fblen_left := 2764800; fblen_right := 2764800;
     draw_buf := 536870912; draw_buf2 := 545259520;
     dma_req := [# zero_req; zero_req] |}.

Definition sys_of (c : dualscreen_ctx_t) : sys :=
  {| g_ctx := c; ram := fun _ => Byte.x00; hpwork := [];
     live := ∅; calls := 0; trace := [] |}.

(** An environment in which every call succeeds: descriptors and addresses
    are positive and distinct, [work_queue] answers [OK]. *)
Definition world_ok : world :=
  {| w_ret := fun n =>
       match n with
       | 0%nat => 3 | 3%nat => 268435456
       | 4%nat => 4 | 7%nat => 272629760
       | 8%nat => 536870912 | 9%nat => 545259520 | 10%nat => 553648128
       | _ => 0
       end;
     w_pinfo := fun _ => {| pi_stride := 3840; pi_fblen := 2764800 |} |}.

(** An environment that only ever answers [OK]. *)
Definition world_accept : world :=
  {| w_ret := fun _ => OK;
     w_pinfo := fun _ => {| pi_stride := 3840; pi_fblen := 2764800 |} |}.

(** An environment in which every call fails with [-EBUSY]. *)
Definition world_reject : world :=
  {| w_ret := fun _ => -16;
     w_pinfo := fun _ => {| pi_stride := 0; pi_fblen := 0 |} |}.

Definition display0 : Z := 553648128.
Definition canvas0 : Z := 536870912.

(** * The rest of the program

    [millis], [destroy_dualscreen_display] and [main]. They call LVGL for
    more than the display: what they ask of it is kept in a log of its own
    beside the state of the process. *)

(** [struct timespec], as [clock_gettime(CLOCK_MONOTONIC, &ts)] fills it. *)
Record timespec := { tv_sec : Z; tv_nsec : Z }.

(** [millis]: [uint32_t tick = ts.tv_sec * 1000 + ts.tv_nsec / 1000000].
    The sum is taken in the type of [tv_sec] and converted to [uint32_t];
    whether that type has 32 or 64 bits the result is the sum modulo
    [2^32]. The division is C's, rounding towards zero. *)
Definition millis (ts : timespec) : Z :=
  Int.wrap_u32 (tv_sec ts * 1000 + Z.quot (tv_nsec ts) 1000000).

(** The argument of [usleep] in the main loop, for the [idle] that
    [lv_timer_handler] returned: [idle = idle ? idle : 1;
    usleep(idle * 1000)], with [idle] a [uint32_t]. *)
Definition idle_sleep_us (idle : Z) : Z :=
  let idle := if idle =? 0 then 1 else idle in
  Int.umul idle 1000.

(** What the program asks of LVGL and of the board beyond the display
    driver, in order. *)
Inductive lv_call :=
  | LvBoardInit                          (* boardctl(BOARDIOC_INIT, 0) *)
  | LvInit                               (* lv_init() *)
  | LvDeinit                             (* lv_deinit() *)
  | LvTickSetCb                          (* lv_tick_set_cb(millis) *)
  | LvTouchscreenCreate (path : string) (indev : Z)
      (* lv_nuttx_touchscreen_create(path) returned indev *)
  | LvIndevSetDisplay (indev dp : Z)     (* lv_indev_set_display(indev, dp) *)
  | LvCreateTestUi                       (* create_test_ui() *)
  | LvDisplayDelete (dp : Z)             (* lv_display_delete(dp) *)
  | LvUsleep (us : Z).                   (* usleep(us) *)

Record proc := { proc_sys : sys; proc_log : list lv_call }.

Definition Proc (X : Type) : Type := proc -> X * proc.

Definition aret {X} (x : X) : Proc X := fun a => (x, a).
Definition abind {X Y} (m : Proc X) (k : X -> Proc Y) : Proc Y :=
  fun a => let (x, a') := m a in k x a'.
(** A step of the process proper. *)
Definition lift {X} (m : M X) : Proc X :=
  fun a => let (x, s') := m (proc_sys a) in
           (x, {| proc_sys := s'; proc_log := proc_log a |}).
Definition call (c : lv_call) : Proc unit :=
  fun a => (tt, {| proc_sys := proc_sys a; proc_log := proc_log a ++ [c] |}).
Definition aexec {X} (m : Proc X) (a : proc) : proc := snd (m a).
Definition aeval {X} (m : Proc X) (a : proc) : X := fst (m a).

Declare Scope proc_scope.
Delimit Scope proc_scope with proc.
Notation "'let*' x ':=' m 'in' k" := (abind m (fun x => k))
  (at level 10, x name, m at level 100, k at level 200) : proc_scope.
Notation "m ';;' k" := (abind m (fun _ => k))
  (at level 100, k at level 200, right associativity) : proc_scope.

Section Lifecycle.

Variable W : world.

Local Open Scope proc_scope.

(** ** destroy_dualscreen_display *)

Definition destroy_dualscreen_display (dp : Z) : Proc unit :=
  (if negb (dp =? NULL) then call (LvDisplayDelete dp) else aret tt);;
  let* ctx := lift (gets g_ctx) in
  (if negb (draw_buf ctx =? NULL) then
     lift (free (draw_buf ctx));;
     lift (modify (upd_ctx (store (Mptr Mdraw_buf) NULL)))
   else aret tt);;
  let* ctx := lift (gets g_ctx) in
  (if negb (draw_buf2 ctx =? NULL) then
     lift (free (draw_buf2 ctx));;
     lift (modify (upd_ctx (store (Mptr Mdraw_buf2) NULL)))
   else aret tt);;
  let* ctx := lift (gets g_ctx) in
  (if negb (mem_left ctx =? NULL) then
     lift (sys_munmap (mem_left ctx) (fblen_left ctx));;
     lift (modify (upd_ctx (store (Mptr Mmem_left) NULL)))
   else aret tt);;
  let* ctx := lift (gets g_ctx) in
  (if negb (mem_right ctx =? NULL) then
     lift (sys_munmap (mem_right ctx) (fblen_right ctx));;
     lift (modify (upd_ctx (store (Mptr Mmem_right) NULL)))
   else aret tt);;
  let* ctx := lift (gets g_ctx) in
  (if 0 <=? fd_left ctx then
     lift (sys_close (fd_left ctx));;
     lift (modify (upd_ctx (store (Mint Mfd_left) (-1))))
   else aret tt);;
  let* ctx := lift (gets g_ctx) in
  (if 0 <=? fd_right ctx then
     lift (sys_close (fd_right ctx));;
     lift (modify (upd_ctx (store (Mint Mfd_right) (-1))))
   else aret tt).

(** ** main

    [main_startup] is [main] up to its loop: it returns the exit status
    when [main] returns, and nothing when [main] enters [while (1)], which
    it never leaves. [need_boardinit] stands for [NEED_BOARDINIT] being
    defined. [lv_is_initialized] and [lv_nuttx_touchscreen_create] are
    answered by the world. *)

Definition main_startup (need_boardinit : bool) : Proc (option Z) :=
  let* initialized := lift (answer W) in
  if negb (initialized =? 0) then aret (Some (-1))
  else
    (if need_boardinit then call LvBoardInit else aret tt);;
    call LvInit;;
    call LvTickSetCb;;
    let* dp := lift (create_dualscreen_display W) in
    if dp =? NULL then
      call LvDeinit;;
      aret (Some 1)
    else
      let* indev := lift (answer W) in
      call (LvTouchscreenCreate "/dev/input0" indev);;
      (if indev =? NULL then aret tt
       else call (LvIndevSetDisplay indev dp));;
      let* indev := lift (answer W) in
      call (LvTouchscreenCreate "/dev/input1" indev);;
      (if indev =? NULL then aret tt
       else call (LvIndevSetDisplay indev dp));;
      call LvCreateTestUi;;
      aret None.

(** One turn of the loop: [lv_timer_handler()], answered by the world as a
    [uint32_t], then [usleep]. *)
Definition main_loop_turn : Proc unit :=
  let* idle := lift (answer W) in
  call (LvUsleep (idle_sleep_us (Int.wrap_u32 idle))).

End Lifecycle.

Definition proc_of (s : sys) : proc := {| proc_sys := s; proc_log := [] |}.

(** * Vocabulary of the properties *)

(** The events of [s'] that were not yet in [s]. *)
Definition since (s s' : sys) : list event :=
  drop (length (trace s)) (trace s').

Definition is_ready (e : event) : bool :=
  match e with EvFlushReady _ => true | _ => false end.
Definition is_memcpy (e : event) : bool :=
  match e with EvMemcpy _ _ _ => true | _ => false end.
Definition is_submit (e : event) : bool :=
  match e with EvWorkQueue _ _ _ => true | _ => false end.

(** How many times the completion callback fired. *)
Definition ready_count (evs : list event) : nat :=
  length (List.filter is_ready evs).

(** No row is copied once the completion callback has fired. *)
Fixpoint copies_before_ready (evs : list event) : bool :=
  match evs with
  | [] => true
  | EvFlushReady _ :: rest => forallb (fun e => negb (is_memcpy e)) rest
  | _ :: rest => copies_before_ready rest
  end.

(** The request slots of the submissions, and of those the queue took. *)
Fixpoint submitted (evs : list event) : list (fin 2) :=
  match evs with
  | [] => []
  | EvWorkQueue i _ _ :: rest => i :: submitted rest
  | _ :: rest => submitted rest
  end.

Fixpoint accepted (evs : list event) : list (fin 2) :=
  match evs with
  | [] => []
  | EvWorkQueue i _ rc :: rest =>
      if rc =? OK then i :: accepted rest else accepted rest
  | _ :: rest => accepted rest
  end.

Definition valid_area (a : lv_area_t) : Prop :=
  (0 <= x1 a /\ x1 a <= x2 a /\ x2 a < VIRTUAL_WIDTH) /\
  (0 <= y1 a /\ y1 a <= y2 a /\ y2 a < VIRTUAL_HEIGHT).

(** The pixel [(x, y)] lies in the rectangle. *)
Definition inside (a : lv_area_t) (x y : Z) : Prop :=
  x1 a <= x <= x2 a /\ y1 a <= y <= y2 a.

(** The rectangle moved by [dx] pixels to the right. *)
Definition shift_x (dx : Z) (a : lv_area_t) : lv_area_t :=
  {| x1 := x1 a + dx; y1 := y1 a; x2 := x2 a + dx; y2 := y2 a |}.

Definition area_width (a : lv_area_t) : Z := x2 a - x1 a + 1.
Definition area_height (a : lv_area_t) : Z := y2 a - y1 a + 1.

(** The address of pixel [(x, y)] of a framebuffer mapped at [base] with
    [stride] bytes per row; the row offset is a [uint32_t]. *)
Definition fb_pixel (base stride x y : Z) : Z :=
  base + Int.wrap_u32 (y * stride) + x * BYTES_PER_PIXEL.

(** The address of pixel [(x, y)] of the draw buffer at [color_p]. *)
Definition canvas_pixel (color_p x y : Z) : Z :=
  color_p + (y * VIRTUAL_WIDTH + x) * BYTES_PER_PIXEL.

(** The transfer writes exactly the rectangle [r] of the framebuffer. *)
Definition writes_rect (c : dma_2d_config_t) (base stride : Z)
  (r : lv_area_t) : Prop :=
  dst c = fb_pixel base stride (x1 r) (y1 r) /\
  dst_stride c = stride /\
  width c = area_width r /\ height c = area_height r /\
  bpp c = BYTES_PER_PIXEL.

(** The transfer reads exactly the rectangle [r] of the draw buffer. *)
Definition reads_rect (c : dma_2d_config_t) (color_p : Z)
  (r : lv_area_t) : Prop :=
  src c = canvas_pixel color_p (x1 r) (y1 r) /\
  src_stride c = VIRTUAL_WIDTH * BYTES_PER_PIXEL /\
  width c = area_width r /\ height c = area_height r /\
  bpp c = BYTES_PER_PIXEL.

(** The requests [dualscreen_flush_cb] builds, with their slots. *)
Definition left_req (c : dualscreen_ctx_t) (dp : Z) (a : lv_area_t)
  (cp : Z) : dma_request_t :=
  {| cfg := left_cfg c a cp; disp := dp;
     notify := negb (SCREEN_WIDTH <=? x2 a) |}.

Definition right_req (c : dualscreen_ctx_t) (dp : Z) (a : lv_area_t)
  (cp : Z) : dma_request_t :=
  {| cfg := right_cfg c a cp; disp := dp; notify := true |}.

(** The effect of one flush, member by member. *)
Definition flush_events (W : world) (s : sys) (dp : Z) (a : lv_area_t)
  (cp : Z) : list event :=
  (if x1 a <? SCREEN_WIDTH
   then [EvWorkQueue 0%fin (left_req (g_ctx s) dp a cp) (w_ret W (calls s))]
   else []) ++
  (if SCREEN_WIDTH <=? x2 a
   then [EvWorkQueue 1%fin (right_req (g_ctx s) dp a cp)
           (w_ret W (if x1 a <? SCREEN_WIDTH then S (calls s) else calls s))]
   else []).

Definition area0 : lv_area_t := {| x1 := 900; y1 := 10; x2 := 1020; y2 := 20 |}.
Definition area_left : lv_area_t := {| x1 := 100; y1 := 10; x2 := 200; y2 := 20 |}.
Definition area_right : lv_area_t := {| x1 := 1000; y1 := 10; x2 := 1100; y2 := 20 |}.
Definition area_inverted : lv_area_t := {| x1 := 1000; y1 := 10; x2 := 500; y2 := 20 |}.

(** The area takes neither branch of the callback. *)
Definition no_subrect (a : lv_area_t) : Prop :=
  ~ x1 a < SCREEN_WIDTH /\ ~ SCREEN_WIDTH <= x2 a.

(** C5 as the specification words it: nothing is submitted and the
    completion callback fires once, at once. *)
Definition completes_at_once (W : world) (s : sys) (dp : Z)
  (a : lv_area_t) (cp : Z) : Prop :=
  let evs := since s (exec (dualscreen_flush_cb W dp a cp) s) in
  submitted evs = [] /\ ready_count evs = 1%nat.

(** C7 as the specification words it: a transfer the work queue refused is
    either queued after all (a retry) or has been carried out by the caller
    itself by the time the callback returns. *)
Definition no_job_dropped (W : world) (s : sys) (dp : Z)
  (a : lv_area_t) (cp : Z) : Prop :=
  let s' := exec (dualscreen_flush_cb W dp a cp) s in
  let evs := since s s' in
  forall i r rc, In (EvWorkQueue i r rc) evs -> rc <> OK ->
    In i (hpwork s') \/ existsb is_memcpy evs = true.

(** Row [k] of a transfer: [n] bytes from [s + k * src_stride] to
    [d + k * dst_stride]. *)
Definition row_event (c : dma_2d_config_t) (n s d : Z) (k : nat) : event :=
  EvMemcpy (d + Z.of_nat k * dst_stride c) (s + Z.of_nat k * src_stride c) n.

Definition row_events (h : nat) (c : dma_2d_config_t) (n s d : Z)
  : list event :=
  map (row_event c n s d) (seq 0 h).

(** What one run of the worker on a request adds to the trace. *)
Definition worker_events (r : dma_request_t) : list event :=
  row_events (Z.to_nat (height (cfg r))) (cfg r)
    (Int.umul (width (cfg r)) (bpp (cfg r))) (src (cfg r)) (dst (cfg r)) ++
  (if notify r && negb (disp r =? NULL) then [EvFlushReady (disp r)] else []).

(** The fields of a transfer are [uint32_t] values. *)
Definition wf_cfg (c : dma_2d_config_t) : Prop :=
  Int.is_u32 (width c) /\ Int.is_u32 (height c) /\
  Int.is_u32 (src_stride c) /\ Int.is_u32 (dst_stride c) /\
  Int.is_u32 (bpp c).

(** C3 as the specification words it: [height] rows of [width * bpp] bytes
    each, and no byte written outside the stated range. *)
Definition copies_full_rows (i : fin 2) (st : sys) : Prop :=
  let c := cfg (dma_req (g_ctx st) !!! i) in
  let st' := exec (dma_worker i) st in
  List.filter is_memcpy (since st st') =
    row_events (Z.to_nat (height c)) c (width c * bpp c) (src c) (dst c) /\
  forall a,
    ~ (dst c <= a < dst c + (height c - 1) * dst_stride c + width c * bpp c) ->
    ram st' a = ram st a.

(** A one-row transfer whose row is [2^30] pixels of 4 bytes. *)
Definition cfg_wide : dma_2d_config_t :=
  {| src := canvas0; dst := 268435456; width := 1073741824; height := 1;
     src_stride := 7680; dst_stride := 3840; bpp := 4 |}.

Definition sys_with (c : dma_2d_config_t) : sys :=
  sys_of (store_req 0%fin {| cfg := c; disp := display0; notify := true |}
            ctx_mapped).

(** The transfer of the specification's example: 100 x 50 pixels of 4 bytes,
    4096 bytes per source row and 3840 per destination row. *)
Definition cfg_example : dma_2d_config_t :=
  {| src := canvas0; dst := 268435456; width := 100; height := 50;
     src_stride := 4096; dst_stride := 3840; bpp := 4 |}.

(** C4 as the specification words it, for one order in which the work queue
    takes the pending requests: the completion callback fires once, and no
    row is copied after it has fired. *)
Definition completes_after_all (W : world) (s : sys) (dp : Z)
  (a : lv_area_t) (cp : Z) (order : list (fin 2)) : Prop :=
  let s1 := exec (dualscreen_flush_cb W dp a cp) s in
  let s2 := exec (run_schedule order) s1 in
  ready_count (since s s2) = 1%nat /\
  copies_before_ready (since s s2) = true.

(** What a proof tracks of a state: its trace, its context, the queue and
    the number of answers consumed. *)
Definition summary (st : sys) (tr : list event) (c : dualscreen_ctx_t)
  (q : list (fin 2)) (n : nat) : Prop :=
  trace st = tr /\ g_ctx st = c /\ hpwork st = q /\ calls st = n.

(** The work queue accepts what this flush submits. *)
Definition accepts (W : world) (s : sys) : Prop :=
  w_ret W (calls s) = OK /\ w_ret W (S (calls s)) = OK.

(** The five ways [init_framebuffer] can go, by the answers to its calls,
    the first of which is call number [calls s]. *)
Inductive fb_outcome (W : world) (fd : int_member) (mem : ptr_member)
  (stride : u32_member) (fblen : size_member) (s : sys)
  : Z -> sys -> Prop :=
  | Fb_open_fails s' :
      w_ret W (calls s) < 0 ->
      g_ctx s' = store (Mint fd) (w_ret W (calls s)) (g_ctx s) ->
      live s' = live s ->
      calls s' = S (calls s) ->
      fb_outcome W fd mem stride fblen s (-1) s'
  | Fb_videoinfo_fails s' :
      0 <= w_ret W (calls s) ->
      w_ret W (S (calls s)) < 0 ->
      g_ctx s' = store (Mint fd) (w_ret W (calls s)) (g_ctx s) ->
      live s' = live s ->
      calls s' = S (S (calls s)) ->
      fb_outcome W fd mem stride fblen s (-1) s'
  | Fb_planeinfo_fails s' :
      0 <= w_ret W (calls s) ->
      0 <= w_ret W (S (calls s)) ->
      w_ret W (S (S (calls s))) < 0 ->
      g_ctx s' = store (Mint fd) (w_ret W (calls s)) (g_ctx s) ->
      live s' = live s ->
      calls s' = S (S (S (calls s))) ->
      fb_outcome W fd mem stride fblen s (-1) s'
  | Fb_mmap_fails s' :
      0 <= w_ret W (calls s) ->
      0 <= w_ret W (S (calls s)) ->
      0 <= w_ret W (S (S (calls s))) ->
      w_ret W (S (S (S (calls s)))) = MAP_FAILED ->
      g_ctx s' =
        store (Mptr mem) MAP_FAILED (store (Mint fd) (w_ret W (calls s)) (g_ctx s)) ->
      live s' = live s ->
      calls s' = S (S (S (S (calls s)))) ->
      fb_outcome W fd mem stride fblen s (-1) s'
  | Fb_mapped s' :
      0 <= w_ret W (calls s) ->
      0 <= w_ret W (S (calls s)) ->
      0 <= w_ret W (S (S (calls s))) ->
      w_ret W (S (S (S (calls s)))) <> MAP_FAILED ->
      g_ctx s' =
        store (Msize fblen) (pi_fblen (w_pinfo W (S (S (calls s)))))
          (store (Mu32 stride) (pi_stride (w_pinfo W (S (S (calls s)))))
             (store (Mptr mem) (w_ret W (S (S (S (calls s)))))
                (store (Mint fd) (w_ret W (calls s)) (g_ctx s)))) ->
      live s' =
        {[+ RMap (w_ret W (S (S (S (calls s)))))
                 (pi_fblen (w_pinfo W (S (S (calls s))))) +]}
        ⊎ ({[+ RFd (w_ret W (calls s)) +]} ⊎ live s) ->
      calls s' = S (S (S (S (calls s)))) ->
      fb_outcome W fd mem stride fblen s 0 s'.

(** An environment in which everything succeeds up to the first [mmap],
    which fails. *)
Definition world_mmap_fails : world :=
  {| w_ret := fun n =>
       match n with
       | 0%nat => 3 | 1%nat => 0 | 2%nat => 0 | _ => MAP_FAILED
       end;
     w_pinfo := fun _ => {| pi_stride := 3840; pi_fblen := 2764800 |} |}.

(** The four calls of one [init_framebuffer], from call number [t] on, all
    succeed. *)
Definition fb_ok (W : world) (t : nat) : Prop :=
  0 <= w_ret W t /\ 0 <= w_ret W (S t) /\ 0 <= w_ret W (S (S t)) /\
  w_ret W (S (S (S t))) <> MAP_FAILED.

(** Every acquisition step of [create_dualscreen_display] succeeds: both
    framebuffers, both draw buffers and the display. *)
Definition all_ok (W : world) (t : nat) : Prop :=
  fb_ok W t /\ fb_ok W (4 + t) /\
  w_ret W (8 + t)%nat <> NULL /\ w_ret W (9 + t)%nat <> NULL /\
  w_ret W (10 + t)%nat <> NULL.

(** An environment in which only the second [malloc] fails. *)
Definition world_malloc2_fails : world :=
  {| w_ret := fun n => if (n =? 9)%nat then NULL else w_ret world_ok n;
     w_pinfo := w_pinfo world_ok |}.

(** The context as [destroy_dualscreen_display] leaves it. *)
Definition cleared (c : dualscreen_ctx_t) : dualscreen_ctx_t :=
  {| fd_left := if 0 <=? fd_left c then -1 else fd_left c;
     fd_right := if 0 <=? fd_right c then -1 else fd_right c;
     mem_left := NULL; mem_right := NULL;
     stride_left := stride_left c; stride_right := stride_right c;
     fblen_left := fblen_left c; fblen_right := fblen_right c;
     draw_buf := NULL; draw_buf2 := NULL; dma_req := dma_req c |}.

(** What [destroy_dualscreen_display] releases, by the context it finds:
    one release for every member that passes its test. *)
Definition released (c : dualscreen_ctx_t) : gmultiset resource :=
  (if draw_buf c =? NULL then ∅ else {[+ RHeap (draw_buf c) +]}) ⊎
  (if draw_buf2 c =? NULL then ∅ else {[+ RHeap (draw_buf2 c) +]}) ⊎
  (if mem_left c =? NULL then ∅
   else {[+ RMap (mem_left c) (fblen_left c) +]}) ⊎
  (if mem_right c =? NULL then ∅
   else {[+ RMap (mem_right c) (fblen_right c) +]}) ⊎
  (if 0 <=? fd_left c then {[+ RFd (fd_left c) +]} else ∅) ⊎
  (if 0 <=? fd_right c then {[+ RFd (fd_right c) +]} else ∅).

(** An environment in which LVGL is not initialised and the first [open]
    fails. *)
Definition world_no_fb : world :=
  {| w_ret := fun n => match n with 0%nat => 0 | _ => -1 end;
     w_pinfo := fun _ => {| pi_stride := 0; pi_fblen := 0 |} |}.

(** An environment for [main]: LVGL is not initialised, every step of the
    creation succeeds as in [world_ok], "/dev/input0" is there and
    "/dev/input1" is not, and [lv_timer_handler] asks for 5 ms. *)
Definition world_boot : world :=
  {| w_ret := fun n =>
       match n with
       | 0%nat => 0
       | 12%nat => 570425344
       | 13%nat => NULL
       | 14%nat => 5
       | S m => w_ret world_ok m
       end;
     w_pinfo := w_pinfo world_ok |}.

(** ** Memory after a transfer *)

(** What the loop of [dma_worker] makes of the memory: [h] rows of [n]
    bytes, the first from [s] to [d], the following ones [ss] and [ds]
    bytes further. *)
Fixpoint rows_ram (h : nat) (n ss ds s d : Z) (m : Z -> Byte.byte)
  : Z -> Byte.byte :=
  match h with
  | O => m
  | S h' => rows_ram h' n ss ds (s + ss) (d + ds) (memcpy_ram d s n m)
  end.

(** What [dma_worker] makes of the memory when it runs the transfer [c]. *)
Definition worker_ram (c : dma_2d_config_t) (m : Z -> Byte.byte)
  : Z -> Byte.byte :=
  rows_ram (Z.to_nat (height c)) (Int.umul (width c) (bpp c))
    (src_stride c) (dst_stride c) (src c) (dst c) m.

(** What a proof tracks of a state when it follows the memory. *)
Definition snapshot (st : sys) (m : Z -> Byte.byte) (c : dualscreen_ctx_t)
  (q : list (fin 2)) (n : nat) : Prop :=
  ram st = m /\ g_ctx st = c /\ hpwork st = q /\ calls st = n.

(** The blocks [b1, b1 + l1) and [b2, b2 + l2) of memory do not meet. *)
Definition apart (b1 l1 b2 l2 : Z) : Prop := b1 + l1 <= b2 \/ b2 + l2 <= b1.

(** The size of the draw buffer of the virtual screen. *)
Definition CANVAS_BYTES : Z :=
  VIRTUAL_WIDTH * VIRTUAL_HEIGHT * BYTES_PER_PIXEL.

(** The rectangle lies on a surface of [w] by [VIRTUAL_HEIGHT] pixels. *)
Definition on_surface (w : Z) (r : lv_area_t) : Prop :=
  (0 <= x1 r /\ x1 r <= x2 r /\ x2 r < w) /\
  (0 <= y1 r /\ y1 r <= y2 r /\ y2 r < VIRTUAL_HEIGHT).

(** A row of the framebuffer holds a screen row, and the row offsets of
    its 720 rows fit a [uint32_t]. *)
Definition stride_ok (st : Z) : Prop :=
  SCREEN_WIDTH * BYTES_PER_PIXEL <= st /\ VIRTUAL_HEIGHT * st <= 2 ^ 32.

(** The memory is laid out for the transfers: both strides are as
    [stride_ok] wants them, and the two framebuffers (720 rows each) and
    the draw buffer at [cp] lie apart from one another. *)
Definition layout_ok (c : dualscreen_ctx_t) (cp : Z) : Prop :=
  stride_ok (stride_left c) /\ stride_ok (stride_right c) /\
  apart cp CANVAS_BYTES (mem_left c) (VIRTUAL_HEIGHT * stride_left c) /\
  apart cp CANVAS_BYTES (mem_right c) (VIRTUAL_HEIGHT * stride_right c) /\
  apart (mem_left c) (VIRTUAL_HEIGHT * stride_left c)
        (mem_right c) (VIRTUAL_HEIGHT * stride_right c).

(** Where byte [b] of pixel [(x, y)] of the virtual screen is shown: in the
    left framebuffer for [x < 960], in the right one, 960 pixels to the
    left, otherwise. *)
Definition screen_byte (c : dualscreen_ctx_t) (x y b : Z) : Z :=
  if x <? SCREEN_WIDTH
  then fb_pixel (mem_left c) (stride_left c) x y + b
  else fb_pixel (mem_right c) (stride_right c) (x - SCREEN_WIDTH) y + b.

(** The milliseconds of a [timespec], before the conversion to
    [uint32_t]. *)
Definition ms_of (ts : timespec) : Z :=
  tv_sec ts * 1000 + Z.quot (tv_nsec ts) 1000000.

(** Two readings of the clock 10 ms apart, either side of the moment the
    32-bit tick starts again from 0. *)
Definition ts_before : timespec :=
  {| tv_sec := 4294967; tv_nsec := 290000000 |}.
Definition ts_after : timespec :=
  {| tv_sec := 4294967; tv_nsec := 300000000 |}.

(** An area of the left screen with its corners exchanged. *)
Definition area_backwards : lv_area_t :=
  {| x1 := 500; y1 := 10; x2 := 100; y2 := 20 |}.

(** An environment in which only [lv_display_create] fails. *)
Definition world_no_display : world :=
  {| w_ret := fun n => if (n =? 10)%nat then NULL else w_ret world_ok n;
     w_pinfo := w_pinfo world_ok |}.

(** * Properties *)

(** ** Machine integers *)

Lemma wrap_u32_range z : Int.is_u32 (Int.wrap_u32 z).
Proof. unfold Int.is_u32, Int.wrap_u32. apply Z.mod_pos_bound. lia. Qed.

Lemma wrap_u32_small z : Int.is_u32 z -> Int.wrap_u32 z = z.
Proof. unfold Int.is_u32, Int.wrap_u32. intros H. apply Z.mod_small. lia. Qed.

Lemma wrap_i32_small z : Int.is_i32 z -> Int.wrap_i32 z = z.
Proof.
  unfold Int.is_i32, Int.wrap_i32. intros H.
  rewrite Z.mod_small by lia. lia.
Qed.

Lemma wrap_u32_le z : 0 <= z -> Int.wrap_u32 z <= z.
Proof. unfold Int.wrap_u32. intros H. apply Z.mod_le; lia. Qed.

Lemma umul_wrap a b : Int.umul a b = Int.wrap_u32 (a * b).
Proof. unfold Int.umul, Int.wrap_u32. rewrite <- Z.mul_mod by lia. reflexivity. Qed.

(** ** Reading traces *)

Lemma since_app s s' evs : trace s' = trace s ++ evs -> since s s' = evs.
Proof. intros H. unfold since. rewrite H. apply drop_app_length. Qed.

(** ** Stepping the monad *)

Ltac step :=
  unfold exec, eval, bind, ret, gets, modify in *; cbn [fst snd] in *.

Lemma exec_bind {A B} (m : M A) (k : A -> M B) s :
  exec (bind m k) s = exec (k (eval m s)) (exec m s).
Proof. step. destruct (m s); reflexivity. Qed.

Lemma eval_bind {A B} (m : M A) (k : A -> M B) s :
  eval (bind m k) s = eval (k (eval m s)) (exec m s).
Proof. step. destruct (m s); reflexivity. Qed.

Lemma exec_ret {A} (a : A) s : exec (ret a) s = s.
Proof. reflexivity. Qed.

Lemma exec_gets {A} (f : sys -> A) s : exec (gets f) s = s.
Proof. reflexivity. Qed.

Lemma eval_gets {A} (f : sys -> A) s : eval (gets f) s = f s.
Proof. reflexivity. Qed.

Lemma exec_modify f s : exec (modify f) s = f s.
Proof. reflexivity. Qed.

Lemma vlookup_store_req i r c : dma_req (store_req i r c) !!! i = r.
Proof. destruct c; cbn. apply vlookup_insert. Qed.

Lemma vlookup_store_req_ne i j r c :
  i <> j -> dma_req (store_req i r c) !!! j = dma_req c !!! j.
Proof. intros H. destruct c; cbn. by apply vlookup_insert_ne. Qed.

Lemma left_cfg_store_req i r c a cp :
  left_cfg (store_req i r c) a cp = left_cfg c a cp.
Proof. destruct c; reflexivity. Qed.

Lemma right_cfg_store_req i r c a cp :
  right_cfg (store_req i r c) a cp = right_cfg c a cp.
Proof. destruct c; reflexivity. Qed.

(** What one submission does to the state. *)
Lemma sim_dma_transfer_2d_exec W c dp ntf i s :
  exec (sim_dma_transfer_2d W c dp ntf i) s =
    let r := {| cfg := c; disp := dp; notify := ntf |} in
    let rc := w_ret W (calls s) in
    {| g_ctx := store_req i r (g_ctx s); ram := ram s;
       hpwork := if rc =? OK then hpwork s ++ [i] else hpwork s;
       live := live s; calls := S (calls s);
       trace := trace s ++ [EvWorkQueue i r rc] |}.
Proof.
  unfold sim_dma_transfer_2d, work_queue, answer. step.
  cbn. rewrite vlookup_store_req.
  destruct (w_ret W (calls s) =? OK); reflexivity.
Qed.

Lemma flush_left_exec W dp a cp s :
  exec (flush_left W dp a cp) s =
    if x1 a <? SCREEN_WIDTH then
      exec (sim_dma_transfer_2d W (left_cfg (g_ctx s) a cp) dp
              (negb (SCREEN_WIDTH <=? x2 a)) 0%fin) s
    else s.
Proof.
  unfold flush_left. cbn zeta.
  destruct (x1 a <? SCREEN_WIDTH); [| reflexivity].
  rewrite exec_bind, eval_gets, exec_gets. reflexivity.
Qed.

Lemma flush_right_exec W dp a cp s :
  exec (flush_right W dp a cp) s =
    if SCREEN_WIDTH <=? x2 a then
      exec (sim_dma_transfer_2d W (right_cfg (g_ctx s) a cp) dp true 1%fin) s
    else s.
Proof.
  unfold flush_right. cbn zeta.
  destruct (SCREEN_WIDTH <=? x2 a); [| reflexivity].
  rewrite exec_bind, eval_gets, exec_gets. reflexivity.
Qed.

Lemma flush_cb_exec W dp a cp s :
  exec (dualscreen_flush_cb W dp a cp) s =
    let s1 :=
      if x1 a <? SCREEN_WIDTH then
        exec (sim_dma_transfer_2d W (left_cfg (g_ctx s) a cp) dp
                (negb (SCREEN_WIDTH <=? x2 a)) 0%fin) s
      else s in
    if SCREEN_WIDTH <=? x2 a then
      exec (sim_dma_transfer_2d W (right_cfg (g_ctx s) a cp) dp true 1%fin) s1
    else s1.
Proof.
  unfold dualscreen_flush_cb. rewrite exec_bind, flush_right_exec.
  rewrite flush_left_exec.
  destruct (x1 a <? SCREEN_WIDTH) eqn:Hl;
    destruct (SCREEN_WIDTH <=? x2 a) eqn:Hr; cbn zeta;
    try reflexivity.
  match goal with
  | |- context [right_cfg (g_ctx ?s1) a cp] =>
      replace (right_cfg (g_ctx s1) a cp) with (right_cfg (g_ctx s) a cp);
      [reflexivity |]
  end.
  rewrite sim_dma_transfer_2d_exec. cbn [g_ctx].
  symmetry. apply right_cfg_store_req.
Qed.

Lemma flush_cb_trace W dp a cp s :
  trace (exec (dualscreen_flush_cb W dp a cp) s) =
    trace s ++ flush_events W s dp a cp.
Proof.
  rewrite flush_cb_exec. unfold flush_events, left_req, right_req.
  destruct (x1 a <? SCREEN_WIDTH), (SCREEN_WIDTH <=? x2 a); cbn zeta;
    rewrite ?sim_dma_transfer_2d_exec; cbn;
    rewrite <- ?app_assoc, ?app_nil_r; reflexivity.
Qed.

Lemma flush_cb_hpwork W dp a cp s :
  hpwork (exec (dualscreen_flush_cb W dp a cp) s) =
    hpwork s ++ accepted (flush_events W s dp a cp).
Proof.
  rewrite flush_cb_exec. unfold flush_events.
  destruct (x1 a <? SCREEN_WIDTH), (SCREEN_WIDTH <=? x2 a); cbn zeta;
    rewrite ?sim_dma_transfer_2d_exec; cbn;
    repeat match goal with
      | |- context [?x =? OK] => destruct (x =? OK)
      end; cbn; rewrite <- ?app_assoc, ?app_nil_r; reflexivity.
Qed.

Lemma flush_cb_ctx W dp a cp s :
  g_ctx (exec (dualscreen_flush_cb W dp a cp) s) =
    let c1 := if x1 a <? SCREEN_WIDTH
              then store_req 0%fin (left_req (g_ctx s) dp a cp) (g_ctx s)
              else g_ctx s in
    if SCREEN_WIDTH <=? x2 a
    then store_req 1%fin (right_req (g_ctx s) dp a cp) c1
    else c1.
Proof.
  rewrite flush_cb_exec. unfold left_req, right_req.
  destruct (x1 a <? SCREEN_WIDTH), (SCREEN_WIDTH <=? x2 a); cbn zeta;
    rewrite ?sim_dma_transfer_2d_exec; reflexivity.
Qed.

Lemma flush_cb_ram_live W dp a cp s :
  ram (exec (dualscreen_flush_cb W dp a cp) s) = ram s /\
  live (exec (dualscreen_flush_cb W dp a cp) s) = live s.
Proof.
  rewrite flush_cb_exec.
  destruct (x1 a <? SCREEN_WIDTH), (SCREEN_WIDTH <=? x2 a); cbn zeta;
    rewrite ?sim_dma_transfer_2d_exec; split; reflexivity.
Qed.

(** ** Arithmetic of the two branches inside the canvas *)

Ltac unfold_consts :=
  change BYTES_PER_PIXEL with 4 in *;
  change VIRTUAL_WIDTH with 1920 in *;
  change VIRTUAL_HEIGHT with 720 in *;
  change SCREEN_WIDTH with 960 in *.

(** Removes the wrap-arounds that do not wrap, innermost first. *)
Ltac no_wrap :=
  repeat match goal with
    | |- context [Int.wrap_i32 ?z] =>
        rewrite (wrap_i32_small z) by (unfold Int.is_i32; lia)
    | |- context [Int.wrap_u32 ?z] =>
        rewrite (wrap_u32_small z) by (unfold Int.is_u32; lia)
    end.

Lemma left_cfg_rect c a cp :
  valid_area a -> x1 a < SCREEN_WIDTH ->
  let r := {| x1 := x1 a; y1 := y1 a;
              x2 := Z.min (x2 a) (SCREEN_WIDTH - 1); y2 := y2 a |} in
  writes_rect (left_cfg c a cp) (mem_left c) (stride_left c) r /\
  reads_rect (left_cfg c a cp) cp r.
Proof.
  intros [(Hx0 & Hx & Hx2) (Hy0 & Hy & Hy2)] Hl r.
  assert (Ew : width (left_cfg c a cp) = area_width r).
  { unfold left_cfg, area_width, r, Int.add, Int.sub; cbn.
    destruct (Z.ltb_spec (x2 a) SCREEN_WIDTH);
      [rewrite Z.min_l by lia | rewrite Z.min_r by lia];
      unfold_consts; no_wrap; reflexivity. }
  assert (Eh : height (left_cfg c a cp) = area_height r).
  { unfold left_cfg, area_height, r, Int.add, Int.sub; cbn.
    unfold_consts; no_wrap; reflexivity. }
  unfold writes_rect, reads_rect. repeat split; try assumption.
  - unfold left_cfg, fb_pixel, r, Int.mul; cbn. rewrite umul_wrap.
    unfold_consts; no_wrap; reflexivity.
  - unfold left_cfg, canvas_pixel, r, Int.mul, Int.add; cbn.
    unfold_consts; no_wrap; reflexivity.
Qed.

Lemma right_cfg_rect c a cp :
  valid_area a -> SCREEN_WIDTH <= x2 a ->
  let g := {| x1 := Z.max (x1 a) SCREEN_WIDTH; y1 := y1 a;
              x2 := x2 a; y2 := y2 a |} in
  writes_rect (right_cfg c a cp) (mem_right c) (stride_right c)
    (shift_x (- SCREEN_WIDTH) g) /\
  reads_rect (right_cfg c a cp) cp g.
Proof.
  intros [(Hx0 & Hx & Hx2) (Hy0 & Hy & Hy2)] Hr g.
  assert (Ew : width (right_cfg c a cp) = area_width g).
  { unfold right_cfg, area_width, g, Int.add, Int.sub; cbn.
    destruct (Z.leb_spec SCREEN_WIDTH (x1 a));
      [rewrite Z.max_l by lia | rewrite Z.max_r by lia];
      unfold_consts; no_wrap; lia. }
  assert (Eh : height (right_cfg c a cp) = area_height g).
  { unfold right_cfg, area_height, g, Int.add, Int.sub; cbn.
    unfold_consts; no_wrap; reflexivity. }
  assert (Es : area_width (shift_x (- SCREEN_WIDTH) g) = area_width g)
    by (unfold area_width, shift_x; cbn; lia).
  unfold writes_rect, reads_rect. rewrite Es.
  repeat split; try assumption.
  - unfold right_cfg, fb_pixel, shift_x, g, Int.mul, Int.sub; cbn.
    rewrite umul_wrap.
    destruct (Z.leb_spec SCREEN_WIDTH (x1 a));
      [rewrite Z.max_l by lia | rewrite Z.max_r by lia];
      unfold_consts; no_wrap; lia.
  - unfold right_cfg, canvas_pixel, g, Int.mul, Int.add; cbn.
    destruct (Z.leb_spec SCREEN_WIDTH (x1 a));
      [rewrite Z.max_l by lia | rewrite Z.max_r by lia];
      unfold_consts; no_wrap; reflexivity.
Qed.

(** ** The flush callback: splitting *)

(** Facts about one of the sample areas. *)
Ltac concrete_area :=
  unfold valid_area, area0, area_left, area_right, area_inverted;
  cbn [x1 x2 y1 y2]; unfold_consts; lia.

Example flush_area0 :
  trace (exec (dualscreen_flush_cb world_accept display0 area0 canvas0)
           (sys_of ctx_mapped)) =
  [EvWorkQueue 0%fin
     {| cfg := {| src := 536951312; dst := 268477456; width := 60;
                  height := 11; src_stride := 7680; dst_stride := 3840;
                  bpp := 4 |};
        disp := display0; notify := false |} 0;
   EvWorkQueue 1%fin
     {| cfg := {| src := 536951552; dst := 272668160; width := 61;
                  height := 11; src_stride := 7680; dst_stride := 3840;
                  bpp := 4 |};
        disp := display0; notify := true |} 0].
Proof. reflexivity. Qed.

(** C1. A valid dirty area that straddles x = 960 makes the flush callback
    submit exactly two transfers, the left one first. Their widths add up
    to the width of the area; the left one writes the local rectangle
    (x1, y1)-(959, y2) of the left framebuffer, the right one the local
    rectangle (0, y1)-(x2 - 960, y2) of the right framebuffer; each reads
    from the draw buffer the same rectangle in canvas coordinates, and the
    two canvas rectangles are disjoint and make up the dirty area. *)
Theorem flush_straddling_two_jobs W s dp a cp :
  valid_area a -> x1 a < SCREEN_WIDTH <= x2 a ->
  let s' := exec (dualscreen_flush_cb W dp a cp) s in
  let L := {| x1 := x1 a; y1 := y1 a; x2 := SCREEN_WIDTH - 1; y2 := y2 a |} in
  let R := {| x1 := 0; y1 := y1 a; x2 := x2 a - SCREEN_WIDTH; y2 := y2 a |} in
  exists l r rcl rcr,
    since s s' = [EvWorkQueue 0%fin l rcl; EvWorkQueue 1%fin r rcr] /\
    width (cfg l) + width (cfg r) = area_width a /\
    writes_rect (cfg l) (mem_left (g_ctx s)) (stride_left (g_ctx s)) L /\
    reads_rect (cfg l) cp L /\
    writes_rect (cfg r) (mem_right (g_ctx s)) (stride_right (g_ctx s)) R /\
    reads_rect (cfg r) cp (shift_x SCREEN_WIDTH R) /\
    (forall x y, inside a x y <->
                 inside L x y \/ inside (shift_x SCREEN_WIDTH R) x y) /\
    (forall x y, ~ (inside L x y /\ inside (shift_x SCREEN_WIDTH R) x y)).
Proof.
  intros Hv [Hl Hr] s' L R.
  assert (Hlb : (x1 a <? SCREEN_WIDTH) = true) by (apply Z.ltb_lt; lia).
  assert (Hrb : (SCREEN_WIDTH <=? x2 a) = true) by (apply Z.leb_le; lia).
  destruct (left_cfg_rect (g_ctx s) a cp Hv Hl) as [HwL HrL].
  destruct (right_cfg_rect (g_ctx s) a cp Hv Hr) as [HwR HrR].
  rewrite Z.min_r in HwL, HrL by lia.
  rewrite Z.max_r in HwR, HrR by lia.
  exists (left_req (g_ctx s) dp a cp), (right_req (g_ctx s) dp a cp).
  eexists. eexists. split.
  { apply since_app. subst s'. rewrite flush_cb_trace. unfold flush_events.
    rewrite Hlb, Hrb. reflexivity. }
  assert (ER : shift_x SCREEN_WIDTH R =
               {| x1 := SCREEN_WIDTH; y1 := y1 a; x2 := x2 a; y2 := y2 a |}).
  { unfold shift_x, R; cbn. f_equal; lia. }
  assert (ER' : shift_x (- SCREEN_WIDTH)
            {| x1 := SCREEN_WIDTH; y1 := y1 a; x2 := x2 a; y2 := y2 a |} = R).
  { unfold shift_x, R; cbn. f_equal; lia. }
  rewrite ER. rewrite ER' in HwR. cbn [cfg left_req right_req].
  refine (conj _ (conj HwL (conj HrL (conj HwR (conj HrR (conj _ _)))))).
  - destruct HwL as (_ & _ & -> & _). destruct HrR as (_ & _ & -> & _).
    unfold area_width; cbn. lia.
  - intros x y. destruct Hv as [(? & ? & ?) (? & ? & ?)].
    unfold inside, L; cbn. unfold_consts. lia.
  - intros x y. unfold inside, L; cbn. unfold_consts. lia.
Qed.

Lemma flush_straddling_two_jobs_witness :
  valid_area area0 /\ x1 area0 < SCREEN_WIDTH <= x2 area0 /\
  exists l r rcl rcr,
    since (sys_of ctx_mapped)
      (exec (dualscreen_flush_cb world_accept display0 area0 canvas0)
         (sys_of ctx_mapped)) =
      [EvWorkQueue 0%fin l rcl; EvWorkQueue 1%fin r rcr] /\
    width (cfg l) + width (cfg r) = 121 /\
    writes_rect (cfg l) 268435456 3840
      {| x1 := 900; y1 := 10; x2 := 959; y2 := 20 |} /\
    reads_rect (cfg l) canvas0
      {| x1 := 900; y1 := 10; x2 := 959; y2 := 20 |} /\
    writes_rect (cfg r) 272629760 3840
      {| x1 := 0; y1 := 10; x2 := 60; y2 := 20 |} /\
    reads_rect (cfg r) canvas0
      (shift_x SCREEN_WIDTH {| x1 := 0; y1 := 10; x2 := 60; y2 := 20 |}) /\
    (forall x y, inside area0 x y <->
       inside {| x1 := 900; y1 := 10; x2 := 959; y2 := 20 |} x y \/
       inside (shift_x SCREEN_WIDTH
                 {| x1 := 0; y1 := 10; x2 := 60; y2 := 20 |}) x y) /\
    (forall x y,
       ~ (inside {| x1 := 900; y1 := 10; x2 := 959; y2 := 20 |} x y /\
          inside (shift_x SCREEN_WIDTH
                    {| x1 := 0; y1 := 10; x2 := 60; y2 := 20 |}) x y)).
Proof.
  assert (Hv : valid_area area0) by concrete_area.
  assert (Hs : x1 area0 < SCREEN_WIDTH <= x2 area0) by concrete_area.
  split; [exact Hv |]. split; [exact Hs |].
  exact (flush_straddling_two_jobs world_accept (sys_of ctx_mapped)
           display0 area0 canvas0 Hv Hs).
Defined.

(** C2. A valid dirty area that lies wholly on one screen makes the flush
    callback submit exactly one transfer. When x2 < 960 it is the left
    request and writes the area at its own coordinates in the left
    framebuffer; when x1 >= 960 it is the right request and writes the area
    moved by -960 in x in the right framebuffer. Either way it reads the
    area itself from the draw buffer. *)
Theorem flush_single_surface W s dp a cp :
  valid_area a ->
  let s' := exec (dualscreen_flush_cb W dp a cp) s in
  (x2 a < SCREEN_WIDTH ->
   exists l rc,
     since s s' = [EvWorkQueue 0%fin l rc] /\
     writes_rect (cfg l) (mem_left (g_ctx s)) (stride_left (g_ctx s)) a /\
     reads_rect (cfg l) cp a) /\
  (SCREEN_WIDTH <= x1 a ->
   exists r rc,
     since s s' = [EvWorkQueue 1%fin r rc] /\
     writes_rect (cfg r) (mem_right (g_ctx s)) (stride_right (g_ctx s))
       (shift_x (- SCREEN_WIDTH) a) /\
     reads_rect (cfg r) cp a).
Proof.
  intros Hv s'. pose proof Hv as [(Hx0 & Hx & Hx2) _]. split; intros H.
  - assert (Hl : x1 a < SCREEN_WIDTH) by lia.
    assert (Hlb : (x1 a <? SCREEN_WIDTH) = true) by (apply Z.ltb_lt; lia).
    assert (Hrb : (SCREEN_WIDTH <=? x2 a) = false) by (apply Z.leb_gt; lia).
    destruct (left_cfg_rect (g_ctx s) a cp Hv Hl) as [HwL HrL].
    rewrite Z.min_l in HwL, HrL by lia.
    replace {| x1 := x1 a; y1 := y1 a; x2 := x2 a; y2 := y2 a |} with a
      in HwL, HrL by (destruct a; reflexivity).
    exists (left_req (g_ctx s) dp a cp). eexists. split; [| split; assumption].
    apply since_app. subst s'. rewrite flush_cb_trace. unfold flush_events.
    rewrite Hlb, Hrb. reflexivity.
  - assert (Hr : SCREEN_WIDTH <= x2 a) by lia.
    assert (Hlb : (x1 a <? SCREEN_WIDTH) = false) by (apply Z.ltb_ge; lia).
    assert (Hrb : (SCREEN_WIDTH <=? x2 a) = true) by (apply Z.leb_le; lia).
    destruct (right_cfg_rect (g_ctx s) a cp Hv Hr) as [HwR HrR].
    rewrite Z.max_l in HwR, HrR by lia.
    replace {| x1 := x1 a; y1 := y1 a; x2 := x2 a; y2 := y2 a |} with a
      in HwR, HrR by (destruct a; reflexivity).
    exists (right_req (g_ctx s) dp a cp). eexists. split; [| split; assumption].
    apply since_app. subst s'. rewrite flush_cb_trace. unfold flush_events.
    rewrite Hlb, Hrb. reflexivity.
Qed.

Lemma flush_single_surface_witness :
  (valid_area area_left /\ x2 area_left < SCREEN_WIDTH /\
   exists l rc,
     since (sys_of ctx_mapped)
       (exec (dualscreen_flush_cb world_accept display0 area_left canvas0)
          (sys_of ctx_mapped)) = [EvWorkQueue 0%fin l rc] /\
     writes_rect (cfg l) 268435456 3840 area_left /\
     reads_rect (cfg l) canvas0 area_left) /\
  (valid_area area_right /\ SCREEN_WIDTH <= x1 area_right /\
   exists r rc,
     since (sys_of ctx_mapped)
       (exec (dualscreen_flush_cb world_accept display0 area_right canvas0)
          (sys_of ctx_mapped)) = [EvWorkQueue 1%fin r rc] /\
     writes_rect (cfg r) 272629760 3840
       {| x1 := 40; y1 := 10; x2 := 140; y2 := 20 |} /\
     reads_rect (cfg r) canvas0 area_right).
Proof.
  assert (HvL : valid_area area_left) by concrete_area.
  assert (HvR : valid_area area_right) by concrete_area.
  assert (HL : x2 area_left < SCREEN_WIDTH) by concrete_area.
  assert (HR : SCREEN_WIDTH <= x1 area_right) by concrete_area.
  split.
  - split; [exact HvL |]. split; [exact HL |].
    exact (proj1 (flush_single_surface world_accept (sys_of ctx_mapped)
                    display0 area_left canvas0 HvL) HL).
  - split; [exact HvR |]. split; [exact HR |].
    exact (proj2 (flush_single_surface world_accept (sys_of ctx_mapped)
                    display0 area_right canvas0 HvR) HR).
Defined.

(** ** The flush callback: who notifies *)

(** C6. The notification goes with the transfer submitted last. The left
    request carries [notify = true] exactly when x2 < 960, which is exactly
    when no right request is submitted; a right request always carries
    [notify = true]; and of the submissions of one flush the last one
    notifies and the ones before it do not. *)
Theorem notify_on_last_submitted W s dp a cp :
  let evs := since s (exec (dualscreen_flush_cb W dp a cp) s) in
  (forall r rc, In (EvWorkQueue 0%fin r rc) evs ->
     (notify r = true <-> x2 a < SCREEN_WIDTH)) /\
  (forall r rc, In (EvWorkQueue 1%fin r rc) evs -> notify r = true) /\
  ((exists r rc, In (EvWorkQueue 1%fin r rc) evs) <-> SCREEN_WIDTH <= x2 a) /\
  (forall pre i r rc, evs = pre ++ [EvWorkQueue i r rc] ->
     notify r = true /\
     forall j r' rc', In (EvWorkQueue j r' rc') pre -> notify r' = false).
Proof.
  intros evs. subst evs.
  rewrite (since_app _ _ _ (flush_cb_trace W dp a cp s)).
  unfold flush_events, left_req, right_req.
  destruct (Z.ltb_spec (x1 a) SCREEN_WIDTH) as [Hl | Hl];
    destruct (Z.leb_spec SCREEN_WIDTH (x2 a)) as [Hr | Hr]; cbn [app negb].
  all: repeat apply conj.
  all: try (intros r rc Hin; cbn in Hin;
            repeat destruct Hin as [Hin | Hin];
            try discriminate Hin; try contradiction;
            inversion Hin; subst; cbn; intuition (try discriminate; lia)).
  all: try (intros (r & rc & Hin); cbn in Hin;
            repeat destruct Hin as [Hin | Hin];
            try discriminate Hin; try contradiction; lia).
  all: try (intros Hx; first [lia | do 2 eexists; cbn; eauto]; fail).
  all: intros pre i r rc E.
  - change ([EvWorkQueue 0%fin
               {| cfg := left_cfg (g_ctx s) a cp; disp := dp;
                  notify := false |} (w_ret W (calls s))] ++
            [EvWorkQueue 1%fin
               {| cfg := right_cfg (g_ctx s) a cp; disp := dp;
                  notify := true |} (w_ret W (S (calls s)))] =
            pre ++ [EvWorkQueue i r rc]) in E.
    apply app_inj_tail in E as [<- E]. inversion E; subst.
    split; [reflexivity |].
    intros j r' rc' [Hin | []]. inversion Hin; subst. reflexivity.
  - apply (app_inj_tail []) in E as [<- E]. inversion E; subst.
    split; [reflexivity | intros j r' rc' []].
  - apply (app_inj_tail []) in E as [<- E]. inversion E; subst.
    split; [reflexivity | intros j r' rc' []].
  - destruct pre; discriminate E.
Qed.

(** ** The flush callback: an area on neither screen *)

(** The callback does nothing at all for the inverted sample area: the
    completion callback does not fire. *)
Lemma empty_flush_does_not_complete :
  no_subrect area_inverted /\
  display0 <> NULL /\
  ~ completes_at_once world_accept (sys_of ctx_mapped) display0
      area_inverted canvas0.
Proof.
  split; [unfold no_subrect; split; concrete_area |].
  split; [discriminate |].
  intros [_ H]. vm_compute in H. discriminate H.
Qed.

(** C5, amended. For an area that takes neither branch the flush callback
    leaves the whole state as it was: no transfer is submitted, nothing is
    queued, and the completion callback is not called. *)
Theorem flush_without_subrect_is_noop W s dp a cp :
  no_subrect a ->
  let s' := exec (dualscreen_flush_cb W dp a cp) s in
  s' = s /\ submitted (since s s') = [] /\ ready_count (since s s') = 0%nat.
Proof.
  intros [Hl Hr] s'.
  assert (E : s' = s).
  { subst s'. rewrite flush_cb_exec.
    destruct (Z.ltb_spec (x1 a) SCREEN_WIDTH); [contradiction |].
    destruct (Z.leb_spec SCREEN_WIDTH (x2 a)); [contradiction |].
    reflexivity. }
  rewrite E. unfold since. rewrite drop_all. auto.
Qed.

Lemma flush_without_subrect_is_noop_witness :
  no_subrect area_inverted /\
  exec (dualscreen_flush_cb world_accept display0 area_inverted canvas0)
    (sys_of ctx_mapped) = sys_of ctx_mapped.
Proof.
  assert (H : no_subrect area_inverted)
    by (unfold no_subrect; split; concrete_area).
  split; [exact H |].
  exact (proj1 (flush_without_subrect_is_noop world_accept
                  (sys_of ctx_mapped) display0 area_inverted canvas0 H)).
Defined.

(** ** The flush callback: a refused submission *)

(** With a work queue that refuses, both transfers of the straddling sample
    area are lost: nothing is queued and no row is copied. *)
Lemma refused_jobs_are_dropped :
  ~ no_job_dropped world_reject (sys_of ctx_mapped) display0 area0 canvas0.
Proof.
  intros H.
  destruct (H 0%fin (left_req ctx_mapped display0 area0 canvas0) (-16))
    as [Hq | Hc].
  - vm_compute. left. reflexivity.
  - discriminate.
  - vm_compute in Hq. exact Hq.
  - vm_compute in Hc. discriminate Hc.
Qed.

(** C7, amended. [sim_dma_transfer_2d] calls [work_queue] once and ignores
    what it returns. So one flush consists of submissions only (the caller
    copies no row), each request slot is submitted at most once (no retry),
    and the queue gains exactly the requests it accepted: a refused
    transfer is neither retried nor run, it is dropped. *)
Theorem flush_submits_once_and_ignores_refusal W s dp a cp :
  let s' := exec (dualscreen_flush_cb W dp a cp) s in
  let evs := since s s' in
  forallb is_submit evs = true /\
  NoDup (submitted evs) /\
  hpwork s' = hpwork s ++ accepted evs /\
  (forall i r rc, In (EvWorkQueue i r rc) evs -> rc <> OK ->
     ~ In i (accepted evs)) /\
  ram s' = ram s.
Proof.
  intros s' evs. subst evs s'.
  rewrite (since_app _ _ _ (flush_cb_trace W dp a cp s)).
  rewrite flush_cb_hpwork.
  destruct (flush_cb_ram_live W dp a cp s) as [-> _].
  unfold flush_events.
  destruct (x1 a <? SCREEN_WIDTH), (SCREEN_WIDTH <=? x2 a); cbn [app].
  all: repeat apply conj; try reflexivity.
  all: try solve [cbn; repeat constructor; cbn; intuition discriminate].
  all: try solve
         [cbn;
          repeat (apply NoDup_cons_2;
                  [rewrite ?elem_of_cons, elem_of_nil; intuition discriminate |]);
          apply NoDup_nil_2].
  all: intros i r rc Hin Hrc; cbn in Hin.
  all: repeat destruct Hin as [Hin | Hin]; try contradiction.
  all: inversion Hin; subst; clear Hin.
  all: apply Z.eqb_neq in Hrc; cbn; rewrite ?Hrc.
  all: repeat match goal with
         | |- context [?x =? OK] => destruct (x =? OK) eqn:?
         end; cbn; intuition (try discriminate; try congruence).
Qed.

(** ** The worker: row copies *)

Lemma row_events_S h c n s d :
  row_events (S h) c n s d =
    EvMemcpy d s n :: row_events h c n (s + src_stride c) (d + dst_stride c).
Proof.
  unfold row_events. cbn [seq map]. f_equal.
  - unfold row_event. cbn. f_equal; lia.
  - rewrite <- seq_shift, map_map. apply map_ext. intros k.
    unfold row_event. f_equal; lia.
Qed.

Lemma exec_memcpy d s n st :
  exec (memcpy d s n) st =
    upd_ram (memcpy_ram d s n) (emit (EvMemcpy d s n) st).
Proof. reflexivity. Qed.

Lemma dma_rows_exec h c n : forall s d st,
  let st' := exec (dma_rows h c n s d) st in
  trace st' = trace st ++ row_events h c n s d /\
  g_ctx st' = g_ctx st /\ hpwork st' = hpwork st /\
  live st' = live st /\ calls st' = calls st.
Proof.
  induction h as [| h IH]; intros s d st; cbn zeta.
  - cbn. rewrite app_nil_r. auto.
  - cbn [dma_rows]. rewrite exec_bind, !exec_memcpy.
    destruct (IH (s + src_stride c) (d + dst_stride c)
                (upd_ram (memcpy_ram d s n) (emit (EvMemcpy d s n) st)))
      as (Ht & Hc & Hq & Hl & Hn).
    rewrite Ht, Hc, Hq, Hl, Hn, row_events_S. cbn.
    rewrite <- app_assoc. auto.
Qed.

Lemma dma_rows_ram h c n : forall s d st a,
  (forall k, (k < h)%nat ->
     ~ (d + Z.of_nat k * dst_stride c <= a
        < d + Z.of_nat k * dst_stride c + n)) ->
  ram (exec (dma_rows h c n s d) st) a = ram st a.
Proof.
  induction h as [| h IH]; intros s d st a Hout; [reflexivity |].
  cbn [dma_rows]. rewrite exec_bind, !exec_memcpy. rewrite IH.
  - cbn. unfold memcpy_ram.
    specialize (Hout 0%nat ltac:(lia)).
    destruct (Z.leb_spec d a), (Z.ltb_spec a (d + n)); cbn; try reflexivity.
    exfalso. apply Hout. lia.
  - intros k Hk. specialize (Hout (S k) ltac:(lia)).
    intros Hin. apply Hout. lia.
Qed.

Lemma dma_worker_exec i st :
  let st' := exec (dma_worker i) st in
  trace st' = trace st ++ worker_events (dma_req (g_ctx st) !!! i) /\
  g_ctx st' = g_ctx st /\ hpwork st' = hpwork st /\
  live st' = live st /\ calls st' = calls st.
Proof.
  cbn zeta. unfold dma_worker, worker_events.
  rewrite exec_bind, eval_gets, exec_gets, exec_bind.
  set (r := dma_req (g_ctx st) !!! i).
  destruct (dma_rows_exec (Z.to_nat (height (cfg r))) (cfg r)
              (Int.umul (width (cfg r)) (bpp (cfg r)))
              (src (cfg r)) (dst (cfg r)) st) as (Ht & Hc & Hq & Hl & Hn).
  destruct (notify r && negb (disp r =? NULL)).
  - unfold lv_display_flush_ready. rewrite exec_modify. cbn.
    rewrite Ht, Hc, Hq, Hl, Hn, <- app_assoc. auto.
  - rewrite exec_ret, Ht, Hc, Hq, Hl, Hn, app_nil_r. auto.
Qed.

Lemma dma_worker_ram i st a :
  let r := dma_req (g_ctx st) !!! i in
  (forall k, (k < Z.to_nat (height (cfg r)))%nat ->
     ~ (dst (cfg r) + Z.of_nat k * dst_stride (cfg r) <= a
        < dst (cfg r) + Z.of_nat k * dst_stride (cfg r) +
          Int.umul (width (cfg r)) (bpp (cfg r)))) ->
  ram (exec (dma_worker i) st) a = ram st a.
Proof.
  cbn zeta. intros Hout. unfold dma_worker.
  rewrite exec_bind, eval_gets, exec_gets, exec_bind.
  set (r := dma_req (g_ctx st) !!! i) in *.
  destruct (notify r && negb (disp r =? NULL)).
  - unfold lv_display_flush_ready. rewrite exec_modify. cbn.
    apply dma_rows_ram. exact Hout.
  - rewrite exec_ret. apply dma_rows_ram. exact Hout.
Qed.

Lemma filter_memcpy_rows h c n s d :
  List.filter is_memcpy (row_events h c n s d) = row_events h c n s d.
Proof.
  unfold row_events. induction (seq 0 h) as [| k l IH]; [reflexivity |].
  cbn. f_equal. exact IH.
Qed.

Lemma filter_memcpy_worker r :
  List.filter is_memcpy (worker_events r) =
    row_events (Z.to_nat (height (cfg r))) (cfg r)
      (Int.umul (width (cfg r)) (bpp (cfg r))) (src (cfg r)) (dst (cfg r)).
Proof.
  unfold worker_events. rewrite List.filter_app, filter_memcpy_rows.
  destruct (notify r && negb (disp r =? NULL)); cbn; apply app_nil_r.
Qed.

(** The byte count of a row is a [uint32_t]: for [cfg_wide] it wraps to 0,
    and the worker copies one row of no bytes instead of [2^32] bytes. *)
Lemma wide_row_wraps :
  wf_cfg cfg_wide /\ ~ copies_full_rows 0%fin (sys_with cfg_wide).
Proof.
  split.
  - unfold wf_cfg, Int.is_u32, cfg_wide; cbn. lia.
  - intros [H _]. vm_compute in H. discriminate H.
Qed.

(** C3, amended. For a request whose fields are [uint32_t] values the
    worker makes exactly [height] calls of [memcpy], the k-th from
    [src + k * src_stride] to [dst + k * dst_stride], each of
    [width * bpp] bytes reduced modulo [2^32] (so of [width * bpp] bytes
    whenever that product fits 32 bits), and it leaves every byte outside
    [dst, dst + (height - 1) * dst_stride + width * bpp) as it was. *)
Theorem dma_worker_copies_rows i st :
  let c := cfg (dma_req (g_ctx st) !!! i) in
  let st' := exec (dma_worker i) st in
  wf_cfg c ->
  List.filter is_memcpy (since st st') =
    row_events (Z.to_nat (height c)) c (Int.wrap_u32 (width c * bpp c))
      (src c) (dst c) /\
  length (List.filter is_memcpy (since st st')) = Z.to_nat (height c) /\
  (width c * bpp c < 2 ^ 32 -> Int.wrap_u32 (width c * bpp c) = width c * bpp c) /\
  forall a,
    ~ (dst c <= a < dst c + (height c - 1) * dst_stride c + width c * bpp c) ->
    ram st' a = ram st a.
Proof.
  intros c st' (Hw & Hh & Hss & Hds & Hb).
  destruct (dma_worker_exec i st) as (Ht & _).
  assert (E : List.filter is_memcpy (since st st') =
              row_events (Z.to_nat (height c)) c
                (Int.wrap_u32 (width c * bpp c)) (src c) (dst c)).
  { subst st'. rewrite (since_app _ _ _ Ht), filter_memcpy_worker.
    fold c. rewrite umul_wrap. reflexivity. }
  split; [exact E |]. split.
  { rewrite E. unfold row_events. rewrite length_map, length_seq.
    reflexivity. }
  split.
  { intros Hlt. apply wrap_u32_small. unfold Int.is_u32 in *. nia. }
  intros a Hout. subst st'. apply dma_worker_ram. fold c.
  intros k Hk Hin. apply Hout. rewrite umul_wrap in Hin.
  unfold Int.is_u32 in *.
  assert (Hle : Int.wrap_u32 (width c * bpp c) <= width c * bpp c)
    by (apply wrap_u32_le; nia).
  assert (Hk' : Z.of_nat k <= height c - 1) by lia.
  assert (Hm : Z.of_nat k * dst_stride c <= (height c - 1) * dst_stride c)
    by (apply Z.mul_le_mono_nonneg_r; lia).
  assert (0 <= Z.of_nat k * dst_stride c) by (apply Z.mul_nonneg_nonneg; lia).
  lia.
Qed.

Lemma dma_worker_copies_rows_witness :
  wf_cfg cfg_example /\
  List.filter is_memcpy
    (since (sys_with cfg_example)
       (exec (dma_worker 0%fin) (sys_with cfg_example))) =
    map (fun k : nat =>
           EvMemcpy (268435456 + Z.of_nat k * 3840)
                    (canvas0 + Z.of_nat k * 4096) 400)
        (seq 0 50) /\
  length (List.filter is_memcpy
            (since (sys_with cfg_example)
               (exec (dma_worker 0%fin) (sys_with cfg_example)))) = 50%nat /\
  forall a,
    ~ (268435456 <= a < 268435456 + 49 * 3840 + 400) ->
    ram (exec (dma_worker 0%fin) (sys_with cfg_example)) a =
    ram (sys_with cfg_example) a.
Proof.
  assert (Hwf : wf_cfg cfg_example)
    by (unfold wf_cfg, Int.is_u32, cfg_example; cbn; lia).
  split; [exact Hwf |].
  destruct (dma_worker_copies_rows 0%fin (sys_with cfg_example) Hwf)
    as (Hrows & Hlen & _ & Hram).
  split; [exact Hrows |]. split; [exact Hlen |]. exact Hram.
Defined.

(** ** The execution facility *)

Lemma run_work_exec i st :
  let st' := exec (run_work i) st in
  trace st' = trace st ++ worker_events (dma_req (g_ctx st) !!! i) /\
  g_ctx st' = g_ctx st /\ hpwork st' = unqueue i (hpwork st) /\
  calls st' = calls st.
Proof.
  cbn zeta. unfold run_work. rewrite exec_bind, exec_modify.
  destruct (dma_worker_exec i (upd_hpwork (unqueue i) st))
    as (Ht & Hc & Hq & _ & Hn).
  rewrite Ht, Hc, Hq, Hn. auto.
Qed.

Lemma run_schedule_exec order : forall st,
  let st' := exec (run_schedule order) st in
  trace st' =
    trace st ++
    concat (map (fun i => worker_events (dma_req (g_ctx st) !!! i)) order) /\
  g_ctx st' = g_ctx st /\
  hpwork st' = foldl (fun q i => unqueue i q) (hpwork st) order /\
  calls st' = calls st.
Proof.
  induction order as [| i rest IH]; intros st; cbn zeta.
  - cbn. rewrite app_nil_r. auto.
  - cbn [run_schedule]. rewrite exec_bind.
    destruct (run_work_exec i st) as (Ht & Hc & Hq & Hn).
    destruct (IH (exec (run_work i) st)) as (Ht' & Hc' & Hq' & Hn').
    rewrite Ht', Hc', Hq', Hn', Ht, Hc, Hq, Hn. cbn.
    rewrite <- app_assoc. auto.
Qed.

Lemma run_fifo_exec st : exec run_fifo st = exec (run_schedule (hpwork st)) st.
Proof. unfold run_fifo. rewrite exec_bind, eval_gets, exec_gets. reflexivity. Qed.

(** What is known of a state between two steps of a flush: its trace, its
    context, the queue and the number of calls so far. *)
Lemma sim_summary W c0 dp ntf i st tr c q n :
  summary st tr c q n ->
  summary (exec (sim_dma_transfer_2d W c0 dp ntf i) st)
    (tr ++ [EvWorkQueue i {| cfg := c0; disp := dp; notify := ntf |}
              (w_ret W n)])
    (store_req i {| cfg := c0; disp := dp; notify := ntf |} c)
    (if w_ret W n =? OK then q ++ [i] else q) (S n).
Proof.
  intros (<- & <- & <- & <-). rewrite sim_dma_transfer_2d_exec.
  repeat split.
Qed.

Lemma flush_left_summary W dp a cp st tr c q n :
  summary st tr c q n ->
  summary (exec (flush_left W dp a cp) st)
    (if x1 a <? SCREEN_WIDTH
     then tr ++ [EvWorkQueue 0%fin (left_req c dp a cp) (w_ret W n)]
     else tr)
    (if x1 a <? SCREEN_WIDTH
     then store_req 0%fin (left_req c dp a cp) c else c)
    (if x1 a <? SCREEN_WIDTH
     then if w_ret W n =? OK then q ++ [0%fin] else q else q)
    (if x1 a <? SCREEN_WIDTH then S n else n).
Proof.
  intros H. rewrite flush_left_exec.
  destruct (x1 a <? SCREEN_WIDTH); [| exact H].
  destruct H as (Ht & <- & Hq & Hn).
  apply sim_summary. repeat split; assumption.
Qed.

Lemma flush_right_summary W dp a cp st tr c q n :
  summary st tr c q n ->
  summary (exec (flush_right W dp a cp) st)
    (if SCREEN_WIDTH <=? x2 a
     then tr ++ [EvWorkQueue 1%fin (right_req c dp a cp) (w_ret W n)]
     else tr)
    (if SCREEN_WIDTH <=? x2 a
     then store_req 1%fin (right_req c dp a cp) c else c)
    (if SCREEN_WIDTH <=? x2 a
     then if w_ret W n =? OK then q ++ [1%fin] else q else q)
    (if SCREEN_WIDTH <=? x2 a then S n else n).
Proof.
  intros H. rewrite flush_right_exec.
  destruct (SCREEN_WIDTH <=? x2 a); [| exact H].
  destruct H as (Ht & <- & Hq & Hn).
  apply sim_summary. repeat split; assumption.
Qed.

Lemma run_fifo_summary st tr c q n :
  summary st tr c q n ->
  summary (exec run_fifo st)
    (tr ++ concat (map (fun i => worker_events (dma_req c !!! i)) q))
    c (foldl (fun q' i => unqueue i q') q q) n.
Proof.
  intros (<- & <- & <- & <-). rewrite run_fifo_exec.
  destruct (run_schedule_exec (hpwork st) st) as (Ht & Hc & Hq & Hn).
  repeat split; assumption.
Qed.

Lemma ends_ready_base (e : event) : [e] = [] ++ [e].
Proof. reflexivity. Qed.

Lemma ends_ready_step (x l pre : list event) e :
  l = pre ++ [e] -> x ++ l = (x ++ pre) ++ [e].
Proof. intros ->. apply app_assoc. Qed.

Lemma unqueue_head i q : unqueue i (i :: q) = q.
Proof. cbn. destruct (decide (i = i)); [reflexivity | congruence]. Qed.

Lemma left_req_store_req i r c dp a cp :
  left_req (store_req i r c) dp a cp = left_req c dp a cp.
Proof. unfold left_req. rewrite left_cfg_store_req. reflexivity. Qed.

Lemma right_req_store_req i r c dp a cp :
  right_req (store_req i r c) dp a cp = right_req c dp a cp.
Proof. unfold right_req. rewrite right_cfg_store_req. reflexivity. Qed.

Lemma ready_count_app l1 l2 :
  ready_count (l1 ++ l2) = (ready_count l1 + ready_count l2)%nat.
Proof. unfold ready_count. rewrite List.filter_app. apply length_app. Qed.

Lemma ready_count_rows h c n s d : ready_count (row_events h c n s d) = 0%nat.
Proof.
  unfold ready_count, row_events.
  induction (seq 0 h) as [| k l IH]; [reflexivity | exact IH].
Qed.

Lemma copies_before_ready_app pre l :
  ready_count pre = 0%nat ->
  copies_before_ready (pre ++ l) = copies_before_ready l.
Proof.
  induction pre as [| e pre IH]; intros H; [reflexivity |].
  destruct e; cbn in *; try (apply IH; exact H). discriminate H.
Qed.

(** ** Request slots *)

(** C9. Within one flush the left transfer is always submitted in request
    slot 0 and the right transfer in slot 1, and no slot is submitted
    twice; so when the callback returns each slot still holds the request
    that was submitted in it, and it still does when the work queue has run
    whatever it runs, in any order: no transfer's configuration is
    overwritten by the other's before it is carried out. *)
Theorem jobs_in_distinct_slots W s dp a cp order :
  let s1 := exec (dualscreen_flush_cb W dp a cp) s in
  let evs := since s s1 in
  (forall i r rc, In (EvWorkQueue i r rc) evs ->
     (i = 0%fin /\ r = left_req (g_ctx s) dp a cp /\ x1 a < SCREEN_WIDTH) \/
     (i = 1%fin /\ r = right_req (g_ctx s) dp a cp /\ SCREEN_WIDTH <= x2 a)) /\
  NoDup (submitted evs) /\
  (forall i r rc, In (EvWorkQueue i r rc) evs ->
     dma_req (g_ctx s1) !!! i = r /\
     dma_req (g_ctx (exec (run_schedule order) s1)) !!! i = r).
Proof.
  intros s1 evs.
  assert (Hc2 : g_ctx (exec (run_schedule order) s1) = g_ctx s1)
    by apply (run_schedule_exec order s1).
  rewrite Hc2. subst evs s1.
  rewrite (since_app _ _ _ (flush_cb_trace W dp a cp s)), flush_cb_ctx.
  unfold flush_events.
  destruct (Z.ltb_spec (x1 a) SCREEN_WIDTH) as [Hl | Hl];
    destruct (Z.leb_spec SCREEN_WIDTH (x2 a)) as [Hr | Hr]; cbn [app].
  all: split; [| split].
  all: try solve
         [cbn;
          repeat (apply NoDup_cons_2;
                  [rewrite ?elem_of_cons, elem_of_nil; intuition discriminate |]);
          apply NoDup_nil_2].
  all: intros i r rc Hin; cbn in Hin.
  all: repeat destruct Hin as [Hin | Hin]; try contradiction.
  all: inversion Hin; subst; clear Hin.
  all: try (left; split; [reflexivity | split; [reflexivity | assumption]]).
  all: try (right; split; [reflexivity | split; [reflexivity | assumption]]).
  all: cbn zeta; split;
    rewrite ?vlookup_store_req;
    rewrite ?vlookup_store_req_ne by discriminate;
    rewrite ?vlookup_store_req; reflexivity.
Qed.

(** ** Completion *)

Lemma worker_events_quiet r :
  notify r = false ->
  worker_events r =
    row_events (Z.to_nat (height (cfg r))) (cfg r)
      (Int.umul (width (cfg r)) (bpp (cfg r))) (src (cfg r)) (dst (cfg r)).
Proof. intros H. unfold worker_events. rewrite H. apply app_nil_r. Qed.

Lemma worker_events_notify r :
  notify r = true -> disp r <> NULL ->
  worker_events r =
    row_events (Z.to_nat (height (cfg r))) (cfg r)
      (Int.umul (width (cfg r)) (bpp (cfg r))) (src (cfg r)) (dst (cfg r)) ++
    [EvFlushReady (disp r)].
Proof.
  intros H Hd. unfold worker_events. rewrite H.
  apply Z.eqb_neq in Hd. rewrite Hd. reflexivity.
Qed.

Lemma ready_fires_last pre d :
  ready_count pre = 0%nat ->
  ready_count (pre ++ [EvFlushReady d]) = 1%nat /\
  copies_before_ready (pre ++ [EvFlushReady d]) = true.
Proof.
  intros H. split.
  - rewrite ready_count_app, H. reflexivity.
  - rewrite copies_before_ready_app by exact H. reflexivity.
Qed.

(** When the right transfer of the straddling sample area is run before the
    left one, the completion callback fires while the rows of the left
    transfer are still to be copied. *)
Lemma right_first_completes_early :
  valid_area area0 /\
  display0 <> NULL /\
  [1%fin; 0%fin] ≡ₚ
    hpwork (exec (dualscreen_flush_cb world_accept display0 area0 canvas0)
              (sys_of ctx_mapped)) /\
  ~ completes_after_all world_accept (sys_of ctx_mapped) display0 area0
      canvas0 [1%fin; 0%fin].
Proof.
  split; [concrete_area |]. split; [discriminate |]. split.
  - change (hpwork (exec (dualscreen_flush_cb world_accept display0 area0
                            canvas0) (sys_of ctx_mapped)))
      with [0%fin; 1%fin : fin 2].
    apply Permutation_swap.
  - intros [_ H]. vm_compute in H. discriminate H.
Qed.

(** C4, amended. For a valid dirty area, a display that is not [NULL], an
    idle work queue that accepts the submissions, and a single worker that
    runs the queued requests in the order of submission, be it as soon as
    the first one is queued or only after the callback has returned: the
    completion callback fires exactly once, as the last event of the flush,
    after every row of every transfer has been copied, and the queue is
    idle again. *)
Theorem fifo_completes_once_after_all W s dp a cp early :
  valid_area a -> dp <> NULL -> hpwork s = [] -> accepts W s ->
  let s2 := exec (flush_under_fifo W early dp a cp) s in
  ready_count (since s s2) = 1%nat /\
  copies_before_ready (since s s2) = true /\
  (exists pre, since s s2 = pre ++ [EvFlushReady dp] /\
               ready_count pre = 0%nat) /\
  hpwork s2 = [].
Proof.
  intros Hv Hdp Hidle [Hok0 Hok1] s2.
  destruct Hv as [(Hx0 & Hx & Hx2) _].
  assert (Hnl : notify (left_req (g_ctx s) dp a cp) =
                negb (SCREEN_WIDTH <=? x2 a)) by reflexivity.
  assert (Hfin :
    forall pre, ready_count pre = 0%nat ->
      since s s2 = pre ++ [EvFlushReady dp] ->
      ready_count (since s s2) = 1%nat /\
      copies_before_ready (since s s2) = true /\
      (exists pre', since s s2 = pre' ++ [EvFlushReady dp] /\
                    ready_count pre' = 0%nat)).
  { intros pre Hpre ->. destruct (ready_fires_last pre dp Hpre). eauto 6. }
  assert (Hq : hpwork s2 = [] /\
               exists pre, ready_count pre = 0%nat /\
                           trace s2 = trace s ++ pre ++ [EvFlushReady dp]).
  { assert (H0 : summary s (trace s) (g_ctx s) [] (calls s))
      by (repeat split; auto).
    apply (flush_left_summary W dp a cp) in H0.
    assert (H1 : exists tr c q,
              summary (exec (if early then run_fifo else ret tt)
                         (exec (flush_left W dp a cp) s)) tr c q
                (if x1 a <? SCREEN_WIDTH then S (calls s) else calls s) /\
              (early = true ->
               tr = (if x1 a <? SCREEN_WIDTH
                     then trace s ++
                          [EvWorkQueue 0%fin (left_req (g_ctx s) dp a cp)
                             (w_ret W (calls s))]
                     else trace s) ++
                    concat (map (fun i => worker_events
                      (dma_req (if x1 a <? SCREEN_WIDTH
                                then store_req 0%fin
                                       (left_req (g_ctx s) dp a cp) (g_ctx s)
                                else g_ctx s) !!! i))
                      (if x1 a <? SCREEN_WIDTH
                       then if w_ret W (calls s) =? OK then [] ++ [0%fin]
                            else [] else [])) /\
               q = foldl (fun q' i => unqueue i q')
                     (if x1 a <? SCREEN_WIDTH
                      then if w_ret W (calls s) =? OK then [] ++ [0%fin]
                           else [] else [])
                     (if x1 a <? SCREEN_WIDTH
                      then if w_ret W (calls s) =? OK then [] ++ [0%fin]
                           else [] else [])) /\
              (early = false ->
               tr = (if x1 a <? SCREEN_WIDTH
                     then trace s ++
                          [EvWorkQueue 0%fin (left_req (g_ctx s) dp a cp)
                             (w_ret W (calls s))]
                     else trace s) /\
               q = (if x1 a <? SCREEN_WIDTH
                    then if w_ret W (calls s) =? OK then [] ++ [0%fin]
                         else [] else [])) /\
              c = (if x1 a <? SCREEN_WIDTH
                   then store_req 0%fin (left_req (g_ctx s) dp a cp) (g_ctx s)
                   else g_ctx s)).
    { destruct early.
      - apply run_fifo_summary in H0. do 3 eexists.
        split; [exact H0 |]. split; [auto |]. split; [discriminate | auto].
      - rewrite exec_ret. do 3 eexists.
        split; [exact H0 |]. split; [discriminate |]. split; auto. }
    clear H0. destruct H1 as (tr & c & q & H1 & Hearly & Hlate & Hc).
    apply (flush_right_summary W dp a cp) in H1.
    apply run_fifo_summary in H1.
    subst s2. unfold flush_under_fifo. rewrite !exec_bind.
    destruct H1 as (Ht & _ & Hq & _). rewrite Ht, Hq. clear Ht Hq. subst c.
    destruct (x1 a <? SCREEN_WIDTH) eqn:Hl;
      destruct (SCREEN_WIDTH <=? x2 a) eqn:Hr;
      try (apply Z.ltb_ge in Hl; apply Z.leb_gt in Hr; exfalso; lia);
      (destruct early;
       [ destruct (Hearly eq_refl) as [-> ->]
       | destruct (Hlate eq_refl) as [-> ->] ]);
      clear Hearly Hlate;
      rewrite ?Hok0, ?Hok1; cbn [Z.eqb OK Pos.eqb app];
      cbn [map concat foldl app]; rewrite ?unqueue_head;
      cbn [map concat foldl app]; rewrite ?unqueue_head;
      rewrite ?right_req_store_req;
      rewrite ?vlookup_store_req;
      rewrite ?vlookup_store_req_ne by discriminate;
      rewrite ?vlookup_store_req.
    all: rewrite ?(worker_events_quiet (left_req _ _ _ _))
           by (rewrite Hnl; reflexivity).
    all: rewrite ?(worker_events_notify (left_req _ _ _ _))
           by (rewrite ?Hnl; cbn; auto).
    all: rewrite ?(worker_events_notify (right_req _ _ _ _))
           by (cbn; auto).
    all: cbn [disp right_req left_req cfg]; rewrite ?app_nil_r.
    all: split; [reflexivity |].
    all: rewrite <- ?app_assoc.
    all: eexists; split;
      [| f_equal;
         repeat first [ exact (ends_ready_base _) | eapply ends_ready_step ] ].
    all: rewrite ?ready_count_app, ?ready_count_rows; reflexivity. }
  destruct Hq as (Hq & pre & Hpre & Ht).
  apply since_app in Ht.
  destruct (Hfin pre Hpre Ht) as (H1 & H2 & H3).
  repeat split; assumption.
Qed.

Lemma fifo_completes_once_after_all_witness :
  valid_area area0 /\ display0 <> NULL /\
  hpwork (sys_of ctx_mapped) = [] /\
  accepts world_accept (sys_of ctx_mapped) /\
  (let s2 := exec (flush_under_fifo world_accept true display0 area0
                     canvas0) (sys_of ctx_mapped) in
   ready_count (since (sys_of ctx_mapped) s2) = 1%nat /\
   copies_before_ready (since (sys_of ctx_mapped) s2) = true /\
   (exists pre,
      since (sys_of ctx_mapped) s2 = pre ++ [EvFlushReady display0] /\
      ready_count pre = 0%nat) /\
   hpwork s2 = []) /\
  (let s2 := exec (flush_under_fifo world_accept false display0 area0
                     canvas0) (sys_of ctx_mapped) in
   ready_count (since (sys_of ctx_mapped) s2) = 1%nat /\
   copies_before_ready (since (sys_of ctx_mapped) s2) = true /\
   (exists pre,
      since (sys_of ctx_mapped) s2 = pre ++ [EvFlushReady display0] /\
      ready_count pre = 0%nat) /\
   hpwork s2 = []).
Proof.
  assert (Hv : valid_area area0) by concrete_area.
  assert (Hd : display0 <> NULL) by discriminate.
  assert (Hq : hpwork (sys_of ctx_mapped) = []) by reflexivity.
  assert (Ha : accepts world_accept (sys_of ctx_mapped))
    by (split; reflexivity).
  split; [exact Hv |]. split; [exact Hd |]. split; [exact Hq |].
  split; [exact Ha |]. split.
  - exact (fifo_completes_once_after_all world_accept (sys_of ctx_mapped)
             display0 area0 canvas0 true Hv Hd Hq Ha).
  - exact (fifo_completes_once_after_all world_accept (sys_of ctx_mapped)
             display0 area0 canvas0 false Hv Hd Hq Ha).
Defined.

(** ** Acquiring the framebuffers *)

Lemma load_store_eq m v c : load m (store m v c) = v.
Proof. destruct m as [[] | [] | [] | []], c; reflexivity. Qed.

Lemma load_store_ne m m' v c : m <> m' -> load m (store m' v c) = load m c.
Proof.
  intros H.
  destruct m as [[] | [] | [] | []], m' as [[] | [] | [] | []], c;
    try reflexivity; congruence.
Qed.

(** Unfolds the calls of the environment and computes on states, leaving
    the contents of the members and the multiset of resources folded. *)
Ltac run_calls :=
  unfold sys_open, sys_close, sys_mmap, sys_munmap, malloc, free,
    ioctl_videoinfo, ioctl_planeinfo, lv_display_create, answer,
    bind, ret, gets, modify, exec, eval in *.

Ltac simp_sys :=
  cbn beta iota zeta;
  cbn [fst snd g_ctx ram hpwork live calls trace
       upd_ctx upd_ram upd_hpwork upd_live tick emit] in *;
  rewrite ?load_store_eq in *.

(** Decides the next test of the program, whichever way it goes. *)
Ltac branch :=
  match goal with
  | |- context [if ?b then _ else _] => destruct b eqn:?; simp_sys
  end.

Ltac bool_facts :=
  repeat match goal with
    | H : (_ <? _) = true |- _ => apply Z.ltb_lt in H
    | H : (_ <? _) = false |- _ => apply Z.ltb_ge in H
    | H : (_ =? _) = true |- _ => apply Z.eqb_eq in H
    | H : (_ =? _) = false |- _ => apply Z.eqb_neq in H
    end.

Lemma init_framebuffer_outcome W path fd mem stride fblen s :
  fb_outcome W fd mem stride fblen s
    (eval (init_framebuffer W path fd mem stride fblen) s)
    (exec (init_framebuffer W path fd mem stride fblen) s).
Proof.
  unfold init_framebuffer. run_calls. simp_sys.
  repeat branch;
    rewrite ?(load_store_ne (Mint fd) (Mptr mem)) in * by discriminate;
    simp_sys; bool_facts.
  all: try (exfalso; unfold MAP_FAILED in *; lia).
  all: first
    [ solve [apply Fb_open_fails; simp_sys; auto; multiset_solver]
    | solve [apply Fb_videoinfo_fails; simp_sys; auto; multiset_solver]
    | solve [apply Fb_planeinfo_fails; simp_sys; auto; multiset_solver]
    | solve [apply Fb_mmap_fails; simp_sys; auto;
             try (f_equal; congruence); multiset_solver]
    | solve [apply Fb_mapped; simp_sys; auto; multiset_solver] ].
Qed.

(** C10. When [open] and both [ioctl] calls succeed and [mmap] fails,
    [init_framebuffer] returns -1 having closed the descriptor it opened
    (the process holds what it held before), the [mem] output holds
    [MAP_FAILED], which is not [NULL], and the [stride] and [fblen] outputs
    hold what they held before. Whenever the function does not return 0
    these two outputs are untouched, and when it returns 0 they hold the
    stride and the length of the plane information. *)
Theorem init_framebuffer_mmap_failure W path fd mem stride fblen s :
  let r := eval (init_framebuffer W path fd mem stride fblen) s in
  let s' := exec (init_framebuffer W path fd mem stride fblen) s in
  (0 <= w_ret W (calls s) ->
   0 <= w_ret W (S (calls s)) ->
   0 <= w_ret W (S (S (calls s))) ->
   w_ret W (S (S (S (calls s)))) = MAP_FAILED ->
   r = -1 /\
   live s' = live s /\
   load (Mint fd) (g_ctx s') = w_ret W (calls s) /\
   load (Mptr mem) (g_ctx s') = MAP_FAILED /\ MAP_FAILED <> NULL /\
   load (Mu32 stride) (g_ctx s') = load (Mu32 stride) (g_ctx s) /\
   load (Msize fblen) (g_ctx s') = load (Msize fblen) (g_ctx s)) /\
  (r <> 0 ->
   load (Mu32 stride) (g_ctx s') = load (Mu32 stride) (g_ctx s) /\
   load (Msize fblen) (g_ctx s') = load (Msize fblen) (g_ctx s)) /\
  (r = 0 ->
   load (Mu32 stride) (g_ctx s') = pi_stride (w_pinfo W (S (S (calls s)))) /\
   load (Msize fblen) (g_ctx s') = pi_fblen (w_pinfo W (S (S (calls s))))).
Proof.
  intros r s'.
  pose proof (init_framebuffer_outcome W path fd mem stride fblen s) as Ho.
  fold r s' in Ho.
  split; [| split].
  - intros H0 H1 H2 H3.
    inversion Ho as [s0 F0 | s0 F0 F1 | s0 F0 F1 F2
                    | s0 F0 F1 F2 F3 Hc Hl | s0 F0 F1 F2 F3]; subst;
      try (exfalso; lia); try (exfalso; congruence).
    rewrite Hc, Hl.
    rewrite load_store_eq.
    rewrite (load_store_ne (Mint fd) (Mptr mem)), load_store_eq
      by discriminate.
    rewrite !(load_store_ne (Mu32 stride)), !(load_store_ne (Msize fblen))
      by discriminate.
    repeat split; try reflexivity. discriminate.
  - intros Hr.
    inversion Ho as [s0 F0 Hc | s0 F0 F1 Hc | s0 F0 F1 F2 Hc
                    | s0 F0 F1 F2 F3 Hc | s0 F0 F1 F2 F3 Hc]; subst;
      try congruence; rewrite Hc;
      rewrite !(load_store_ne (Mu32 stride)),
              !(load_store_ne (Msize fblen)) by discriminate;
      split; reflexivity.
  - intros Hr.
    inversion Ho as [s0 F0 Hc | s0 F0 F1 Hc | s0 F0 F1 F2 Hc
                    | s0 F0 F1 F2 F3 Hc | s0 F0 F1 F2 F3 Hc]; subst;
      try congruence. rewrite Hc.
    rewrite (load_store_ne (Mu32 stride) (Msize fblen)) by discriminate.
    rewrite !load_store_eq. split; reflexivity.
Qed.

Lemma init_framebuffer_mmap_failure_witness :
  0 <= w_ret world_mmap_fails 0 /\
  0 <= w_ret world_mmap_fails 1 /\
  0 <= w_ret world_mmap_fails 2 /\
  w_ret world_mmap_fails 3 = MAP_FAILED /\
  let r := eval (init_framebuffer world_mmap_fails "/dev/fb0"
                   Mfd_left Mmem_left Mstride_left Mfblen_left)
             (sys_of ctx_zero) in
  let s' := exec (init_framebuffer world_mmap_fails "/dev/fb0"
                    Mfd_left Mmem_left Mstride_left Mfblen_left)
              (sys_of ctx_zero) in
  r = -1 /\ live s' = ∅ /\ fd_left (g_ctx s') = 3 /\
  mem_left (g_ctx s') = MAP_FAILED /\ MAP_FAILED <> NULL /\
  stride_left (g_ctx s') = 0 /\ fblen_left (g_ctx s') = 0.
Proof.
  assert (H0 : 0 <= w_ret world_mmap_fails 0) by (cbn; lia).
  assert (H1 : 0 <= w_ret world_mmap_fails 1) by (cbn; lia).
  assert (H2 : 0 <= w_ret world_mmap_fails 2) by (cbn; lia).
  assert (H3 : w_ret world_mmap_fails 3 = MAP_FAILED) by reflexivity.
  split; [exact H0 |]. split; [exact H1 |].
  split; [exact H2 |]. split; [exact H3 |].
  exact (proj1 (init_framebuffer_mmap_failure world_mmap_fails "/dev/fb0"
                  Mfd_left Mmem_left Mstride_left Mfblen_left
                  (sys_of ctx_zero)) H0 H1 H2 H3).
Defined.

(** ** Creating the display *)

Lemma run_bind {A B} (m : M A) (k : A -> M B) s :
  bind m k s = k (eval m s) (exec m s).
Proof. unfold bind, eval, exec. destruct (m s); reflexivity. Qed.

Lemma create_dualscreen_display_cases W s :
  let r := eval (create_dualscreen_display W) s in
  let s' := exec (create_dualscreen_display W) s in
  (all_ok W (calls s) /\ r = w_ret W (10 + calls s)%nat /\
   live s' =
     {[+ RHeap (w_ret W (9 + calls s)%nat);
         RHeap (w_ret W (8 + calls s)%nat);
         RMap (w_ret W (7 + calls s)%nat) (pi_fblen (w_pinfo W (6 + calls s)%nat));
         RFd (w_ret W (4 + calls s)%nat);
         RMap (w_ret W (3 + calls s)%nat) (pi_fblen (w_pinfo W (2 + calls s)%nat));
         RFd (w_ret W (calls s)) +]} ⊎ live s) \/
  (~ all_ok W (calls s) /\ r = NULL /\ live s' = live s).
Proof.
  cbn zeta. unfold eval, exec, create_dualscreen_display.
  rewrite run_bind.
  pose proof (init_framebuffer_outcome W "/dev/fb0" Mfd_left Mmem_left
                Mstride_left Mfblen_left s) as O1.
  set (r1 := eval (init_framebuffer W "/dev/fb0" Mfd_left Mmem_left
                Mstride_left Mfblen_left) s) in *.
  set (s1 := exec (init_framebuffer W "/dev/fb0" Mfd_left Mmem_left
                Mstride_left Mfblen_left) s) in *.
  clearbody r1 s1.
  inversion O1 as [s0 F0 Hc Hl Hn | s0 F0 F1 Hc Hl Hn | s0 F0 F1 F2 Hc Hl Hn
                  | s0 F0 F1 F2 F3 Hc Hl Hn | s0 F0 F1 F2 F3 Hc Hl Hn];
    subst; clear O1.
  1-4: right; cbn; split; [| split; [reflexivity | exact Hl]];
       unfold all_ok, fb_ok; intros (K & _); lia.
  change (0 <? 0) with false. cbn iota. rewrite run_bind.
  pose proof (init_framebuffer_outcome W "/dev/fb1" Mfd_right Mmem_right
                Mstride_right Mfblen_right s1) as O2.
  set (r2 := eval (init_framebuffer W "/dev/fb1" Mfd_right Mmem_right
                Mstride_right Mfblen_right) s1) in *.
  set (s2 := exec (init_framebuffer W "/dev/fb1" Mfd_right Mmem_right
                Mstride_right Mfblen_right) s1) in *.
  clearbody r2 s2.
  destruct (g_ctx s) as [fl fr ml mr sl sr bl br d1 d2 rq] eqn:Ec.
  cbn [store] in Hc.
  inversion O2 as [s0 G0 Hc2 Hl2 Hn2 | s0 G0 G1 Hc2 Hl2 Hn2
                  | s0 G0 G1 G2 Hc2 Hl2 Hn2
                  | s0 G0 G1 G2 G3 Hc2 Hl2 Hn2 | s0 G0 G1 G2 G3 Hc2 Hl2 Hn2];
    subst; clear O2; rewrite Hc in Hc2; cbn [store] in Hc2;
    rewrite Hn in *.
  1-4: change (-1 <? 0) with true; cbn iota; run_calls; simp_sys;
       rewrite Hc2; cbn [mem_left fblen_left fd_left];
       right; split;
       [ unfold all_ok, fb_ok; cbn [Nat.add]; unfold MAP_FAILED in *;
         intros (_ & K & _); lia
       | split; [reflexivity | rewrite Hl2, ?Hl; multiset_solver] ].
  change (0 <? 0) with false. cbn iota.
  destruct s2 as [c2 ram2 q2 l2 n2 t2]. cbn [g_ctx live calls] in Hc2, Hl2, Hn2.
  subst c2 l2 n2. rewrite Hl. clear Hl Hn Hc Ec s1.
  run_calls. simp_sys. cbn [store draw_buf draw_buf2].
  repeat (branch; cbn [store draw_buf draw_buf2 mem_left mem_right fblen_left
                       fblen_right fd_left fd_right]).
  all: bool_facts.
  all: try (exfalso; unfold NULL in *; lia).
  all: first
    [ solve [ right; split;
              [ unfold all_ok, fb_ok; cbn [Nat.add]; unfold NULL in *;
                intros (_ & _ & K1 & K2 & K3); lia
              | split; [reflexivity | multiset_solver] ] ]
    | left; split;
      [ unfold all_ok, fb_ok; cbn [Nat.add]; unfold NULL in *; tauto
      | split; [reflexivity | cbn [Nat.add]; multiset_solver] ] ].
Qed.

Example create_succeeds :
  eval (create_dualscreen_display world_ok) (sys_of ctx_zero) = 553648128 /\
  size (live (exec (create_dualscreen_display world_ok) (sys_of ctx_zero)))
    = 6%nat.
Proof. split; vm_compute; reflexivity. Qed.

(** C8. When some acquisition step of [create_dualscreen_display] fails
    (an [open], an [ioctl] or the [mmap] of either framebuffer, either
    [malloc], or [lv_display_create]), the function returns [NULL] and the
    process holds exactly the descriptors, mappings and heap blocks it held
    before the call: everything the earlier steps acquired is released. *)
Theorem create_failure_releases_everything W s :
  ~ all_ok W (calls s) ->
  eval (create_dualscreen_display W) s = NULL /\
  live (exec (create_dualscreen_display W) s) = live s.
Proof.
  intros Hfail.
  destruct (create_dualscreen_display_cases W s) as [(Hok & _) | (_ & H)].
  - contradiction.
  - exact H.
Qed.

Lemma create_failure_releases_everything_witness :
  ~ all_ok world_malloc2_fails (calls (sys_of ctx_zero)) /\
  eval (create_dualscreen_display world_malloc2_fails) (sys_of ctx_zero)
    = NULL /\
  live (exec (create_dualscreen_display world_malloc2_fails)
          (sys_of ctx_zero)) = ∅.
Proof.
  assert (H : ~ all_ok world_malloc2_fails (calls (sys_of ctx_zero))).
  { intros (_ & _ & _ & K & _). apply K. reflexivity. }
  split; [exact H |].
  exact (create_failure_releases_everything world_malloc2_fails
           (sys_of ctx_zero) H).
Defined.

(** * The rest of the program: properties *)

(** ** Stepping the process monad *)

Lemma aexec_bind {X Y} (m : Proc X) (k : X -> Proc Y) a :
  aexec (abind m k) a = aexec (k (aeval m a)) (aexec m a).
Proof. unfold aexec, aeval, abind. destruct (m a); reflexivity. Qed.

Lemma aeval_bind {X Y} (m : Proc X) (k : X -> Proc Y) a :
  aeval (abind m k) a = aeval (k (aeval m a)) (aexec m a).
Proof. unfold aexec, aeval, abind. destruct (m a); reflexivity. Qed.

Lemma aexec_lift {X} (m : M X) a :
  aexec (lift m) a =
    {| proc_sys := exec m (proc_sys a); proc_log := proc_log a |}.
Proof. unfold aexec, lift, exec. destruct (m (proc_sys a)); reflexivity. Qed.

Lemma aeval_lift {X} (m : M X) a : aeval (lift m) a = eval m (proc_sys a).
Proof. unfold aeval, lift, eval. destruct (m (proc_sys a)); reflexivity. Qed.

Ltac run_proc :=
  unfold abind, aret, lift, call, aexec, aeval in *; run_calls.

Ltac simp_proc :=
  cbn beta iota zeta;
  cbn [negb fst snd proc_sys proc_log g_ctx ram hpwork live calls trace
       upd_ctx upd_ram upd_hpwork upd_live tick emit store load
       fd_left fd_right mem_left mem_right stride_left stride_right
       fblen_left fblen_right draw_buf draw_buf2 dma_req].

Ltac pbranch :=
  match goal with
  | |- context [if negb ?b then _ else _] => destruct b eqn:?; simp_proc
  | |- context [if ?b then _ else _] => destruct b eqn:?; simp_proc
  end.

(** ** destroy_dualscreen_display *)

Lemma difference_empty (l : gmultiset resource) : l ∖ ∅ = l.
Proof. multiset_solver. Qed.

Lemma difference_six (l a b c d e f : gmultiset resource) :
  l ∖ a ∖ b ∖ c ∖ d ∖ e ∖ f = l ∖ (a ⊎ b ⊎ c ⊎ d ⊎ e ⊎ f).
Proof. multiset_solver. Qed.

Lemma destroy_exec dp a :
  aexec (destroy_dualscreen_display dp) a =
    {| proc_sys :=
         {| g_ctx := cleared (g_ctx (proc_sys a));
            ram := ram (proc_sys a);
            hpwork := hpwork (proc_sys a);
            live := live (proc_sys a) ∖ released (g_ctx (proc_sys a));
            calls := calls (proc_sys a);
            trace := trace (proc_sys a) |};
       proc_log :=
         proc_log a ++ (if dp =? NULL then [] else [LvDisplayDelete dp]) |}.
Proof.
  destruct a as [[c r q l n t] lg].
  destruct c as [fl fr ml mr sl sr bl br d1 d2 rq].
  unfold destroy_dualscreen_display, cleared, released. run_proc.
  rewrite <- difference_six. cbn beta iota zeta.
  cbn [fst snd proc_sys proc_log g_ctx live draw_buf draw_buf2 mem_left
       mem_right fd_left fd_right fblen_left fblen_right].
  repeat pbranch.
  all: repeat match goal with
         | H : (?x =? NULL) = true |- _ => apply Z.eqb_eq in H; subst x
         end.
  all: simp_proc; rewrite ?difference_empty, ?app_nil_r; reflexivity.
Qed.

(** ** create_dualscreen_display, when every step succeeds *)

Lemma create_dualscreen_display_context W s :
  fb_ok W (calls s) -> fb_ok W (4 + calls s) ->
  w_ret W (8 + calls s) <> NULL -> w_ret W (9 + calls s) <> NULL ->
  g_ctx (exec (create_dualscreen_display W) s) =
    {| fd_left := w_ret W (calls s);
       fd_right := w_ret W (4 + calls s);
       mem_left := w_ret W (3 + calls s);
       mem_right := w_ret W (7 + calls s);
       stride_left := pi_stride (w_pinfo W (2 + calls s));
       stride_right := pi_stride (w_pinfo W (6 + calls s));
       fblen_left := pi_fblen (w_pinfo W (2 + calls s));
       fblen_right := pi_fblen (w_pinfo W (6 + calls s));
       draw_buf := w_ret W (8 + calls s);
       draw_buf2 := w_ret W (9 + calls s);
       dma_req := dma_req (g_ctx s) |} /\
  calls (exec (create_dualscreen_display W) s) = (11 + calls s)%nat.
Proof.
  intros K1 K2 K8 K9.
  unfold fb_ok in K1, K2. cbn [Nat.add] in *.
  destruct K1 as (A0 & A1 & A2 & A3). destruct K2 as (B0 & B1 & B2 & B3).
  unfold exec, create_dualscreen_display. rewrite run_bind.
  pose proof (init_framebuffer_outcome W "/dev/fb0" Mfd_left Mmem_left
                Mstride_left Mfblen_left s) as O1.
  set (r1 := eval (init_framebuffer W "/dev/fb0" Mfd_left Mmem_left
                Mstride_left Mfblen_left) s) in *.
  set (s1 := exec (init_framebuffer W "/dev/fb0" Mfd_left Mmem_left
                Mstride_left Mfblen_left) s) in *.
  clearbody r1 s1.
  inversion O1 as [s0 F0 Hc Hl Hn | s0 F0 F1 Hc Hl Hn | s0 F0 F1 F2 Hc Hl Hn
                  | s0 F0 F1 F2 F3 Hc Hl Hn | s0 F0 F1 F2 F3 Hc Hl Hn];
    subst; clear O1; try (exfalso; lia); try (exfalso; congruence).
  change (0 <? 0) with false. cbn iota. rewrite run_bind.
  pose proof (init_framebuffer_outcome W "/dev/fb1" Mfd_right Mmem_right
                Mstride_right Mfblen_right s1) as O2.
  set (r2 := eval (init_framebuffer W "/dev/fb1" Mfd_right Mmem_right
                Mstride_right Mfblen_right) s1) in *.
  set (s2 := exec (init_framebuffer W "/dev/fb1" Mfd_right Mmem_right
                Mstride_right Mfblen_right) s1) in *.
  clearbody r2 s2.
  destruct (g_ctx s) as [fl fr ml mr sl sr bl br d1 d2 rq] eqn:Ec.
  cbn [store] in Hc.
  inversion O2 as [s0 G0 Hc2 Hl2 Hn2 | s0 G0 G1 Hc2 Hl2 Hn2
                  | s0 G0 G1 G2 Hc2 Hl2 Hn2
                  | s0 G0 G1 G2 G3 Hc2 Hl2 Hn2 | s0 G0 G1 G2 G3 Hc2 Hl2 Hn2];
    subst; clear O2; rewrite Hc in Hc2; cbn [store] in Hc2;
    rewrite Hn in *; try (exfalso; lia); try (exfalso; congruence).
  change (0 <? 0) with false. cbn iota.
  destruct s2 as [c2 ram2 q2 l2 n2 t2]. cbn [g_ctx live calls] in Hc2, Hl2, Hn2.
  subst c2 l2 n2.
  run_calls. simp_sys. cbn [store draw_buf draw_buf2].
  repeat (branch; cbn [store draw_buf draw_buf2 mem_left mem_right fblen_left
                       fblen_right fd_left fd_right]).
  all: bool_facts; try (exfalso; unfold NULL in *; lia).
  all: cbn [dma_req]; split; reflexivity.
Qed.

Lemma create_dualscreen_display_success W s :
  all_ok W (calls s) ->
  g_ctx (exec (create_dualscreen_display W) s) =
    {| fd_left := w_ret W (calls s);
       fd_right := w_ret W (4 + calls s);
       mem_left := w_ret W (3 + calls s);
       mem_right := w_ret W (7 + calls s);
       stride_left := pi_stride (w_pinfo W (2 + calls s));
       stride_right := pi_stride (w_pinfo W (6 + calls s));
       fblen_left := pi_fblen (w_pinfo W (2 + calls s));
       fblen_right := pi_fblen (w_pinfo W (6 + calls s));
       draw_buf := w_ret W (8 + calls s);
       draw_buf2 := w_ret W (9 + calls s);
       dma_req := dma_req (g_ctx s) |} /\
  calls (exec (create_dualscreen_display W) s) = (11 + calls s)%nat.
Proof.
  intros (K1 & K2 & K8 & K9 & _).
  apply create_dualscreen_display_context; assumption.
Qed.

Lemma cleared_idem c : cleared (cleared c) = cleared c.
Proof.
  destruct c as [fl fr ml mr sl sr bl br d1 d2 rq]. unfold cleared.
  cbn [fd_left fd_right mem_left mem_right stride_left stride_right
       fblen_left fblen_right draw_buf draw_buf2 dma_req].
  destruct (Z.leb_spec 0 fl), (Z.leb_spec 0 fr); cbn; try reflexivity.
  all: repeat match goal with
         | H : ?x < 0 |- context [0 <=? ?x] =>
             replace (0 <=? x) with false by (symmetry; apply Z.leb_gt; lia)
         end; reflexivity.
Qed.

Lemma released_cleared c : released (cleared c) = ∅.
Proof.
  destruct c as [fl fr ml mr sl sr bl br d1 d2 rq]. unfold cleared, released.
  cbn [fd_left fd_right mem_left mem_right stride_left stride_right
       fblen_left fblen_right draw_buf draw_buf2 dma_req].
  change (NULL =? NULL) with true. cbn iota.
  assert (E : forall x, (0 <=? (if 0 <=? x then -1 else x)) = false).
  { intros x. destruct (Z.leb_spec 0 x); [reflexivity |].
    apply Z.leb_gt. lia. }
  rewrite !E. multiset_solver.
Qed.

(** X1. [init_framebuffer] returns 0 or -1, and 0 exactly when [open],
    both [ioctl] calls and [mmap] all succeed. When it returns -1 the
    process holds what it held before, at whichever step it failed; when it
    returns 0 it holds one descriptor and one mapping more, and the [fd]
    and [mem] outputs name them. *)
Theorem init_framebuffer_all_or_nothing W path fd mem stride fblen s :
  let r := eval (init_framebuffer W path fd mem stride fblen) s in
  let s' := exec (init_framebuffer W path fd mem stride fblen) s in
  (r = 0 \/ r = -1) /\
  (r = 0 <-> fb_ok W (calls s)) /\
  (r = -1 -> live s' = live s) /\
  (r = 0 ->
   live s' =
     {[+ RMap (load (Mptr mem) (g_ctx s')) (load (Msize fblen) (g_ctx s')) +]}
     ⊎ ({[+ RFd (load (Mint fd) (g_ctx s')) +]} ⊎ live s) /\
   0 <= load (Mint fd) (g_ctx s') /\
   load (Mptr mem) (g_ctx s') <> MAP_FAILED).
Proof.
  intros r s'.
  pose proof (init_framebuffer_outcome W path fd mem stride fblen s) as Ho.
  fold r s' in Ho. unfold fb_ok.
  inversion Ho as [s0 F0 Hc Hl | s0 F0 F1 Hc Hl | s0 F0 F1 F2 Hc Hl
                  | s0 F0 F1 F2 F3 Hc Hl | s0 F0 F1 F2 F3 Hc Hl]; subst.
  1-4: split; [right; reflexivity |]; split;
       [split; [discriminate | intros (? & ? & ? & ?); exfalso;
                               unfold MAP_FAILED in *; lia]
       | split; [intros _; exact Hl | discriminate]].
  split; [left; reflexivity |]. split; [tauto |].
  split; [discriminate |]. intros _. rewrite Hc, Hl.
  rewrite !load_store_eq.
  rewrite !(load_store_ne (Mptr mem)), !(load_store_ne (Mint fd))
    by discriminate.
  rewrite !load_store_eq. auto.
Qed.

(** X2. When every acquisition step succeeds, [create_dualscreen_display]
    returns the display LVGL created, which is not [NULL]; the context
    names what was acquired (descriptors, mappings with their stride and
    length, the two draw buffers) and leaves the request slots untouched;
    and the process holds exactly these six resources more than before. *)
Theorem create_success_fills_context W s :
  all_ok W (calls s) ->
  let dp := eval (create_dualscreen_display W) s in
  let s' := exec (create_dualscreen_display W) s in
  let c := g_ctx s' in
  dp <> NULL /\ dp = w_ret W (10 + calls s) /\
  live s' =
    {[+ RHeap (draw_buf2 c); RHeap (draw_buf c);
        RMap (mem_right c) (fblen_right c); RFd (fd_right c);
        RMap (mem_left c) (fblen_left c); RFd (fd_left c) +]} ⊎ live s /\
  stride_left c = pi_stride (w_pinfo W (2 + calls s)) /\
  stride_right c = pi_stride (w_pinfo W (6 + calls s)) /\
  0 <= fd_left c /\ 0 <= fd_right c /\
  mem_left c <> MAP_FAILED /\ mem_right c <> MAP_FAILED /\
  draw_buf c <> NULL /\ draw_buf2 c <> NULL /\
  dma_req c = dma_req (g_ctx s).
Proof.
  intros Hok dp s' c.
  destruct (create_dualscreen_display_success W s Hok) as [Hc _].
  destruct (create_dualscreen_display_cases W s)
    as [(_ & Hr & Hl) | (Hno & _)]; [| contradiction].
  fold dp in Hr. fold s' in Hl, Hc. subst c. rewrite Hc, Hl, Hr.
  cbn [fd_left fd_right mem_left mem_right stride_left stride_right
       fblen_left fblen_right draw_buf draw_buf2 dma_req].
  destruct Hok as ((A0 & A1 & A2 & A3) & (B0 & B1 & B2 & B3) & K8 & K9 & K10).
  cbn [Nat.add] in *. repeat split; try assumption; try reflexivity.
Qed.

Lemma create_success_fills_context_witness :
  all_ok world_ok (calls (sys_of ctx_zero)) /\
  let dp := eval (create_dualscreen_display world_ok) (sys_of ctx_zero) in
  let c := g_ctx (exec (create_dualscreen_display world_ok)
                    (sys_of ctx_zero)) in
  dp <> NULL /\ dp = 553648128 /\
  fd_left c = 3 /\ fd_right c = 4 /\
  mem_left c = 268435456 /\ mem_right c = 272629760 /\
  draw_buf c <> NULL /\ draw_buf2 c <> NULL.
Proof.
  assert (H : all_ok world_ok (calls (sys_of ctx_zero))).
  { unfold all_ok, fb_ok, MAP_FAILED, NULL; cbn. repeat split; lia. }
  split; [exact H |].
  destruct (create_success_fills_context world_ok (sys_of ctx_zero) H)
    as (H1 & H2 & _ & _ & _ & _ & _ & _ & _ & H3 & H4 & _).
  repeat split; try assumption; reflexivity.
Defined.

(** X3. A display that was created with every step succeeding and both
    framebuffers mapped at addresses other than [NULL] is torn down
    completely by [destroy_dualscreen_display]: the process holds again
    exactly what it held before the creation, both descriptor members are
    -1, the four pointer members are [NULL], and LVGL was asked once to
    delete the display. *)
Theorem create_then_destroy_releases_everything W s :
  all_ok W (calls s) ->
  w_ret W (3 + calls s) <> NULL -> w_ret W (7 + calls s) <> NULL ->
  let dp := eval (create_dualscreen_display W) s in
  let a1 := proc_of (exec (create_dualscreen_display W) s) in
  let a2 := aexec (destroy_dualscreen_display dp) a1 in
  live (proc_sys a2) = live s /\
  fd_left (g_ctx (proc_sys a2)) = -1 /\
  fd_right (g_ctx (proc_sys a2)) = -1 /\
  mem_left (g_ctx (proc_sys a2)) = NULL /\
  mem_right (g_ctx (proc_sys a2)) = NULL /\
  draw_buf (g_ctx (proc_sys a2)) = NULL /\
  draw_buf2 (g_ctx (proc_sys a2)) = NULL /\
  proc_log a2 = [LvDisplayDelete dp].
Proof.
  intros Hok HmL HmR dp a1 a2.
  destruct (create_dualscreen_display_success W s Hok) as [Hc _].
  destruct (create_dualscreen_display_cases W s)
    as [(_ & Hr & Hl) | (Hno & _)]; [| contradiction].
  fold dp in Hr.
  destruct Hok as ((A0 & A1 & A2 & A3) & (B0 & B1 & B2 & B3) & K8 & K9 & K10).
  cbn [Nat.add] in *.
  subst a2. rewrite destroy_exec. subst a1.
  cbn [proc_sys proc_log proc_of g_ctx live app].
  rewrite Hc, Hl. unfold cleared, released.
  cbn [fd_left fd_right mem_left mem_right stride_left stride_right
       fblen_left fblen_right draw_buf draw_buf2 dma_req].
  repeat match goal with
    | H : ?x <> NULL |- context [?x =? NULL] =>
        replace (x =? NULL) with false by (symmetry; apply Z.eqb_neq; exact H)
    | H : 0 <= ?x |- context [0 <=? ?x] =>
        replace (0 <=? x) with true by (symmetry; apply Z.leb_le; exact H)
    end.
  replace (dp =? NULL) with false
    by (symmetry; apply Z.eqb_neq; rewrite Hr; exact K10).
  repeat split; try reflexivity. multiset_solver.
Qed.

Lemma create_then_destroy_releases_everything_witness :
  all_ok world_ok (calls (sys_of ctx_zero)) /\
  w_ret world_ok (3 + calls (sys_of ctx_zero)) <> NULL /\
  w_ret world_ok (7 + calls (sys_of ctx_zero)) <> NULL /\
  let a2 := aexec (destroy_dualscreen_display 553648128)
              (proc_of (exec (create_dualscreen_display world_ok)
                          (sys_of ctx_zero))) in
  live (proc_sys a2) = ∅ /\
  fd_left (g_ctx (proc_sys a2)) = -1 /\
  fd_right (g_ctx (proc_sys a2)) = -1 /\
  mem_left (g_ctx (proc_sys a2)) = NULL /\
  mem_right (g_ctx (proc_sys a2)) = NULL /\
  draw_buf (g_ctx (proc_sys a2)) = NULL /\
  draw_buf2 (g_ctx (proc_sys a2)) = NULL /\
  proc_log a2 = [LvDisplayDelete 553648128].
Proof.
  assert (H : all_ok world_ok (calls (sys_of ctx_zero))).
  { unfold all_ok, fb_ok, MAP_FAILED, NULL; cbn. repeat split; lia. }
  assert (HL : w_ret world_ok (3 + calls (sys_of ctx_zero)) <> NULL)
    by discriminate.
  assert (HR : w_ret world_ok (7 + calls (sys_of ctx_zero)) <> NULL)
    by discriminate.
  split; [exact H |]. split; [exact HL |]. split; [exact HR |].
  exact (create_then_destroy_releases_everything world_ok (sys_of ctx_zero)
           H HL HR).
Defined.

(** X4. [destroy_dualscreen_display] resets every member it releases, so a
    second call finds nothing to release: whatever display it is given, it
    leaves the state of the process (context, resources held, memory,
    queue) exactly as the first call left it. *)
Theorem destroy_twice_is_destroy_once dp1 dp2 a :
  proc_sys (aexec (destroy_dualscreen_display dp2)
              (aexec (destroy_dualscreen_display dp1) a)) =
  proc_sys (aexec (destroy_dualscreen_display dp1) a).
Proof.
  rewrite !destroy_exec.
  cbn [proc_sys g_ctx ram hpwork live calls trace].
  rewrite cleared_idem, released_cleared, difference_empty. reflexivity.
Qed.

(** ** main *)

Lemma main_startup_run W nb a :
  main_startup W nb a =
    let s := proc_sys a in
    if negb (w_ret W (calls s) =? 0) then
      (Some (-1), {| proc_sys := tick s; proc_log := proc_log a |})
    else
      let pre := proc_log a ++ (if nb then [LvBoardInit] else []) ++
                 [LvInit; LvTickSetCb] in
      let dp := eval (create_dualscreen_display W) (tick s) in
      let s1 := exec (create_dualscreen_display W) (tick s) in
      if dp =? NULL then
        (Some 1, {| proc_sys := s1; proc_log := pre ++ [LvDeinit] |})
      else
        let i0 := w_ret W (calls s1) in
        let i1 := w_ret W (S (calls s1)) in
        (None,
         {| proc_sys := tick (tick s1);
            proc_log :=
              pre ++
              [LvTouchscreenCreate "/dev/input0" i0] ++
              (if i0 =? NULL then [] else [LvIndevSetDisplay i0 dp]) ++
              [LvTouchscreenCreate "/dev/input1" i1] ++
              (if i1 =? NULL then [] else [LvIndevSetDisplay i1 dp]) ++
              [LvCreateTestUi] |}).
Proof.
  destruct a as [s lg]. cbn zeta. cbn [proc_sys proc_log].
  unfold main_startup, abind, lift, call, aret, answer, eval, exec.
  cbn [proc_sys proc_log fst snd].
  destruct (w_ret W (calls s) =? 0); cbn [negb]; [| reflexivity].
  destruct nb; cbn [proc_sys proc_log fst snd];
    destruct (create_dualscreen_display W (tick s)) as [dp s1];
    cbn [proc_sys proc_log fst snd];
    destruct (dp =? NULL); cbn [proc_sys proc_log fst snd calls tick];
    try (rewrite <- ?app_assoc; reflexivity);
    destruct (w_ret W (calls s1) =? NULL);
    cbn [proc_sys proc_log fst snd calls tick];
    destruct (w_ret W (S (calls s1)) =? NULL);
    cbn [proc_sys proc_log fst snd calls tick];
    rewrite <- ?app_assoc; reflexivity.
Qed.

(** An environment in which LVGL is already initialised. *)
Lemma world_reject_initialized : w_ret world_reject 0 <> 0.
Proof. discriminate. Qed.

(** X5. When [lv_is_initialized()] answers true, [main] returns -1 at once:
    it has called neither [lv_init] nor [lv_deinit] nor anything else of
    LVGL, has opened, mapped and allocated nothing, and has left the
    context as it was. *)
Theorem main_refuses_second_instance W nb a :
  w_ret W (calls (proc_sys a)) <> 0 ->
  aeval (main_startup W nb) a = Some (-1) /\
  proc_log (aexec (main_startup W nb) a) = proc_log a /\
  live (proc_sys (aexec (main_startup W nb) a)) = live (proc_sys a) /\
  g_ctx (proc_sys (aexec (main_startup W nb) a)) = g_ctx (proc_sys a).
Proof.
  intros H. unfold aeval, aexec. rewrite main_startup_run. cbn zeta.
  apply Z.eqb_neq in H. rewrite H. cbn. auto.
Qed.

Lemma main_refuses_second_instance_witness :
  w_ret world_reject (calls (proc_sys (proc_of (sys_of ctx_zero)))) <> 0 /\
  aeval (main_startup world_reject true) (proc_of (sys_of ctx_zero))
    = Some (-1) /\
  proc_log (aexec (main_startup world_reject true)
              (proc_of (sys_of ctx_zero))) = [] /\
  live (proc_sys (aexec (main_startup world_reject true)
                    (proc_of (sys_of ctx_zero)))) = ∅.
Proof.
  split; [exact world_reject_initialized |].
  destruct (main_refuses_second_instance world_reject true
              (proc_of (sys_of ctx_zero)) world_reject_initialized)
    as (H1 & H2 & H3 & _).
  repeat split; assumption.
Defined.

(** X6. When LVGL is not yet initialised and some step of the display
    creation fails, [main] returns 1; by then it holds no descriptor,
    mapping or buffer more than at its start, and what it asked of LVGL is
    the board initialisation (if configured), [lv_init], [lv_tick_set_cb]
    and finally [lv_deinit]: no input device, no user interface. *)
Theorem main_display_failure_exits_clean W nb a :
  w_ret W (calls (proc_sys a)) = 0 ->
  ~ all_ok W (S (calls (proc_sys a))) ->
  aeval (main_startup W nb) a = Some 1 /\
  live (proc_sys (aexec (main_startup W nb) a)) = live (proc_sys a) /\
  proc_log (aexec (main_startup W nb) a) =
    proc_log a ++ (if nb then [LvBoardInit] else []) ++
    [LvInit; LvTickSetCb; LvDeinit].
Proof.
  intros H0 Hfail. unfold aeval, aexec. rewrite main_startup_run. cbn zeta.
  rewrite H0. cbn [Z.eqb negb].
  destruct (create_dualscreen_display_cases W (tick (proc_sys a)))
    as [(Hok & _) | (_ & Hr & Hl)]; [contradiction |].
  rewrite Hr. cbn [Z.eqb NULL fst snd proc_sys proc_log].
  change (NULL =? NULL) with true. cbn iota. cbn [fst snd proc_sys proc_log].
  split; [reflexivity |]. split; [exact Hl |].
  rewrite <- !app_assoc. reflexivity.
Qed.

Lemma main_display_failure_exits_clean_witness :
  w_ret world_no_fb (calls (proc_sys (proc_of (sys_of ctx_zero)))) = 0 /\
  ~ all_ok world_no_fb (S (calls (proc_sys (proc_of (sys_of ctx_zero))))) /\
  aeval (main_startup world_no_fb false) (proc_of (sys_of ctx_zero))
    = Some 1 /\
  live (proc_sys (aexec (main_startup world_no_fb false)
                    (proc_of (sys_of ctx_zero)))) = ∅ /\
  proc_log (aexec (main_startup world_no_fb false)
              (proc_of (sys_of ctx_zero))) =
    [LvInit; LvTickSetCb; LvDeinit].
Proof.
  assert (H0 : w_ret world_no_fb
                 (calls (proc_sys (proc_of (sys_of ctx_zero)))) = 0)
    by reflexivity.
  assert (H1 : ~ all_ok world_no_fb
                   (S (calls (proc_sys (proc_of (sys_of ctx_zero)))))).
  { intros ((K & _) & _). cbn in K. lia. }
  split; [exact H0 |]. split; [exact H1 |].
  exact (main_display_failure_exits_clean world_no_fb false
           (proc_of (sys_of ctx_zero)) H0 H1).
Defined.

(** X7. Touchscreens are optional. When LVGL is not yet initialised and
    the display is created, [main] reaches its loop whatever
    [lv_nuttx_touchscreen_create] answers for "/dev/input0" and
    "/dev/input1": it never calls [lv_deinit], it keeps the six resources
    of the display, it attaches an input device to the display exactly
    when that device was created (never a [NULL] device, never another
    display), and it builds the user interface last. *)
Theorem main_touchscreens_are_optional W nb a :
  w_ret W (calls (proc_sys a)) = 0 ->
  all_ok W (S (calls (proc_sys a))) ->
  let dp := w_ret W (11 + calls (proc_sys a)) in
  let i0 := w_ret W (12 + calls (proc_sys a)) in
  let i1 := w_ret W (13 + calls (proc_sys a)) in
  let a' := aexec (main_startup W nb) a in
  aeval (main_startup W nb) a = None /\
  size (live (proc_sys a')) = (6 + size (live (proc_sys a)))%nat /\
  exists new,
    proc_log a' = proc_log a ++ new ++ [LvCreateTestUi] /\
    ~ In LvDeinit new /\
    (forall i d, In (LvIndevSetDisplay i d) new <->
                 d = dp /\ i <> NULL /\ (i = i0 \/ i = i1)).
Proof.
  intros H0 Hok dp i0 i1 a'. subst a'.
  unfold aeval, aexec. rewrite main_startup_run. cbn zeta.
  rewrite H0. cbn [Z.eqb negb].
  destruct (create_dualscreen_display_success W (tick (proc_sys a)) Hok)
    as [_ Hn].
  destruct (create_dualscreen_display_cases W (tick (proc_sys a)))
    as [(_ & Hr & Hl) | (Hno & _)]; [| contradiction].
  cbn [calls tick Nat.add] in Hr, Hl, Hn.
  assert (Hdp : w_ret W (S (S (S (S (S (S (S (S (S (S (S
                  (calls (proc_sys a))))))))))))) <> NULL)
    by (destruct Hok as (_ & _ & _ & _ & K); exact K).
  rewrite Hr, Hn. apply Z.eqb_neq in Hdp. rewrite Hdp.
  cbn [fst snd proc_sys proc_log live tick].
  split; [reflexivity |]. split.
  { rewrite Hl. rewrite !gmultiset_size_disj_union,
      !gmultiset_size_singleton. reflexivity. }
  subst dp i0 i1. cbn [Nat.add].
  set (d := w_ret W
    (S (S (S (S (S (S (S (S (S (S (S (calls (proc_sys a)))))))))))))) in *.
  set (j0 := w_ret W
    (S (S (S (S (S (S (S (S (S (S (S (S (calls (proc_sys a))))))))))))))) in *.
  set (j1 := w_ret W
    (S (S (S (S (S (S (S (S (S (S (S (S (S (calls (proc_sys a)))))))))))))))) in *.
  exists ((if nb then [LvBoardInit] else []) ++ [LvInit; LvTickSetCb] ++
          [LvTouchscreenCreate "/dev/input0" j0] ++
          (if j0 =? NULL then [] else [LvIndevSetDisplay j0 d]) ++
          [LvTouchscreenCreate "/dev/input1" j1] ++
          (if j1 =? NULL then [] else [LvIndevSetDisplay j1 d])).
  split; [rewrite <- !app_assoc; reflexivity |].
  destruct nb, (Z.eqb_spec j0 NULL) as [E0 | E0],
    (Z.eqb_spec j1 NULL) as [E1 | E1]; cbn [app In]; split.
  all: try (intros i d'; split;
            [ intros Hin;
              repeat destruct Hin as [Hin | Hin];
              try discriminate Hin; try contradiction;
              inversion Hin; subst; tauto
            | intros (-> & Hi & [-> | ->]); try contradiction; tauto ]).
  all: intros Hin; repeat destruct Hin as [Hin | Hin];
    try discriminate Hin; contradiction.
Qed.

Lemma main_touchscreens_are_optional_witness :
  w_ret world_boot (calls (proc_sys (proc_of (sys_of ctx_zero)))) = 0 /\
  all_ok world_boot (S (calls (proc_sys (proc_of (sys_of ctx_zero))))) /\
  aeval (main_startup world_boot false) (proc_of (sys_of ctx_zero)) = None /\
  proc_log (aexec (main_startup world_boot false)
              (proc_of (sys_of ctx_zero))) =
    [LvInit; LvTickSetCb;
     LvTouchscreenCreate "/dev/input0" 570425344;
     LvIndevSetDisplay 570425344 553648128;
     LvTouchscreenCreate "/dev/input1" NULL;
     LvCreateTestUi].
Proof.
  assert (H0 : w_ret world_boot
                 (calls (proc_sys (proc_of (sys_of ctx_zero)))) = 0)
    by reflexivity.
  assert (H1 : all_ok world_boot
                 (S (calls (proc_sys (proc_of (sys_of ctx_zero)))))).
  { unfold all_ok, fb_ok, MAP_FAILED, NULL; cbn. repeat split; lia. }
  split; [exact H0 |]. split; [exact H1 |].
  split.
  - exact (proj1 (main_touchscreens_are_optional world_boot false
                    (proc_of (sys_of ctx_zero)) H0 H1)).
  - vm_compute. reflexivity.
Defined.

(** ** What a transfer leaves in memory *)

Lemma rows_ram_out h n ss ds : forall s d m a,
  (forall k, (k < h)%nat ->
     ~ (d + Z.of_nat k * ds <= a < d + Z.of_nat k * ds + n)) ->
  rows_ram h n ss ds s d m a = m a.
Proof.
  induction h as [| h IH]; intros s d m a Hout; [reflexivity |].
  cbn [rows_ram]. rewrite IH.
  - unfold memcpy_ram. specialize (Hout 0%nat ltac:(lia)).
    destruct (Z.leb_spec d a), (Z.ltb_spec a (d + n)); cbn; try reflexivity.
    exfalso. apply Hout. lia.
  - intros k Hk. specialize (Hout (S k) ltac:(lia)).
    intros Hin. apply Hout. lia.
Qed.

Lemma rows_ram_in h n ss ds : forall s d m k j,
  (k < h)%nat -> 0 <= j < n -> n <= ds ->
  (forall k', (k' < h)%nat ->
     ~ (d + Z.of_nat k' * ds <= s + Z.of_nat k * ss + j
        < d + Z.of_nat k' * ds + n)) ->
  rows_ram h n ss ds s d m (d + Z.of_nat k * ds + j) =
    m (s + Z.of_nat k * ss + j).
Proof.
  induction h as [| h IH]; intros s d m k j Hk Hj Hn Hsrc; [lia |].
  cbn [rows_ram]. destruct k as [| k].
  - rewrite rows_ram_out.
    + unfold memcpy_ram.
      destruct (Z.leb_spec d (d + Z.of_nat 0 * ds + j)),
        (Z.ltb_spec (d + Z.of_nat 0 * ds + j) (d + n)); cbn; try lia.
      f_equal. lia.
    + intros k' Hk'. assert (0 <= Z.of_nat k' * ds) by nia. lia.
  - replace (d + Z.of_nat (S k) * ds + j)
      with (d + ds + Z.of_nat k * ds + j) by lia.
    rewrite IH; try lia.
    + unfold memcpy_ram. specialize (Hsrc 0%nat ltac:(lia)).
      replace (s + ss + Z.of_nat k * ss + j)
        with (s + Z.of_nat (S k) * ss + j) by lia.
      destruct (Z.leb_spec d (s + Z.of_nat (S k) * ss + j)),
        (Z.ltb_spec (s + Z.of_nat (S k) * ss + j) (d + n));
        cbn; try reflexivity.
      exfalso. apply Hsrc. lia.
    + intros k' Hk'. specialize (Hsrc (S k') ltac:(lia)).
      intros Hin. apply Hsrc. lia.
Qed.

Lemma dma_rows_ram_eq h c n : forall s d st,
  ram (exec (dma_rows h c n s d) st) =
    rows_ram h n (src_stride c) (dst_stride c) s d (ram st).
Proof.
  induction h as [| h IH]; intros s d st; [reflexivity |].
  cbn [dma_rows rows_ram]. rewrite exec_bind, !exec_memcpy, IH. reflexivity.
Qed.

Lemma dma_worker_ram_eq i st :
  ram (exec (dma_worker i) st) =
    worker_ram (cfg (dma_req (g_ctx st) !!! i)) (ram st).
Proof.
  unfold dma_worker, worker_ram.
  rewrite exec_bind, eval_gets, exec_gets, exec_bind.
  set (r := dma_req (g_ctx st) !!! i).
  destruct (notify r && negb (disp r =? NULL)).
  - unfold lv_display_flush_ready. rewrite exec_modify. cbn.
    apply dma_rows_ram_eq.
  - rewrite exec_ret. apply dma_rows_ram_eq.
Qed.

Lemma run_schedule_ram order : forall st,
  ram (exec (run_schedule order) st) =
    foldl (fun m i => worker_ram (cfg (dma_req (g_ctx st) !!! i)) m)
      (ram st) order.
Proof.
  induction order as [| i rest IH]; intros st; [reflexivity |].
  cbn [run_schedule foldl]. rewrite exec_bind, IH.
  destruct (run_work_exec i st) as (_ & Hc & _ & _). rewrite Hc.
  f_equal. unfold run_work. rewrite exec_bind, exec_modify.
  rewrite dma_worker_ram_eq. reflexivity.
Qed.

Lemma sim_snapshot W c0 dp ntf i st m c q n :
  snapshot st m c q n ->
  snapshot (exec (sim_dma_transfer_2d W c0 dp ntf i) st) m
    (store_req i {| cfg := c0; disp := dp; notify := ntf |} c)
    (if w_ret W n =? OK then q ++ [i] else q) (S n).
Proof.
  intros (<- & <- & <- & <-). rewrite sim_dma_transfer_2d_exec.
  repeat split.
Qed.

Lemma flush_left_snapshot W dp a cp st m c q n :
  snapshot st m c q n ->
  snapshot (exec (flush_left W dp a cp) st) m
    (if x1 a <? SCREEN_WIDTH
     then store_req 0%fin (left_req c dp a cp) c else c)
    (if x1 a <? SCREEN_WIDTH
     then if w_ret W n =? OK then q ++ [0%fin] else q else q)
    (if x1 a <? SCREEN_WIDTH then S n else n).
Proof.
  intros H. rewrite flush_left_exec.
  destruct (x1 a <? SCREEN_WIDTH); [| exact H].
  destruct H as (Hm & <- & Hq & Hn).
  apply sim_snapshot. repeat split; assumption.
Qed.

Lemma flush_right_snapshot W dp a cp st m c q n :
  snapshot st m c q n ->
  snapshot (exec (flush_right W dp a cp) st) m
    (if SCREEN_WIDTH <=? x2 a
     then store_req 1%fin (right_req c dp a cp) c else c)
    (if SCREEN_WIDTH <=? x2 a
     then if w_ret W n =? OK then q ++ [1%fin] else q else q)
    (if SCREEN_WIDTH <=? x2 a then S n else n).
Proof.
  intros H. rewrite flush_right_exec.
  destruct (SCREEN_WIDTH <=? x2 a); [| exact H].
  destruct H as (Hm & <- & Hq & Hn).
  apply sim_snapshot. repeat split; assumption.
Qed.

Lemma run_fifo_snapshot st m c q n :
  snapshot st m c q n ->
  snapshot (exec run_fifo st)
    (foldl (fun m' i => worker_ram (cfg (dma_req c !!! i)) m') m q)
    c (foldl (fun q' i => unqueue i q') q q) n.
Proof.
  intros (<- & <- & <- & <-). rewrite run_fifo_exec.
  destruct (run_schedule_exec (hpwork st) st) as (_ & Hc & Hq & Hn).
  repeat split; try assumption. apply run_schedule_ram.
Qed.

(** The memory after a flush under the FIFO worker: the left transfer, then
    the right one, whether the worker preempts the callback or not. *)
Lemma flush_under_fifo_ram W s dp a cp early :
  hpwork s = [] -> accepts W s ->
  ram (exec (flush_under_fifo W early dp a cp) s) =
    (if SCREEN_WIDTH <=? x2 a
     then worker_ram (right_cfg (g_ctx s) a cp) else fun m => m)
      ((if x1 a <? SCREEN_WIDTH
        then worker_ram (left_cfg (g_ctx s) a cp) else fun m => m) (ram s)).
Proof.
  intros Hidle [Hok0 Hok1].
  assert (H0 : snapshot s (ram s) (g_ctx s) [] (calls s))
    by (repeat split; auto).
  apply (flush_left_snapshot W dp a cp) in H0.
  assert (H1 : exists m c q,
            snapshot (exec (if early then run_fifo else ret tt)
                        (exec (flush_left W dp a cp) s)) m c q
              (if x1 a <? SCREEN_WIDTH then S (calls s) else calls s) /\
            c = (if x1 a <? SCREEN_WIDTH
                 then store_req 0%fin (left_req (g_ctx s) dp a cp) (g_ctx s)
                 else g_ctx s) /\
            (m = ram s /\
             q = (if x1 a <? SCREEN_WIDTH then [0%fin] else []) \/
             m = (if x1 a <? SCREEN_WIDTH
                  then worker_ram (left_cfg (g_ctx s) a cp) (ram s)
                  else ram s) /\
             q = [])).
  { destruct early.
    - apply run_fifo_snapshot in H0. do 3 eexists.
      split; [exact H0 |]. split; [reflexivity |]. right.
      destruct (x1 a <? SCREEN_WIDTH); [| auto].
      rewrite Hok0. cbn [Z.eqb OK app foldl]. rewrite unqueue_head.
      rewrite vlookup_store_req. auto.
    - rewrite exec_ret. do 3 eexists.
      split; [exact H0 |]. split; [reflexivity |]. left.
      destruct (x1 a <? SCREEN_WIDTH); [| auto].
      rewrite Hok0. auto. }
  clear H0. destruct H1 as (m & c & q & H1 & Hc & Hmq).
  apply (flush_right_snapshot W dp a cp) in H1.
  apply run_fifo_snapshot in H1.
  unfold flush_under_fifo. rewrite !exec_bind.
  destruct H1 as (Hm & _). rewrite Hm. clear Hm. subst c.
  destruct (x1 a <? SCREEN_WIDTH) eqn:Hl;
    destruct (SCREEN_WIDTH <=? x2 a) eqn:Hr;
    destruct Hmq as [[-> ->] | [-> ->]];
    rewrite ?Hok0, ?Hok1; cbn [Z.eqb OK Pos.eqb app foldl];
    rewrite ?right_req_store_req, ?vlookup_store_req;
    rewrite ?vlookup_store_req_ne by discriminate;
    rewrite ?vlookup_store_req; reflexivity.
Qed.

(** X8. [dma_worker] moves the bytes it is asked to move: when the rows of
    the destination do not overlap one another ([line_bytes <= dst_stride])
    and byte [j] of source row [k] lies in no destination row, then after
    the worker has run byte [j] of destination row [k] holds what that
    source byte held before. *)
Theorem dma_worker_copies_bytes i st k j :
  let c := cfg (dma_req (g_ctx st) !!! i) in
  let n := Int.umul (width c) (bpp c) in
  0 <= k < height c -> 0 <= j < n -> n <= dst_stride c ->
  (forall k', 0 <= k' < height c ->
     ~ (dst c + k' * dst_stride c <= src c + k * src_stride c + j
        < dst c + k' * dst_stride c + n)) ->
  ram (exec (dma_worker i) st) (dst c + k * dst_stride c + j) =
    ram st (src c + k * src_stride c + j).
Proof.
  intros c n Hk Hj Hn Hsrc. rewrite dma_worker_ram_eq. fold c.
  unfold worker_ram. fold n.
  rewrite <- (Z2Nat.id k) by lia.
  apply rows_ram_in; try lia.
  intros k' Hk'. rewrite Z2Nat.id by lia. apply Hsrc. lia.
Qed.

Lemma dma_worker_copies_bytes_witness :
  ram (exec (dma_worker 0%fin) (sys_with cfg_example))
      (268435456 + 1 * 3840 + 5) =
    ram (sys_with cfg_example) (canvas0 + 1 * 4096 + 5).
Proof.
  apply (dma_worker_copies_bytes 0%fin (sys_with cfg_example) 1 5).
  all: cbn; change (Int.umul 100 4) with 400; unfold canvas0; lia.
Defined.

Lemma row_offset_small st y :
  stride_ok st -> 0 <= y < VIRTUAL_HEIGHT -> Int.wrap_u32 (y * st) = y * st.
Proof.
  unfold stride_ok. unfold_consts. intros [H1 H2] Hy.
  apply wrap_u32_small. unfold Int.is_u32. nia.
Qed.

Lemma fb_pixel_in_block base st x y b :
  stride_ok st -> 0 <= x < SCREEN_WIDTH -> 0 <= y < VIRTUAL_HEIGHT ->
  0 <= b < BYTES_PER_PIXEL ->
  base <= fb_pixel base st x y + b < base + VIRTUAL_HEIGHT * st.
Proof.
  intros Hst Hx Hy Hb. unfold fb_pixel. rewrite row_offset_small by assumption.
  unfold stride_ok in Hst. unfold_consts. nia.
Qed.

Lemma canvas_pixel_in_block cp x y b :
  0 <= x < VIRTUAL_WIDTH -> 0 <= y < VIRTUAL_HEIGHT ->
  0 <= b < BYTES_PER_PIXEL ->
  cp <= canvas_pixel cp x y + b < cp + CANVAS_BYTES.
Proof.
  unfold canvas_pixel, CANVAS_BYTES. unfold_consts. lia.
Qed.

(** One transfer, byte by byte: the pixels of the rectangle [r] of the
    framebuffer come from the rectangle [g] of the draw buffer. *)
Lemma transfer_paints c base st r cp g m x y b :
  writes_rect c base st r -> reads_rect c cp g ->
  y1 g = y1 r ->
  on_surface SCREEN_WIDTH r -> on_surface VIRTUAL_WIDTH g ->
  stride_ok st ->
  apart cp CANVAS_BYTES base (VIRTUAL_HEIGHT * st) ->
  inside r x y -> 0 <= b < BYTES_PER_PIXEL ->
  worker_ram c m (fb_pixel base st x y + b) =
    m (canvas_pixel cp (x - x1 r + x1 g) y + b).
Proof.
  intros (Hd & Hds & Hw & Hh & Hb) (Hs & Hss & Hw' & _ & _) Hy1
    [(Hr0 & Hr1 & Hr2) (Hr3 & Hr4 & Hr5)] [(Hg0 & Hg1 & Hg2) _]
    Hst Hap [Hix Hiy] Hbb.
  assert (Ewg : x2 g - x1 g = x2 r - x1 r)
    by (unfold area_width in *; lia).
  unfold worker_ram. rewrite Hd, Hds, Hw, Hh, Hb, Hs, Hss, umul_wrap.
  rewrite (wrap_u32_small (area_width r * BYTES_PER_PIXEL))
    by (unfold Int.is_u32, area_width; unfold_consts; lia).
  pose proof (row_offset_small st y Hst ltac:(lia)) as Ey.
  pose proof (row_offset_small st (y1 r) Hst ltac:(lia)) as Ey1.
  replace (fb_pixel base st x y + b)
    with (fb_pixel base st (x1 r) (y1 r) +
          Z.of_nat (Z.to_nat (y - y1 r)) * st +
          ((x - x1 r) * BYTES_PER_PIXEL + b))
    by (unfold fb_pixel; rewrite Ey, Ey1, Z2Nat.id by lia; lia).
  replace (canvas_pixel cp (x - x1 r + x1 g) y + b)
    with (canvas_pixel cp (x1 g) (y1 g) +
          Z.of_nat (Z.to_nat (y - y1 r)) * (VIRTUAL_WIDTH * BYTES_PER_PIXEL) +
          ((x - x1 r) * BYTES_PER_PIXEL + b))
    by (unfold canvas_pixel; rewrite Z2Nat.id by lia; lia).
  apply rows_ram_in.
  - unfold area_height. lia.
  - unfold area_width. unfold_consts. lia.
  - unfold area_width. destruct Hst as [Hst _]. unfold_consts. lia.
  - intros k' Hk'. unfold area_height in Hk'.
    pose proof (fb_pixel_in_block base st (x1 r) (y1 r + Z.of_nat k') 0
                  Hst ltac:(lia) ltac:(lia)
                  ltac:(unfold_consts; lia)) as Hlo.
    pose proof (fb_pixel_in_block base st (x2 r) (y1 r + Z.of_nat k') 3
                  Hst ltac:(lia) ltac:(lia)
                  ltac:(unfold_consts; lia)) as Hhi.
    pose proof (canvas_pixel_in_block cp (x - x1 r + x1 g) y b
                  ltac:(lia) ltac:(lia) Hbb) as Hcv.
    pose proof (row_offset_small st (y1 r + Z.of_nat k') Hst ltac:(lia))
      as Ek.
    unfold fb_pixel in Hlo, Hhi |- *. rewrite Ek in Hlo, Hhi. rewrite Ey1.
    unfold canvas_pixel in Hcv |- *. unfold area_width.
    rewrite Z2Nat.id by lia. unfold apart in Hap.
    revert Hlo Hhi Hcv Hap. unfold_consts. rewrite Hy1. lia.
Qed.

(** One transfer writes inside the rectangle [r] of the framebuffer only. *)
Lemma transfer_elsewhere c base st r m addr :
  writes_rect c base st r ->
  on_surface SCREEN_WIDTH r -> stride_ok st ->
  (forall x y b, inside r x y -> 0 <= b < BYTES_PER_PIXEL ->
                 addr <> fb_pixel base st x y + b) ->
  worker_ram c m addr = m addr.
Proof.
  intros (Hd & Hds & Hw & Hh & Hb)
    [(Hr0 & Hr1 & Hr2) (Hr3 & Hr4 & Hr5)] Hst Hne.
  unfold worker_ram. rewrite Hd, Hds, Hw, Hh, Hb, umul_wrap.
  rewrite (wrap_u32_small (area_width r * BYTES_PER_PIXEL))
    by (unfold Int.is_u32, area_width; unfold_consts; lia).
  apply rows_ram_out. intros k Hk Hin.
  unfold area_height in Hk. unfold area_width in Hin.
  pose proof (row_offset_small st (y1 r) Hst ltac:(lia)) as Ey1.
  pose proof (row_offset_small st (y1 r + Z.of_nat k) Hst ltac:(lia)) as Ek.
  set (o := addr - (fb_pixel base st (x1 r) (y1 r) + Z.of_nat k * st)) in *.
  apply (Hne (x1 r + o / BYTES_PER_PIXEL) (y1 r + Z.of_nat k)
           (o mod BYTES_PER_PIXEL)).
  - unfold inside. revert Hin. subst o. unfold_consts.
    Z.div_mod_to_equations. lia.
  - unfold_consts. Z.div_mod_to_equations. lia.
  - unfold fb_pixel in *. rewrite Ek. revert Hin. subst o.
    rewrite Ey1. unfold_consts. Z.div_mod_to_equations. lia.
Qed.

Lemma transfer_outside_block c base st r m addr :
  writes_rect c base st r ->
  on_surface SCREEN_WIDTH r -> stride_ok st ->
  ~ (base <= addr < base + VIRTUAL_HEIGHT * st) ->
  worker_ram c m addr = m addr.
Proof.
  intros Hw Hr Hst Hout. apply (transfer_elsewhere c base st r); auto.
  intros x y b [Hx Hy] Hb ->. apply Hout.
  destruct Hr as [(? & ? & ?) (? & ? & ?)].
  apply fb_pixel_in_block; auto; lia.
Qed.

Lemma left_rect_on_surface a :
  valid_area a -> x1 a < SCREEN_WIDTH ->
  on_surface SCREEN_WIDTH
    {| x1 := x1 a; y1 := y1 a;
       x2 := Z.min (x2 a) (SCREEN_WIDTH - 1); y2 := y2 a |}.
Proof. unfold valid_area, on_surface. cbn. unfold_consts. lia. Qed.

Lemma right_rect_on_surface a :
  valid_area a -> SCREEN_WIDTH <= x2 a ->
  on_surface VIRTUAL_WIDTH
    {| x1 := Z.max (x1 a) SCREEN_WIDTH; y1 := y1 a;
       x2 := x2 a; y2 := y2 a |} /\
  on_surface SCREEN_WIDTH
    (shift_x (- SCREEN_WIDTH)
       {| x1 := Z.max (x1 a) SCREEN_WIDTH; y1 := y1 a;
          x2 := x2 a; y2 := y2 a |}).
Proof. unfold valid_area, on_surface, shift_x. cbn. unfold_consts. lia. Qed.

Lemma on_surface_wider w r :
  on_surface SCREEN_WIDTH r -> w = VIRTUAL_WIDTH -> on_surface w r.
Proof. intros H ->. revert H. unfold on_surface. unfold_consts. lia. Qed.

(** X9. A flush shows the dirty area. For a valid area, an idle queue that
    accepts the submissions and a memory laid out as [layout_ok] says, once
    the FIFO worker has run (whether it preempts the callback or not) every
    byte of every pixel [(x, y)] of the area stands in the framebuffer of
    its screen: at column [x] of the left framebuffer for [x < 960], at
    column [x - 960] of the right one otherwise, row [y] in both. *)
Theorem flush_paints_dirty_area W s dp a cp early x y b :
  valid_area a -> hpwork s = [] -> accepts W s ->
  layout_ok (g_ctx s) cp ->
  inside a x y -> 0 <= b < BYTES_PER_PIXEL ->
  ram (exec (flush_under_fifo W early dp a cp) s)
      (screen_byte (g_ctx s) x y b) =
    ram s (canvas_pixel cp x y + b).
Proof.
  intros Hv Hidle Hacc (Hsl & Hsr & Hcl & Hcr & Hlr) Hin Hb.
  rewrite flush_under_fifo_ram by assumption.
  pose proof Hv as [(Hx0 & Hx & Hx2) (Hy0 & Hy & Hy2)].
  pose proof Hin as [Hix Hiy].
  pose proof (canvas_pixel_in_block cp x y b ltac:(lia) ltac:(lia) Hb)
    as Hcv.
  unfold screen_byte.
  destruct (Z.ltb_spec x SCREEN_WIDTH) as [Hxl | Hxr].
  - (* a pixel of the left screen *)
    assert (Hl : x1 a < SCREEN_WIDTH) by lia.
    destruct (left_cfg_rect (g_ctx s) a cp Hv Hl) as [Hwl Hrl].
    pose proof (left_rect_on_surface a Hv Hl) as Hsl'.
    pose proof (fb_pixel_in_block (mem_left (g_ctx s))
                  (stride_left (g_ctx s)) x y b Hsl
                  ltac:(lia) ltac:(lia) Hb) as Hfb.
    apply Z.ltb_lt in Hl. rewrite Hl. apply Z.ltb_lt in Hl.
    assert (Hpaint :
      worker_ram (left_cfg (g_ctx s) a cp) (ram s)
        (fb_pixel (mem_left (g_ctx s)) (stride_left (g_ctx s)) x y + b) =
      ram s (canvas_pixel cp x y + b)).
    { rewrite (transfer_paints _ _ _ _ cp _ (ram s) x y b Hwl Hrl);
        auto.
      - cbn [x1]. f_equal. f_equal. f_equal. lia.
      - apply on_surface_wider; [assumption | reflexivity].
      - unfold inside. cbn [x1 x2 y1 y2]. unfold_consts. lia. }
    destruct (Z.leb_spec SCREEN_WIDTH (x2 a)) as [Hr | Hr];
      [| exact Hpaint].
    destruct (right_cfg_rect (g_ctx s) a cp Hv Hr) as [Hwr _].
    destruct (right_rect_on_surface a Hv Hr) as [_ Hsr'].
    rewrite (transfer_outside_block _ _ _ _ _ _ Hwr Hsr' Hsr).
    + exact Hpaint.
    + revert Hfb Hlr. unfold apart. lia.
  - (* a pixel of the right screen *)
    assert (Hr : SCREEN_WIDTH <= x2 a) by lia.
    destruct (right_cfg_rect (g_ctx s) a cp Hv Hr) as [Hwr Hrr].
    destruct (right_rect_on_surface a Hv Hr) as [Hsg Hsr'].
    apply Z.leb_le in Hr. rewrite Hr. apply Z.leb_le in Hr.
    rewrite (transfer_paints _ _ _ _ cp _ _ (x - SCREEN_WIDTH) y b
               Hwr Hrr); auto.
    + cbn [x1 shift_x].
      replace (x - SCREEN_WIDTH -
               (Z.max (x1 a) SCREEN_WIDTH + - SCREEN_WIDTH) +
               Z.max (x1 a) SCREEN_WIDTH) with x by lia.
      destruct (Z.ltb_spec (x1 a) SCREEN_WIDTH) as [Hl | Hl];
        [| reflexivity].
      destruct (left_cfg_rect (g_ctx s) a cp Hv Hl) as [Hwl _].
      pose proof (left_rect_on_surface a Hv Hl) as Hsl'.
      apply (transfer_outside_block _ _ _ _ _ _ Hwl Hsl' Hsl).
      revert Hcv Hcl. unfold apart. lia.
    + unfold inside, shift_x. cbn [x1 x2 y1 y2]. unfold_consts. lia.
Qed.

Lemma flush_paints_dirty_area_witness :
  valid_area area0 /\ hpwork (sys_of ctx_mapped) = [] /\
  accepts world_accept (sys_of ctx_mapped) /\
  layout_ok (g_ctx (sys_of ctx_mapped)) canvas0 /\
  inside area0 950 15 /\ inside area0 1000 15 /\
  ram (exec (flush_under_fifo world_accept true display0 area0 canvas0)
         (sys_of ctx_mapped))
      (screen_byte (g_ctx (sys_of ctx_mapped)) 950 15 2) =
    ram (sys_of ctx_mapped) (canvas_pixel canvas0 950 15 + 2) /\
  ram (exec (flush_under_fifo world_accept false display0 area0 canvas0)
         (sys_of ctx_mapped))
      (screen_byte (g_ctx (sys_of ctx_mapped)) 1000 15 0) =
    ram (sys_of ctx_mapped) (canvas_pixel canvas0 1000 15 + 0).
Proof.
  assert (Hv : valid_area area0) by concrete_area.
  assert (Hq : hpwork (sys_of ctx_mapped) = []) by reflexivity.
  assert (Ha : accepts world_accept (sys_of ctx_mapped))
    by (split; reflexivity).
  assert (Hlay : layout_ok (g_ctx (sys_of ctx_mapped)) canvas0).
  { unfold layout_ok, stride_ok, apart, CANVAS_BYTES, canvas0. cbn.
    unfold_consts. lia. }
  assert (Hi1 : inside area0 950 15) by (unfold inside; cbn; lia).
  assert (Hi2 : inside area0 1000 15) by (unfold inside; cbn; lia).
  assert (Hb1 : 0 <= 2 < BYTES_PER_PIXEL) by (unfold_consts; lia).
  assert (Hb2 : 0 <= 0 < BYTES_PER_PIXEL) by (unfold_consts; lia).
  split; [exact Hv |]. split; [exact Hq |]. split; [exact Ha |].
  split; [exact Hlay |]. split; [exact Hi1 |]. split; [exact Hi2 |].
  split.
  - exact (flush_paints_dirty_area world_accept (sys_of ctx_mapped)
             display0 area0 canvas0 true 950 15 2 Hv Hq Ha Hlay Hi1 Hb1).
  - exact (flush_paints_dirty_area world_accept (sys_of ctx_mapped)
             display0 area0 canvas0 false 1000 15 0 Hv Hq Ha Hlay Hi2 Hb2).
Defined.

(** X10. A flush touches nothing but the dirty area. For a valid area, an
    idle queue that accepts the submissions and strides as [stride_ok]
    wants them, a byte of memory that is not the place of a byte of a
    pixel of the area holds after the flush, the FIFO worker having run,
    what it held before: the rest of both framebuffers, the draw buffer
    and everything else stay as they were. *)
Theorem flush_touches_only_dirty_area W s dp a cp early addr :
  valid_area a -> hpwork s = [] -> accepts W s ->
  stride_ok (stride_left (g_ctx s)) -> stride_ok (stride_right (g_ctx s)) ->
  (forall x y b, inside a x y -> 0 <= b < BYTES_PER_PIXEL ->
                 addr <> screen_byte (g_ctx s) x y b) ->
  ram (exec (flush_under_fifo W early dp a cp) s) addr = ram s addr.
Proof.
  intros Hv Hidle Hacc Hsl Hsr Hne.
  rewrite flush_under_fifo_ram by assumption.
  pose proof Hv as [(Hx0 & Hx & Hx2) (Hy0 & Hy & Hy2)].
  assert (Hleft :
    x1 a < SCREEN_WIDTH ->
    worker_ram (left_cfg (g_ctx s) a cp) (ram s) addr = ram s addr).
  { intros Hl.
    destruct (left_cfg_rect (g_ctx s) a cp Hv Hl) as [Hwl _].
    apply (transfer_elsewhere _ _ _ _ _ _ Hwl
             (left_rect_on_surface a Hv Hl) Hsl).
    intros x y b [Hix Hiy] Hb. cbn [x1 x2 y1 y2] in Hix, Hiy.
    specialize (Hne x y b). unfold screen_byte in Hne.
    destruct (Z.ltb_spec x SCREEN_WIDTH); [| unfold_consts; lia].
    apply Hne; [| exact Hb]. unfold inside. lia. }
  assert (Hright : forall m,
    SCREEN_WIDTH <= x2 a ->
    worker_ram (right_cfg (g_ctx s) a cp) m addr = m addr).
  { intros m Hr.
    destruct (right_cfg_rect (g_ctx s) a cp Hv Hr) as [Hwr _].
    destruct (right_rect_on_surface a Hv Hr) as [_ Hsr'].
    apply (transfer_elsewhere _ _ _ _ _ _ Hwr Hsr' Hsr).
    intros x y b [Hix Hiy] Hb. unfold shift_x in Hix, Hiy.
    cbn [x1 x2 y1 y2] in Hix, Hiy.
    specialize (Hne (x + SCREEN_WIDTH) y b). unfold screen_byte in Hne.
    destruct (Z.ltb_spec (x + SCREEN_WIDTH) SCREEN_WIDTH);
      [unfold_consts; lia |].
    replace (x + SCREEN_WIDTH - SCREEN_WIDTH) with x in Hne by lia.
    apply Hne; [| exact Hb]. unfold inside. lia. }
  destruct (Z.ltb_spec (x1 a) SCREEN_WIDTH),
    (Z.leb_spec SCREEN_WIDTH (x2 a)); rewrite ?Hright by assumption;
    auto.
Qed.

Lemma flush_touches_only_dirty_area_witness :
  valid_area area0 /\ hpwork (sys_of ctx_mapped) = [] /\
  accepts world_accept (sys_of ctx_mapped) /\
  stride_ok (stride_left (g_ctx (sys_of ctx_mapped))) /\
  stride_ok (stride_right (g_ctx (sys_of ctx_mapped))) /\
  ram (exec (flush_under_fifo world_accept true display0 area0 canvas0)
         (sys_of ctx_mapped)) 268435456 =
    ram (sys_of ctx_mapped) 268435456.
Proof.
  assert (Hv : valid_area area0) by concrete_area.
  assert (Hq : hpwork (sys_of ctx_mapped) = []) by reflexivity.
  assert (Ha : accepts world_accept (sys_of ctx_mapped))
    by (split; reflexivity).
  assert (Hs : stride_ok 3840) by (unfold stride_ok; unfold_consts; lia).
  assert (Hne : forall x y b, inside area0 x y -> 0 <= b < BYTES_PER_PIXEL ->
                  268435456 <> screen_byte (g_ctx (sys_of ctx_mapped)) x y b).
  { intros x y b [Hx Hy] Hb. cbn [x1 x2 y1 y2 area0] in Hx, Hy.
    unfold screen_byte, fb_pixel.
    cbn [g_ctx sys_of ctx_mapped mem_left mem_right stride_left stride_right].
    rewrite (row_offset_small 3840 y Hs) by (unfold_consts; lia).
    revert Hb. unfold_consts. intros Hb.
    destruct (x <? 960) eqn:E; [apply Z.ltb_lt in E | apply Z.ltb_ge in E];
      lia. }
  split; [exact Hv |]. split; [exact Hq |]. split; [exact Ha |].
  split; [exact Hs |]. split; [exact Hs |].
  exact (flush_touches_only_dirty_area world_accept (sys_of ctx_mapped)
           display0 area0 canvas0 true 268435456 Hv Hq Ha Hs Hs Hne).
Defined.

(** ** What the callback does not check *)

(** X11. The callback does not wait for a pending transfer. When two
    flushes that both reach the left screen follow one another before the
    worker has run, the second overwrites the request of the first in
    slot 0: the slot holds the left request of the second area, and that
    is the transfer the worker performs when it runs; the left transfer of
    the first area is lost. *)
Theorem second_flush_overwrites_pending W s dp a1 cp1 a2 cp2 :
  x1 a1 < SCREEN_WIDTH -> x1 a2 < SCREEN_WIDTH ->
  let s1 := exec (dualscreen_flush_cb W dp a1 cp1) s in
  let s2 := exec (dualscreen_flush_cb W dp a2 cp2) s1 in
  dma_req (g_ctx s1) !!! 0%fin = left_req (g_ctx s) dp a1 cp1 /\
  dma_req (g_ctx s2) !!! 0%fin = left_req (g_ctx s) dp a2 cp2 /\
  since s2 (exec (dma_worker 0%fin) s2) =
    worker_events (left_req (g_ctx s) dp a2 cp2).
Proof.
  intros H1 H2 s1 s2.
  apply Z.ltb_lt in H1, H2.
  assert (E1 : dma_req (g_ctx s1) !!! 0%fin = left_req (g_ctx s) dp a1 cp1).
  { subst s1. rewrite flush_cb_ctx. cbn zeta. rewrite H1.
    destruct (SCREEN_WIDTH <=? x2 a1);
      rewrite ?vlookup_store_req_ne by discriminate;
      apply vlookup_store_req. }
  assert (E2 : dma_req (g_ctx s2) !!! 0%fin = left_req (g_ctx s) dp a2 cp2).
  { subst s2. rewrite flush_cb_ctx. cbn zeta. rewrite H2.
    assert (E : left_req (g_ctx s1) dp a2 cp2 = left_req (g_ctx s) dp a2 cp2).
    { subst s1. rewrite flush_cb_ctx. cbn zeta. rewrite H1.
      destruct (SCREEN_WIDTH <=? x2 a1);
        rewrite ?left_req_store_req; reflexivity. }
    rewrite E.
    destruct (SCREEN_WIDTH <=? x2 a2);
      rewrite ?vlookup_store_req_ne by discriminate;
      apply vlookup_store_req. }
  split; [exact E1 |]. split; [exact E2 |].
  apply since_app. destruct (dma_worker_exec 0%fin s2) as (Ht & _).
  rewrite Ht, E2. reflexivity.
Qed.

Lemma second_flush_overwrites_pending_witness :
  x1 area_left < SCREEN_WIDTH /\ x1 area0 < SCREEN_WIDTH /\
  dma_req (g_ctx (exec (dualscreen_flush_cb world_accept display0 area0
                          canvas0)
                    (exec (dualscreen_flush_cb world_accept display0
                             area_left canvas0) (sys_of ctx_mapped))))
    !!! 0%fin =
    left_req (g_ctx (sys_of ctx_mapped)) display0 area0 canvas0.
Proof.
  assert (H1 : x1 area_left < SCREEN_WIDTH) by (cbn; unfold_consts; lia).
  assert (H2 : x1 area0 < SCREEN_WIDTH) by (cbn; unfold_consts; lia).
  split; [exact H1 |]. split; [exact H2 |].
  exact (proj1 (proj2 (second_flush_overwrites_pending world_accept
                         (sys_of ctx_mapped) display0 area_left canvas0
                         area0 canvas0 H1 H2))).
Defined.

Lemma wrap_u32_neg z : - 2 ^ 32 <= z < 0 -> Int.wrap_u32 z = z + 2 ^ 32.
Proof.
  intros H. unfold Int.wrap_u32.
  rewrite <- (Z.mod_add z 1) by lia. apply Z.mod_small. lia.
Qed.

(** X12. The callback does not check that the area is the right way
    round. For an area of the left screen whose [x2] lies more than one
    pixel to the left of its [x1], it still submits one request, which
    notifies; the [uint32_t] width of the request is [2^32] less the gap
    [x1 - x2 - 1], and the length of each row copy, a [uint32_t] as well,
    is [2^32] less four times the gap: almost 4 GiB per row. *)
Theorem inverted_left_area_is_submitted W s dp a cp :
  0 <= x2 a -> x2 a + 1 < x1 a -> x1 a < SCREEN_WIDTH ->
  let r := left_req (g_ctx s) dp a cp in
  since s (exec (dualscreen_flush_cb W dp a cp) s) =
    [EvWorkQueue 0%fin r (w_ret W (calls s))] /\
  notify r = true /\
  width (cfg r) = 2 ^ 32 - (x1 a - x2 a - 1) /\
  Int.umul (width (cfg r)) (bpp (cfg r)) = 2 ^ 32 - 4 * (x1 a - x2 a - 1).
Proof.
  intros H0 Hinv Hl r.
  assert (Ew : width (cfg r) = 2 ^ 32 - (x1 a - x2 a - 1)).
  { subst r. unfold left_req, left_cfg, Int.add, Int.sub. cbn [cfg width].
    destruct (Z.ltb_spec (x2 a) SCREEN_WIDTH); [| lia].
    revert Hl H. unfold_consts. intros Hl H.
    rewrite (wrap_i32_small (x2 a - x1 a)) by (unfold Int.is_i32; lia).
    rewrite (wrap_i32_small (x2 a - x1 a + 1)) by (unfold Int.is_i32; lia).
    rewrite wrap_u32_neg by lia. lia. }
  split.
  { apply since_app. rewrite flush_cb_trace. unfold flush_events.
    apply Z.ltb_lt in Hl. rewrite Hl.
    assert (Hr : (SCREEN_WIDTH <=? x2 a) = false)
      by (apply Z.leb_gt; apply Z.ltb_lt in Hl; lia).
    rewrite Hr. reflexivity. }
  split.
  { subst r. unfold left_req. cbn [notify].
    assert (Hr : (SCREEN_WIDTH <=? x2 a) = false) by (apply Z.leb_gt; lia).
    rewrite Hr. reflexivity. }
  split; [exact Ew |].
  rewrite umul_wrap, Ew.
  replace (bpp (cfg r)) with 4 by reflexivity.
  revert Hl. unfold_consts. intros Hl.
  unfold Int.wrap_u32. change (2 ^ 32) with 4294967296.
  Z.div_mod_to_equations. lia.
Qed.

Lemma inverted_left_area_is_submitted_witness :
  0 <= x2 area_backwards /\ x2 area_backwards + 1 < x1 area_backwards /\
  x1 area_backwards < SCREEN_WIDTH /\
  width (cfg (left_req (g_ctx (sys_of ctx_mapped)) display0 area_backwards
                canvas0)) = 4294966897 /\
  Int.umul
    (width (cfg (left_req (g_ctx (sys_of ctx_mapped)) display0
                   area_backwards canvas0)))
    (bpp (cfg (left_req (g_ctx (sys_of ctx_mapped)) display0
                 area_backwards canvas0))) = 4294965700.
Proof.
  assert (H0 : 0 <= x2 area_backwards) by (cbn; lia).
  assert (H1 : x2 area_backwards + 1 < x1 area_backwards) by (cbn; lia).
  assert (H2 : x1 area_backwards < SCREEN_WIDTH)
    by (cbn; unfold_consts; lia).
  split; [exact H0 |]. split; [exact H1 |]. split; [exact H2 |].
  destruct (inverted_left_area_is_submitted world_accept (sys_of ctx_mapped)
              display0 area_backwards canvas0 H0 H1 H2)
    as (_ & _ & Hw & Hn).
  split; [exact Hw | exact Hn].
Defined.

(** ** A failed creation *)

(** X13. A creation that fails does not reset the context. When both
    framebuffers (mapped at addresses other than [NULL]) and both draw
    buffers were obtained and [lv_display_create] fails,
    [create_dualscreen_display] returns [NULL] and the process holds what
    it held before, but the context still names the descriptors it has
    closed, the mappings it has unmapped and the buffers it has freed; a
    [destroy_dualscreen_display] after that releases all six once more. *)
Theorem create_failure_leaves_stale_context W s :
  fb_ok W (calls s) -> fb_ok W (4 + calls s) ->
  w_ret W (3 + calls s) <> NULL -> w_ret W (7 + calls s) <> NULL ->
  w_ret W (8 + calls s) <> NULL -> w_ret W (9 + calls s) <> NULL ->
  w_ret W (10 + calls s) = NULL ->
  let s' := exec (create_dualscreen_display W) s in
  let c := g_ctx s' in
  eval (create_dualscreen_display W) s = NULL /\
  live s' = live s /\
  fd_left c = w_ret W (calls s) /\ fd_right c = w_ret W (4 + calls s) /\
  mem_left c = w_ret W (3 + calls s) /\ mem_right c = w_ret W (7 + calls s) /\
  draw_buf c = w_ret W (8 + calls s) /\ draw_buf2 c = w_ret W (9 + calls s) /\
  live (proc_sys (aexec (destroy_dualscreen_display NULL) (proc_of s'))) =
    live s ∖ {[+ RHeap (draw_buf c); RHeap (draw_buf2 c);
                 RMap (mem_left c) (fblen_left c);
                 RMap (mem_right c) (fblen_right c);
                 RFd (fd_left c); RFd (fd_right c) +]}.
Proof.
  intros K1 K2 K3 K7 K8 K9 K10 s' c.
  destruct (create_dualscreen_display_cases W s)
    as [((_ & _ & _ & _ & Hok) & _) | (_ & Hr & Hl)]; [contradiction |].
  destruct (create_dualscreen_display_context W s K1 K2 K8 K9) as [Hc _].
  fold s' in Hc, Hl. fold c in Hc.
  split; [exact Hr |]. split; [exact Hl |].
  rewrite destroy_exec. cbn [proc_sys proc_of live g_ctx]. fold c.
  rewrite Hl. unfold released. rewrite Hc.
  cbn [fd_left fd_right mem_left mem_right fblen_left fblen_right
       draw_buf draw_buf2].
  destruct K1 as (A0 & _). destruct K2 as (B0 & _).
  apply Z.leb_le in A0, B0. cbn [Nat.add] in *. rewrite A0, B0.
  apply Z.eqb_neq in K3, K7, K8, K9. rewrite K3, K7, K8, K9.
  refine (conj eq_refl (conj eq_refl (conj eq_refl (conj eq_refl
            (conj eq_refl (conj eq_refl _)))))).
  f_equal; multiset_solver.
Qed.

Lemma create_failure_leaves_stale_context_witness :
  w_ret world_no_display (10 + calls (sys_of ctx_zero)) = NULL /\
  eval (create_dualscreen_display world_no_display) (sys_of ctx_zero)
    = NULL /\
  live (exec (create_dualscreen_display world_no_display)
          (sys_of ctx_zero)) = live (sys_of ctx_zero) /\
  fd_left (g_ctx (exec (create_dualscreen_display world_no_display)
                    (sys_of ctx_zero))) = 3 /\
  draw_buf (g_ctx (exec (create_dualscreen_display world_no_display)
                     (sys_of ctx_zero))) = 536870912.
Proof.
  assert (K1 : fb_ok world_no_display (calls (sys_of ctx_zero)))
    by (unfold fb_ok, MAP_FAILED; cbn; lia).
  assert (K2 : fb_ok world_no_display (4 + calls (sys_of ctx_zero)))
    by (unfold fb_ok, MAP_FAILED; cbn; lia).
  assert (K3 : w_ret world_no_display (3 + calls (sys_of ctx_zero)) <> NULL)
    by (cbn; discriminate).
  assert (K7 : w_ret world_no_display (7 + calls (sys_of ctx_zero)) <> NULL)
    by (cbn; discriminate).
  assert (K8 : w_ret world_no_display (8 + calls (sys_of ctx_zero)) <> NULL)
    by (cbn; discriminate).
  assert (K9 : w_ret world_no_display (9 + calls (sys_of ctx_zero)) <> NULL)
    by (cbn; discriminate).
  assert (K10 : w_ret world_no_display (10 + calls (sys_of ctx_zero)) = NULL)
    by reflexivity.
  split; [exact K10 |].
  destruct (create_failure_leaves_stale_context world_no_display
              (sys_of ctx_zero) K1 K2 K3 K7 K8 K9 K10)
    as (H1 & H2 & H3 & _ & _ & _ & H5 & _).
  split; [exact H1 |]. split; [exact H2 |]. split; [exact H3 | exact H5].
Defined.

(** ** The tick and the main loop *)

(** X14. The tick LVGL is given starts again from 0 every [2^32] ms, but
    the difference of two ticks, taken as a [uint32_t], is the time that
    has passed between the two readings of the clock whenever that is
    less than [2^32] ms, also across the wrap-around. *)
Theorem millis_elapsed t1 t2 :
  0 <= ms_of t2 - ms_of t1 < 2 ^ 32 ->
  Int.wrap_u32 (millis t2 - millis t1) = ms_of t2 - ms_of t1.
Proof.
  intros H. unfold millis. fold (ms_of t1) (ms_of t2).
  unfold Int.wrap_u32. rewrite <- Zminus_mod. apply Z.mod_small. exact H.
Qed.

Lemma millis_elapsed_witness :
  0 <= ms_of ts_after - ms_of ts_before < 2 ^ 32 /\
  millis ts_before = 4294967290 /\ millis ts_after = 4 /\
  Int.wrap_u32 (millis ts_after - millis ts_before) = 10.
Proof.
  assert (H : 0 <= ms_of ts_after - ms_of ts_before < 2 ^ 32)
    by (vm_compute; split; [discriminate | reflexivity]).
  split; [exact H |]. split; [reflexivity |]. split; [reflexivity |].
  exact (millis_elapsed ts_before ts_after H).
Defined.

(** X15. Every turn of the main loop sleeps once, for what
    [lv_timer_handler] returned: 1000 microseconds when it returned 0,
    1000 microseconds per millisecond up to 4294967 ms, and the product
    modulo [2^32] beyond, so that the sleep is 0 exactly for the non-zero
    multiples of [2^29] ms. *)
Theorem main_loop_sleep W a :
  let idle := Int.wrap_u32 (w_ret W (calls (proc_sys a))) in
  let us := idle_sleep_us idle in
  proc_log (aexec (main_loop_turn W) a) = proc_log a ++ [LvUsleep us] /\
  (idle = 0 -> us = 1000) /\
  (0 < idle <= 4294967 -> us = idle * 1000) /\
  (us = 0 <-> idle <> 0 /\ idle mod 2 ^ 29 = 0).
Proof.
  intros idle us.
  assert (Hi : 0 <= idle < 2 ^ 32)
    by (subst idle; unfold Int.wrap_u32; apply Z.mod_pos_bound; lia).
  split; [reflexivity |].
  subst us. unfold idle_sleep_us. cbn zeta.
  destruct (Z.eqb_spec idle 0) as [E | E].
  - rewrite umul_wrap. change (Int.wrap_u32 (1 * 1000)) with 1000.
    split; [reflexivity |]. split; [lia |]. split; [lia | tauto].
  - rewrite umul_wrap. split; [contradiction |]. split.
    + intros H. apply wrap_u32_small. unfold Int.is_u32. lia.
    + unfold Int.wrap_u32. change (2 ^ 32) with (2 ^ 29 * 8).
      replace (idle * 1000) with (idle * 125 * 8) by lia.
      rewrite Z.mul_mod_distr_r by lia.
      split.
      * intros H. split; [exact E |].
        assert (H' : (idle * 125) mod 2 ^ 29 = 0) by lia.
        apply Z.mod_divide in H'; [| lia].
        apply Z.mod_divide; [lia |].
        apply Z.gauss with 125.
        -- rewrite Z.mul_comm. exact H'.
        -- reflexivity.
      * intros [_ H]. apply Z.mod_divide in H; [| lia].
        assert (H' : (2 ^ 29 | idle * 125)) by (apply Z.divide_mul_l; exact H).
        apply Z.mod_divide in H'; [| lia]. rewrite H'. reflexivity.
Qed.
